(** * memex: knowledge-base viewer build, MCP tools and CLI

    A shallow embedding of [viewer/build.py], [server/tools.py],
    [server/cli.py] and [server/github_client.py], and the properties of
    the snapshot, the read paths and the upload and add guards.

    Conventions.
    - A Python [str] is a [string], read as its UTF-8 bytes; comparison
      is by byte, which orders strings as Python orders them by code
      point.  White space is that of Unicode, as [str.strip] takes it,
      each character in its UTF-8 bytes; [lower] is that of the ASCII
      range.
    - [str | None] is [option string]; the truth value of such a value is
      [Py.truthy] (false for [None] and for the empty string).
    - A [dict] is a [gmap], a [set] a [gset]; a list that the code appends
      to is a [list] threaded through [foldl].
    - [print] adds a line to the output of a command.
    - What reaches outside the process (HTTP, the file system, the agent
      service) is answered by a [World] and recorded as a list of
      [Call]s. *)

From Stdlib Require Import Ascii String ZArith.
From stdpp Require Import gmap strings list sorting fin_maps pretty.

Local Open Scope string_scope.
Local Open Scope list_scope.
Local Open Scope nat_scope.

(** ** Python built-ins used by the sources *)

Module Py.

(** [bool(s)] for [s : str]. *)
Definition truthy_str (s : string) : bool := negb (String.eqb s "").

(** [bool(o)] for [o : str | None]. *)
Definition truthy (o : option string) : bool :=
  match o with
  | Some s => truthy_str s
  | None => false
  end.

(** [f"{o}"] for [o : str | None]. *)
Definition fmt (o : option string) : string :=
  match o with
  | Some s => s
  | None => "None"
  end.

(** [f"{n}"] for a non-negative [int]. *)
Definition fmt_nat (n : nat) : string := pretty n.

(** [a or b] for [a : str | None] and [b : str]; [a] is a string when it
    is truthy. *)
Definition or_ (a : option string) (b : string) : string :=
  if truthy a then fmt a else b.

(** [sep.join(l)]. *)
Fixpoint join (sep : string) (l : list string) : string :=
  match l with
  | [] => ""
  | [x] => x
  | x :: l' => x +:+ sep +:+ join sep l'
  end.

(** [sorted(l)] on strings.  [String.le] is a total order, so the
    sorted permutation is unique and the sorting algorithm is
    immaterial. *)
Definition sorted (l : list string) : list string :=
  merge_sort String.le l.

(** [s.startswith(p)]. *)
Fixpoint startswith (p s : string) : bool :=
  match p, s with
  | EmptyString, _ => true
  | String a p', String b s' => if decide (a = b) then startswith p' s' else false
  | String _ _, EmptyString => false
  end.

(** [s.split(c)] for a one-character separator. *)
Fixpoint split (c : ascii) (s : string) : list string :=
  match s with
  | EmptyString => [EmptyString]
  | String a s' =>
      if decide (a = c) then EmptyString :: split c s'
      else match split c s' with
           | [] => [String a EmptyString]
           | p :: ps => String a p :: ps
           end
  end.

(** [s.split(c)[0]]. *)
Definition split_head (c : ascii) (s : string) : string :=
  default "" (head (split c s)).

(** The white space of [str.strip()] and [str.isspace()], each character
    as its UTF-8 bytes: U+0009 to U+000D, U+001C to U+001F, U+0020,
    U+0085, U+00A0, U+1680, U+2000 to U+200A, U+2028, U+2029, U+202F,
    U+205F and U+3000. *)
Definition whitespace : list string :=
  [ String "009" ""; String "010" ""; String "011" ""; String "012" "";
    String "013" ""; String "028" ""; String "029" ""; String "030" "";
    String "031" ""; String "032" "";
    String "194" (String "133" "");
    String "194" (String "160" "");
    String "225" (String "154" (String "128" ""));
    String "226" (String "128" (String "128" ""));
    String "226" (String "128" (String "129" ""));
    String "226" (String "128" (String "130" ""));
    String "226" (String "128" (String "131" ""));
    String "226" (String "128" (String "132" ""));
    String "226" (String "128" (String "133" ""));
    String "226" (String "128" (String "134" ""));
    String "226" (String "128" (String "135" ""));
    String "226" (String "128" (String "136" ""));
    String "226" (String "128" (String "137" ""));
    String "226" (String "128" (String "138" ""));
    String "226" (String "128" (String "168" ""));
    String "226" (String "128" (String "169" ""));
    String "226" (String "128" (String "175" ""));
    String "226" (String "129" (String "159" ""));
    String "227" (String "128" (String "128" "")) ].

(** [c.isspace()] for the character of UTF-8 bytes [c]. *)
Definition isspace (c : string) : bool := bool_decide (c ∈ whitespace).

(** [s.lstrip()]: the leading characters that are white space go; a
    character is one, two or three bytes. *)
Fixpoint lstrip (s : string) : string :=
  match s with
  | EmptyString => EmptyString
  | String a s1 =>
      if isspace (String a "") then lstrip s1
      else
        match s1 with
        | EmptyString => s
        | String b s2 =>
            if isspace (String a (String b "")) then lstrip s2
            else
              match s2 with
              | EmptyString => s
              | String c s3 =>
                  if isspace (String a (String b (String c ""))) then lstrip s3
                  else s
              end
        end
  end.

(** [s.rstrip()]: the longest suffix made of white space goes, so that a
    byte stays as long as what starts at it is not white space only. *)
Fixpoint rstrip (s : string) : string :=
  match s with
  | EmptyString => EmptyString
  | String a s' =>
      if String.eqb (lstrip s) "" then EmptyString else String a (rstrip s')
  end.

(** [s.strip()]. *)
Definition strip (s : string) : string := rstrip (lstrip s).

(** [c.lower()] on the ASCII range. *)
Definition lower_ascii (c : ascii) : ascii :=
  let n := nat_of_ascii c in
  if decide (65 ≤ n ≤ 90) then ascii_of_nat (n + 32) else c.

(** [s.lower()]. *)
Fixpoint lower (s : string) : string :=
  match s with
  | EmptyString => EmptyString
  | String a s' => String (lower_ascii a) (lower s')
  end.

(** [PurePosixPath(s).name] as CPython computes it: the last component
    of [s], empty components and [.] components not counted. *)
Definition path_name (s : string) : string :=
  default "" (last (filter (λ p, p ≠ "" ∧ p ≠ ".") (split "/" s))).

(** The part of [s] from its last dot on, if it has a dot. *)
Fixpoint from_last_dot (s : string) : option string :=
  match s with
  | EmptyString => None
  | String a s' =>
      match from_last_dot s' with
      | Some r => Some r
      | None => if decide (a = "."%char) then Some s else None
      end
  end.

(** [PurePosixPath(name).suffix] as CPython up to 3.13 computes it:
    [name[i:]] for [i = name.rfind(".")] when [0 < i < len(name) - 1],
    otherwise the empty string. *)
Definition path_suffix (name : string) : string :=
  match name with
  | EmptyString => ""
  | String _ rest =>
      match from_last_dot rest with
      | Some r => if decide (1 < String.length r) then r else ""
      | None => ""
      end
  end.

End Py.

(** The newline character of the string literals. *)
Definition nl : string := String "010" EmptyString.

(** ** Data model: the fields of [Entry], [Edge], [Source], [Backlink]
    and [SearchResult] that the sources read *)

Module Edge.
Record t := mk { label : string; path : string; description : option string }.
End Edge.

Module Source.
Record t := mk { url : string; title : option string }.
End Source.

Module Entry.
Record t := mk {
  path : string;
  slug : string;
  title : string;
  type : string;
  summary : string;
  tags : list string;
  created : string;
  updated : option string;
  edges : list Edge.t;
  sources : list Source.t;
  body : string;
}.
End Entry.

(** The backlink objects returned by [kb.get_backlinks]. *)
Module Backlink.
Record t := mk {
  path : string;
  title : string;
  label : string;
  description : option string;
}.
End Backlink.

(** The results of [kb.search]; [score] is kept as the text that
    [f"{r.score}"] prints. *)
Module SearchResult.
Record t := mk {
  type : string;
  title : string;
  path : string;
  tags : list string;
  summary : string;
  score : string;
  backlink_count : nat;
}.
End SearchResult.

(** ** viewer/build.py *)

Module Viewer.

(** The dicts that [build] serialises. *)
Record EdgeJson := mkEdgeJson {
  ej_path : string; ej_label : string; ej_description : option string }.

Record BacklinkJson := mkBacklinkJson {
  bj_path : string; bj_title : string; bj_label : string;
  bj_description : option string }.

Record SourceJson := mkSourceJson { sj_url : string; sj_title : option string }.

Record EntryJson := mkEntryJson {
  e_path : string;
  e_slug : string;
  e_title : string;
  e_type : string;
  e_summary : string;
  e_tags : list string;
  e_created : string;
  e_updated : option string;
  e_edges : list EdgeJson;
  e_backlinks : list BacklinkJson;
  e_sources : list SourceJson;
  e_body_html : string;
}.

Record NodeJson := mkNodeJson { n_id : string; n_title : string; n_type : string }.

Record GraphEdgeJson := mkGraphEdgeJson {
  g_from : string; g_to : string; g_label : string }.

Record Stats := mkStats {
  total : nat;
  by_type : gmap string nat;
  stat_tags : list string;
  total_edges : nat;
}.

Record Data := mkData {
  entries : list EntryJson;
  graph_nodes : list NodeJson;
  graph_edges : list GraphEdgeJson;
  stats : Stats;
}.

Section build.

(** [parse_entry(md_path, repo_root)] of server/kb.py, whose result
    [build] tests for truth: [None] is a document that did not parse. *)
Variable parse_entry : string → option Entry.t.

(** The markdown pipeline of lines 48-51: the [re.sub] on the body
    followed by [_md], or the constant [""] when mistune is absent. *)
Variable render_body : string → string.

(** Lines 32-36: the documents in sorted order, the falsy results
    dropped. *)
Definition load_entries (md_paths : list string) : list Entry.t :=
  foldl (λ entries md_path,
           match parse_entry md_path with
           | Some entry => entries ++ [entry]
           | None => entries
           end)
        [] (Py.sorted md_paths).

(** [backlinks[k].append(v)] on a [defaultdict(list)]. *)
Definition dd_append (k : string) (v : BacklinkJson)
    (d : gmap string (list BacklinkJson)) : gmap string (list BacklinkJson) :=
  <[k := default [] (d !! k) ++ [v]]> d.

Definition backlink_of (entry : Entry.t) (edge : Edge.t) : BacklinkJson :=
  {| bj_path := Entry.path entry;
     bj_title := Entry.title entry;
     bj_label := Edge.label edge;
     bj_description := Edge.description edge |}.

(** Lines 38-45. *)
Definition index_backlinks (entries : list Entry.t)
    : gmap string (list BacklinkJson) :=
  foldl (λ backlinks entry,
           foldl (λ backlinks edge,
                    dd_append (Edge.path edge) (backlink_of entry edge) backlinks)
                 backlinks (Entry.edges entry))
        ∅ entries.

Definition edge_json (e : Edge.t) : EdgeJson :=
  {| ej_path := Edge.path e; ej_label := Edge.label e;
     ej_description := Edge.description e |}.

Definition source_json (s : Source.t) : SourceJson :=
  {| sj_url := Source.url s; sj_title := Source.title s |}.

(** Lines 48-73: the dict appended to [entries_data]. *)
Definition entry_json (backlinks : gmap string (list BacklinkJson))
    (entry : Entry.t) : EntryJson :=
  let body_html := render_body (Entry.body entry) in
  let entry_backlinks := default [] (backlinks !! Entry.path entry) in
  {| e_path := Entry.path entry;
     e_slug := Entry.slug entry;
     e_title := Entry.title entry;
     e_type := Entry.type entry;
     e_summary := Entry.summary entry;
     e_tags := Entry.tags entry;
     e_created := Entry.created entry;
     e_updated := Entry.updated entry;
     e_edges := edge_json <$> Entry.edges entry;
     e_backlinks := entry_backlinks;
     e_sources := source_json <$> Entry.sources entry;
     e_body_html := body_html |}.

Definition node_json (entry : Entry.t) : NodeJson :=
  {| n_id := Entry.path entry; n_title := Entry.title entry;
     n_type := Entry.type entry |}.

Definition graph_edge_json (entry : Entry.t) (edge : Edge.t) : GraphEdgeJson :=
  {| g_from := Entry.path entry; g_to := Edge.path edge;
     g_label := Edge.label edge |}.

(** Lines 47-86: one pass appending to the three output lists. *)
Definition emit (backlinks : gmap string (list BacklinkJson))
    (entries : list Entry.t)
    : list EntryJson * list NodeJson * list GraphEdgeJson :=
  foldl (λ '(entries_data, graph_nodes, graph_edges) entry,
           (entries_data ++ [entry_json backlinks entry],
            graph_nodes ++ [node_json entry],
            foldl (λ graph_edges edge,
                     graph_edges ++ [graph_edge_json entry edge])
                  graph_edges (Entry.edges entry)))
        ([], [], []) entries.

(** Lines 88-92. *)
Definition count_types (entries_data : list EntryJson) : gmap string nat :=
  foldl (λ type_counts e,
           <[e_type e := S (default 0 (type_counts !! e_type e))]> type_counts)
        ∅ entries_data.

Definition collect_tags (entries_data : list EntryJson) : gset string :=
  foldl (λ all_tags e, all_tags ∪ list_to_set (e_tags e)) ∅ entries_data.

(** Lines 38-106 on the list of parsed entries. *)
Definition build_data (entries : list Entry.t) : Data :=
  let backlinks := index_backlinks entries in
  let '(entries_data, graph_nodes, graph_edges) := emit backlinks entries in
  let type_counts := count_types entries_data in
  let all_tags := collect_tags entries_data in
  {| entries := entries_data;
     graph_nodes := graph_nodes;
     graph_edges := graph_edges;
     stats := {| total := length entries_data;
                 by_type := type_counts;
                 stat_tags := Py.sorted (elements all_tags);
                 total_edges := length graph_edges |} |}.

(** [build(repo_root, output)]: [None] when there is no [knowledge/]
    directory (nothing is written), otherwise the data that is dumped to
    [output].  [md_paths] is the result of [kb_dir.glob("*.md")]; the
    paths share their directory, so that [sorted] orders them as it
    orders their names. *)
Definition build (kb_dir_exists : bool) (md_paths : list string)
    : option Data :=
  if kb_dir_exists then Some (build_data (load_entries md_paths))
  else None.

End build.

End Viewer.

(** ** Configuration: the fields of [server.config.Config] that the
    sources read or write *)

Module Config.

Record GitHub := mkGitHub {
  owner : string; repo : string; default_branch : string }.

Record Knowledge := mkKnowledge { assets_dir : string }.

Record Sync := mkSync { auto_pull : bool }.

Record t := mk {
  memex_git_token : option string;
  cursor_api_key : option string;
  github : GitHub;
  knowledge : Knowledge;
  sync : Sync;
}.

(** [config.sync.auto_pull = b]. *)
Definition set_auto_pull (b : bool) (config : t) : t :=
  {| memex_git_token := memex_git_token config;
     cursor_api_key := cursor_api_key config;
     github := github config;
     knowledge := knowledge config;
     sync := {| auto_pull := b |} |}.

End Config.

(** ** The [KnowledgeBase] of server/kb.py, as its callers use it.  The
    methods are read as functions of the knowledge base at the time of
    the call. *)

Class KnowledgeBaseOps (KB : Type) := {
  KnowledgeBase : Config.t → KB;
  search : KB → string → Z → list SearchResult.t;
  list_entries : KB → option string → option string → list Entry.t;
  read_entry : KB → string → option Entry.t;
  get_backlinks : KB → string → list Backlink.t;
  get_backlink_count : KB → string → nat;
  all_entries : KB → list Entry.t;
  entry_count : KB → nat;
  (** The [items()] of the two dicts, in dict order. *)
  type_counts : KB → list (string * nat);
  tag_counts : KB → list (string * nat);
}.

(** ** Exceptions and results *)

Inductive exn :=
  | HTTPError (msg : string)
  | GitHubClientError (msg : string)
  | CursorClientError (msg : string)
  | OtherError (msg : string).

Inductive result (A : Type) :=
  | Ok (a : A)
  | Raise (e : exn).
Arguments Ok {A} a.
Arguments Raise {A} e.

Definition bytes := list Byte.byte.

(** ** JSON values and HTTP exchanges *)

Local Unset Elimination Schemes.
Inductive json :=
  | JNull
  | JBool (b : bool)
  | JNum (n : Z)
  | JStr (s : string)
  | JArr (items : list json)
  | JObj (fields : list (string * json)).
Local Set Elimination Schemes.

Module Json.

Fixpoint lookup_field (key : string) (fields : list (string * json))
    : option json :=
  match fields with
  | [] => None
  | (k, v) :: fields' => if decide (k = key) then Some v else lookup_field key fields'
  end.

(** [d[key]]: a [KeyError] when the key is missing, a [TypeError] when
    [d] is not a dict. *)
Definition getitem (key : string) (d : json) : result json :=
  match d with
  | JObj fields =>
      match lookup_field key fields with
      | Some v => Ok v
      | None => Raise (OtherError "KeyError")
      end
  | _ => Raise (OtherError "TypeError")
  end.

(** [d.get(key)]: [None] when the key is missing, an [AttributeError]
    when [d] is not a dict. *)
Definition get (key : string) (d : json) : result json :=
  match d with
  | JObj fields => Ok (default JNull (lookup_field key fields))
  | _ => Raise (OtherError "AttributeError")
  end.

(** [bool(v)]. *)
Definition truthy (v : json) : bool :=
  match v with
  | JNull => false
  | JBool b => b
  | JNum n => negb (Z.eqb n 0)
  | JStr s => Py.truthy_str s
  | JArr items => match items with [] => false | _ => true end
  | JObj fields => match fields with [] => false | _ => true end
  end.

(** [v == s] for a string [s]. *)
Definition eq_str (v : json) (s : string) : bool :=
  match v with
  | JStr s' => String.eqb s' s
  | _ => false
  end.

End Json.

Inductive Method := GET | POST | PUT.

Record Request := mkRequest {
  method : Method;
  url : string;
  params : list (string * string);
  payload : option json;
}.

(** A response: its status, its text, and its body as JSON ([None] when
    the body is not JSON, in which case [resp.json()] raises). *)
Record Response := mkResponse {
  status_code : nat;
  text : string;
  json_body : option json;
}.

(** ** server/github_client.py: constants and records *)

Module GitHub.

Definition API_BASE : string := "https://api.github.com".

Definition IMAGE_EXTENSIONS : gset string :=
  {[ ".png"; ".jpg"; ".jpeg"; ".gif"; ".webp"; ".svg" ]}.

Record UploadResult := mkUploadResult {
  path : string; branch : string; sha : json }.

(** [GitHubClient(token, owner, repo)]: the three values fix the headers
    and the address of every request of the client. *)
Record Client := mkClient {
  token : option string; owner : string; repo : string }.

End GitHub.

(** The agent handle returned by [CursorClient.launch_agent]. *)
Record LaunchResult := mkLaunchResult { agent_id : string; agent_url : string }.

(** ** The outside of the process *)

(** A call that reaches outside: the fetch of a URL by [httpx.get], the
    read of a local file, a request of a GitHub client, the launch of a
    cloud agent. *)
Inductive Call :=
  | HttpGet (url : string)
  | ReadFile (source : string)
  | GhRequest (gh : GitHub.Client) (req : Request)
  | CursorLaunchAgent (api_key : option string) (prompt repository ref : string).

(** What the outside answers.  Every answer may depend on the calls made
    so far, so that any deterministic environment is an instance.
    - [http_get]: [httpx.get(url, ..)] followed by [raise_for_status()],
      giving [resp.content];
    - [read_file]: [None] when [p.exists()] is false, otherwise the
      outcome of [p.read_bytes()];
    - [gh_request]: a request of the [httpx.Client] of a [GitHubClient];
    - [launch_agent]: [CursorClient.launch_agent] of
      server/cursor_client.py. *)
Record World := mkWorld {
  http_get : list Call → string → result bytes;
  read_file : list Call → string → option (result bytes);
  gh_request : list Call → GitHub.Client → Request → result Response;
  launch_agent : list Call → option string → string → string → string
                 → result LaunchResult;
}.

(** The library functions whose result the sources use as it comes. *)
Record PyLib := mkPyLib {
  posix_name : string → string;    (* PurePosixPath(s).name *)
  local_name : string → string;    (* Path(s).name *)
  posix_suffix : string → string;  (* PurePosixPath(s).suffix *)
  b64encode : bytes → string;      (* base64.b64encode(b).decode() *)
}.

(** ** Computations that call outside

    A computation is run after the calls [tr] and gives its result, or
    the exception that escapes it, with the calls made up to then. *)

Definition M (A : Type) : Type := list Call → result A * list Call.

Definition ret {A} (a : A) : M A := λ tr, (Ok a, tr).

Definition raise {A} (e : exn) : M A := λ tr, (Raise e, tr).

Definition lift {A} (r : result A) : M A := λ tr, (r, tr).

Definition bind {A B} (m : M A) (k : A → M B) : M B :=
  λ tr, match m tr with
        | (Ok a, tr') => k a tr'
        | (Raise e, tr') => (Raise e, tr')
        end.

(** The call [c], answered by [answer] from the calls made so far. *)
Definition call {A} (c : Call) (answer : list Call → result A) : M A :=
  λ tr, (answer tr, tr ++ [c]).

(** [try: m except ..: ..]: [handler] gives the handler of the
    exceptions that are caught. *)
Definition try_except {A} (m : M A) (handler : exn → option (M A)) : M A :=
  λ tr, match m tr with
        | (Ok a, tr') => (Ok a, tr')
        | (Raise e, tr') =>
            match handler e with
            | Some h => h tr'
            | None => (Raise e, tr')
            end
        end.

Notation "'let*' x ':=' m 'in' k" := (bind m (λ x, k))
  (at level 10, x name, m at level 100, k at level 200, only parsing).

(** ** server/github_client.py: the methods of [GitHubClient] *)

Module GitHubClient.
Section methods.

Variable world : World.
Variable lib : PyLib.
Variable self : GitHub.Client.

Definition _repo_prefix : string :=
  GitHub.API_BASE +:+ "/repos/" +:+ GitHub.owner self +:+ "/" +:+ GitHub.repo self.

(** [self._http.get(url, params=params)] and its siblings. *)
Definition send (req : Request) : M Response :=
  call (GhRequest self req) (λ tr, gh_request world tr self req).

Definition http_get_ (url : string) (params : list (string * string)) : M Response :=
  send {| method := GET; url := url; params := params; payload := None |}.

Definition http_post (url : string) (body : json) : M Response :=
  send {| method := POST; url := url; params := []; payload := Some body |}.

Definition http_put (url : string) (body : json) : M Response :=
  send {| method := PUT; url := url; params := []; payload := Some body |}.

(** [resp.json()]. *)
Definition json_of (resp : Response) : M json :=
  match json_body resp with
  | Some j => ret j
  | None => raise (OtherError "JSONDecodeError")
  end.

(** [resp.json()["object"]["sha"]]. *)
Definition object_sha (resp : Response) : M json :=
  let* data := json_of resp in
  let* object := lift (Json.getitem "object" data) in
  lift (Json.getitem "sha" object).

(** [status not in (200, 201)]. *)
Definition not_ok_created (status : nat) : bool :=
  negb ((status =? 200) || (status =? 201)).

Definition ensure_branch (branch base : string) : M json :=
  let* resp := http_get_ (_repo_prefix +:+ "/git/ref/heads/" +:+ branch) [] in
  if status_code resp =? 200 then object_sha resp
  else
    let* base_resp := http_get_ (_repo_prefix +:+ "/git/ref/heads/" +:+ base) [] in
    if negb (status_code base_resp =? 200) then
      raise (GitHubClientError
               ("Base branch '" +:+ base +:+ "' not found: "
                  +:+ Py.fmt_nat (status_code base_resp)))
    else
      let* base_sha := object_sha base_resp in
      let* create_resp :=
        http_post (_repo_prefix +:+ "/git/refs")
                  (JObj [ ("ref", JStr ("refs/heads/" +:+ branch));
                          ("sha", base_sha) ]) in
      if not_ok_created (status_code create_resp) then
        raise (GitHubClientError
                 ("Failed to create branch '" +:+ branch +:+ "': "
                    +:+ Py.fmt_nat (status_code create_resp) +:+ " "
                    +:+ text create_resp))
      else ret base_sha.

Definition _get_file_sha (repo_path branch : string) : M json :=
  let* resp := http_get_ (_repo_prefix +:+ "/contents/" +:+ repo_path)
                         [("ref", branch)] in
  if status_code resp =? 200 then
    let* data := json_of resp in
    lift (Json.get "sha" data)
  else ret JNull.

(** [upload_file(repo_path, content, branch)], with the default
    [message=""]. *)
Definition upload_file (repo_path : string) (content : bytes) (branch : string)
    : M GitHub.UploadResult :=
  let filename := posix_name lib repo_path in
  let message := "upload " +:+ filename in
  let encoded := b64encode lib content in
  let* existing_sha := _get_file_sha repo_path branch in
  let payload :=
    [ ("message", JStr message); ("content", JStr encoded);
      ("branch", JStr branch) ]
    ++ (if Json.truthy existing_sha then [("sha", existing_sha)] else []) in
  let* resp := http_put (_repo_prefix +:+ "/contents/" +:+ repo_path)
                        (JObj payload) in
  if not_ok_created (status_code resp) then
    raise (GitHubClientError
             ("Failed to upload '" +:+ repo_path +:+ "': "
                +:+ Py.fmt_nat (status_code resp) +:+ " " +:+ text resp))
  else
    let* data := json_of resp in
    let* content_ := lift (Json.getitem "content" data) in
    let* sha := lift (Json.getitem "sha" content_) in
    ret {| GitHub.path := repo_path; GitHub.branch := branch; GitHub.sha := sha |}.

(** [[item["path"] for item in data if item["type"] == "file"]]. *)
Fixpoint file_paths (items : list json) : result (list json) :=
  match items with
  | [] => Ok []
  | item :: items' =>
      match Json.getitem "type" item with
      | Raise e => Raise e
      | Ok type =>
          if Json.eq_str type "file" then
            match Json.getitem "path" item with
            | Raise e => Raise e
            | Ok path =>
                match file_paths items' with
                | Ok paths => Ok (path :: paths)
                | Raise e => Raise e
                end
            end
          else file_paths items'
      end
  end.

Definition list_directory (dir_path branch : string) : M (list json) :=
  let* resp := http_get_ (_repo_prefix +:+ "/contents/" +:+ dir_path)
                         [("ref", branch)] in
  if status_code resp =? 404 then ret []
  else if negb (status_code resp =? 200) then
    raise (GitHubClientError
             ("Failed to list '" +:+ dir_path +:+ "': "
                +:+ Py.fmt_nat (status_code resp)))
  else
    let* data := json_of resp in
    match data with
    | JArr items => lift (file_paths items)
    | _ => ret []
    end.

End methods.
End GitHubClient.

(** ** Output of the commands *)

(** How a command of the CLI ends: by returning, by [sys.exit(code)], or
    by an exception that escapes. *)
Inductive Status :=
  | Returned
  | Exited (code : nat)
  | Raised (e : exn).

(** What a command printed on each stream, one element per [print], and
    how it ended. *)
Record Outcome := mkOutcome {
  stdout : list string;
  stderr : list string;
  status : Status;
}.

(** [print(line)] and [print(line, file=sys.stderr)] ahead of what
    follows. *)
Definition say_out {T} (line : string) (r : Outcome * T) : Outcome * T :=
  ({| stdout := line :: stdout r.1; stderr := stderr r.1; status := status r.1 |},
   r.2).

Definition say_err {T} (line : string) (r : Outcome * T) : Outcome * T :=
  ({| stdout := stdout r.1; stderr := line :: stderr r.1; status := status r.1 |},
   r.2).

(** ** The lines shared by [kb_read] and [cmd_read] *)

Definition edge_line (edge : Edge.t) : string :=
  let desc := if Py.truthy (Edge.description edge)
              then " — " +:+ Py.fmt (Edge.description edge) else "" in
  "  [" +:+ Edge.label edge +:+ "] " +:+ Edge.path edge +:+ desc.

Definition source_line (s : Source.t) : string :=
  let title := if Py.truthy (Source.title s)
               then " (" +:+ Py.fmt (Source.title s) +:+ ")" else "" in
  "  " +:+ Source.url s +:+ title.

Definition backlink_line (bl : Backlink.t) : string :=
  let desc := if Py.truthy (Backlink.description bl)
              then " — " +:+ Py.fmt (Backlink.description bl) else "" in
  "  [" +:+ Backlink.label bl +:+ "] " +:+ Backlink.path bl
    +:+ " (" +:+ Backlink.title bl +:+ ")" +:+ desc.

(** [for x in xs: parts.append(line(x))]. *)
Definition append_lines {A} (line : A → string) (parts : list string)
    (xs : list A) : list string :=
  foldl (λ parts x, parts ++ [line x]) parts xs.

(** [if xs: parts.append(header); for x in xs: parts.append(line(x))];
    [if xs] on a list is [xs] not being empty. *)
Definition append_block {A} (header : string) (line : A → string)
    (parts : list string) (xs : list A) : list string :=
  match xs with
  | [] => parts
  | _ => append_lines line (parts ++ [header]) xs
  end.

(** The lines of a read, lines 76-100 of tools.py and 62-84 of cli.py:
    the first appends to [parts], the second prints. *)
Definition read_lines (entry : Entry.t) (backlinks : list Backlink.t)
    : list string :=
  let parts :=
    [ "# " +:+ Entry.title entry;
      "type: " +:+ Entry.type entry;
      "summary: " +:+ Entry.summary entry;
      "tags: " +:+ Py.join ", " (Entry.tags entry);
      "created: " +:+ Entry.created entry ] in
  let parts :=
    if Py.truthy (Entry.updated entry)
    then parts ++ ["updated: " +:+ Py.fmt (Entry.updated entry)]
    else parts in
  let parts := append_block (nl +:+ "edges:") edge_line parts (Entry.edges entry) in
  let parts := append_block (nl +:+ "sources:") source_line parts (Entry.sources entry) in
  let parts := append_block (nl +:+ "backlinks:") backlink_line parts backlinks in
  parts ++ [nl +:+ "---" +:+ nl +:+ Entry.body entry].

(** ** The file name and extension derived from an upload source
    (tools.py 121-128, cli.py 120-127) *)

Section filename.

Variable lib : PyLib.

Definition is_url (source : string) : bool :=
  Py.startswith "http://" source || Py.startswith "https://" source.

Definition filename_of (source : string) : string :=
  if is_url source then posix_name lib (Py.split_head "?" source)
  else local_name lib source.

Definition ext_of (source : string) : string :=
  Py.lower (posix_suffix lib (filename_of source)).

End filename.

(** [GitHubClient(config.memex_git_token, config.github.owner,
    config.github.repo)]. *)
Definition gh_client (config : Config.t) : GitHub.Client :=
  {| GitHub.token := Config.memex_git_token config;
     GitHub.owner := Config.owner (Config.github config);
     GitHub.repo := Config.repo (Config.github config) |}.

(** [not config.github.owner or not config.github.repo]. *)
Definition repo_unset (config : Config.t) : bool :=
  negb (Py.truthy_str (Config.owner (Config.github config)))
  || negb (Py.truthy_str (Config.repo (Config.github config))).

(** The status returned by [CursorClient.get_status]: the fields that
    [kb_status] reads. *)
Record AgentStatus := mkAgentStatus {
  st_status : string;
  st_agent_url : string;
  st_pr_url : option string;
}.

(** ** server/tools.py *)

Module Tools.
Section tools.

Context {KB : Type} `{!KnowledgeBaseOps KB}.
Variable kb : KB.
Variable config : Config.t.
Variable world : World.
Variable lib : PyLib.

(** [build_prompt(summary, kb, images=images)] of server/prompt.py. *)
Variable build_prompt : string → KB → list json → string.

(** The f-string appended for one result of [kb_search]. *)
Definition search_block (r : SearchResult.t) : string :=
  "[" +:+ SearchResult.type r +:+ "] " +:+ SearchResult.title r +:+ nl
    +:+ "  path: " +:+ SearchResult.path r +:+ nl
    +:+ "  tags: " +:+ Py.join ", " (SearchResult.tags r) +:+ nl
    +:+ "  summary: " +:+ SearchResult.summary r +:+ nl
    +:+ "  backlinks: " +:+ Py.fmt_nat (SearchResult.backlink_count r).

Definition kb_search (query : string) : string :=
  let results := search kb query 20 in
  match results with
  | [] => "No results found."
  | _ =>
      let lines := foldl (λ lines r, lines ++ [search_block r]) [] results in
      Py.join (nl +:+ nl) lines
  end.

(** The f-string appended for one entry of [kb_list]. *)
Definition list_block (e : Entry.t) : string :=
  let bl := get_backlink_count kb (Entry.path e) in
  "[" +:+ Entry.type e +:+ "] " +:+ Entry.title e +:+ nl
    +:+ "  path: " +:+ Entry.path e +:+ nl
    +:+ "  tags: " +:+ Py.join ", " (Entry.tags e) +:+ nl
    +:+ "  summary: " +:+ Entry.summary e +:+ nl
    +:+ "  edges: " +:+ Py.fmt_nat (length (Entry.edges e))
    +:+ "  backlinks: " +:+ Py.fmt_nat bl.

Definition kb_list (type tag : option string) : string :=
  let entries := list_entries kb type tag in
  match entries with
  | [] => "No entries found."
  | _ =>
      let lines := foldl (λ lines e, lines ++ [list_block e]) [] entries in
      Py.join (nl +:+ nl) lines
  end.

Definition kb_read (path : string) : string :=
  match read_entry kb path with
  | None => "Entry not found: " +:+ path
  | Some entry =>
      let backlinks := get_backlinks kb path in
      Py.join nl (read_lines entry backlinks)
  end.

Definition unsupported_msg (ext : string) : string :=
  "Error: Unsupported image type '" +:+ ext +:+ "'. Supported: "
    +:+ Py.join ", " (Py.sorted (elements GitHub.IMAGE_EXTENSIONS)).

Definition uploaded_msg (r : GitHub.UploadResult) : string :=
  "Uploaded: /" +:+ GitHub.path r +:+ nl
    +:+ "Branch: " +:+ GitHub.branch r +:+ nl
    +:+ "Use in entries: ![alt](/" +:+ GitHub.path r +:+ ")".

(** [except GitHubClientError as e: return f"Error: {e}"]. *)
Definition on_github_error (e : exn) : option (M string) :=
  match e with
  | GitHubClientError msg => Some (ret ("Error: " +:+ msg))
  | _ => None
  end.

(** Lines 145-162, once [content] is at hand. *)
Definition push (filename : string) (content : bytes) (branch : option string)
    : M string :=
  let default_branch := Config.default_branch (Config.github config) in
  let target_branch := Py.or_ branch default_branch in
  let repo_path := Config.assets_dir (Config.knowledge config) +:+ "/" +:+ filename in
  let gh := gh_client config in
  try_except
    (let* _ :=
       if Py.truthy branch then
         let* _ := GitHubClient.ensure_branch world gh (Py.fmt branch) default_branch in
         ret tt
       else ret tt in
     let* result := GitHubClient.upload_file world lib gh repo_path content target_branch in
     ret (uploaded_msg result))
    on_github_error.

(** [kb_upload(source, branch)]. *)
Definition kb_upload (source : string) (branch : option string) : M string :=
  λ tr,
    if negb (Py.truthy (Config.memex_git_token config)) then
      (Ok "Error: MEMEX_GIT_TOKEN not configured", tr)
    else if repo_unset config then
      (Ok "Error: GitHub repository not configured in config.yaml", tr)
    else
      let filename := filename_of lib source in
      let ext := ext_of lib source in
      if negb (bool_decide (ext ∈ GitHub.IMAGE_EXTENSIONS)) then
        (Ok (unsupported_msg ext), tr)
      else if is_url source then
        match http_get world tr source with
        | Ok content => push filename content branch (tr ++ [HttpGet source])
        | Raise (HTTPError e) =>
            (Ok ("Error: Failed to fetch URL: " +:+ e), tr ++ [HttpGet source])
        | Raise e => (Raise e, tr ++ [HttpGet source])
        end
      else
        match read_file world tr source with
        | None => (Ok ("Error: File not found: " +:+ source), tr ++ [ReadFile source])
        | Some (Ok content) => push filename content branch (tr ++ [ReadFile source])
        | Some (Raise e) => (Raise e, tr ++ [ReadFile source])
        end.

Definition launched_msg (r : LaunchResult) : string :=
  "Cloud agent launched." +:+ nl
    +:+ "Agent ID: " +:+ agent_id r +:+ nl
    +:+ "Dashboard: " +:+ agent_url r +:+ nl
    +:+ "Use kb_status with this agent_id to check progress.".

(** Lines 184-194: the images of the target branch, [[]] when the
    listing is not attempted or fails with [GitHubClientError]. *)
Definition list_images (target_branch : string) : M (list json) :=
  if Py.truthy_str target_branch && Py.truthy (Config.memex_git_token config) then
    try_except
      (GitHubClient.list_directory world (gh_client config)
         (Config.assets_dir (Config.knowledge config)) target_branch)
      (λ e, match e with
            | GitHubClientError _ => Some (ret [])
            | _ => None
            end)
  else ret [].

(** Lines 196-216, once the images are listed. *)
Definition launch (summary : string) (target_branch : string)
    (images : list json) : M string :=
  λ tr,
    let prompt_text := build_prompt (Py.strip summary) kb images in
    let repo_url := "https://github.com/"
                      +:+ Config.owner (Config.github config) +:+ "/"
                      +:+ Config.repo (Config.github config) in
    let key := Config.cursor_api_key config in
    let c := CursorLaunchAgent key prompt_text repo_url target_branch in
    match launch_agent world tr key prompt_text repo_url target_branch with
    | Ok r => (Ok (launched_msg r), tr ++ [c])
    | Raise (CursorClientError e) => (Ok ("Error: " +:+ e), tr ++ [c])
    | Raise e => (Raise e, tr ++ [c])
    end.

(** [kb_add(summary, branch)]. *)
Definition kb_add (summary : string) (branch : option string) : M string :=
  if negb (Py.truthy_str summary) || negb (Py.truthy_str (Py.strip summary)) then
    ret "Error: Summary cannot be empty"
  else if negb (Py.truthy (Config.cursor_api_key config)) then
    ret "Error: CURSOR_API_KEY not configured"
  else if repo_unset config then
    ret "Error: GitHub repository not configured in config.yaml"
  else
    let target_branch :=
      Py.or_ branch (Config.default_branch (Config.github config)) in
    let* images := list_images target_branch in
    launch summary target_branch images.

(** The answer of [CursorClient(key).get_status(agent_id)] of
    server/cursor_client.py. *)
Variable get_status : option string → string → result AgentStatus.

(** [kb_status(agent_id)]: the string returned, or the exception that
    escapes. *)
Definition kb_status (agent_id : string) : result string :=
  if negb (Py.truthy (Config.cursor_api_key config)) then
    Ok "Error: CURSOR_API_KEY not configured"
  else
    match get_status (Config.cursor_api_key config) agent_id with
    | Raise (CursorClientError e) => Ok ("Error: " +:+ e)
    | Raise e => Raise e
    | Ok status =>
        let parts :=
          [ "Status: " +:+ st_status status;
            "Dashboard: " +:+ st_agent_url status ] in
        let parts :=
          if Py.truthy (st_pr_url status)
          then parts ++ ["PR: " +:+ Py.fmt (st_pr_url status)]
          else parts in
        Ok (Py.join nl parts)
    end.

End tools.
End Tools.

(** ** server/cli.py *)

Module Cli.

(** The namespace that [main] hands to the command: the sub-command and
    its arguments. *)
Inductive Args :=
  | Search (query : string) (limit : Z)
  | List_ (type tag : option string)
  | Read (path : string)
  | Stats
  | Upload (sources : list string) (branch : option string).

Section cli.

Context {KB : Type} `{!KnowledgeBaseOps KB}.

(** The value of [load_config()]. *)
Variable load_config : Config.t.
Variable world : World.
Variable lib : PyLib.

Definition _make_kb : KB :=
  let config := load_config in
  let config := Config.set_auto_pull false config in
  KnowledgeBase config.

(** The six [print]s of the loop of [cmd_search]. *)
Definition search_lines (r : SearchResult.t) : list string :=
  [ "[" +:+ SearchResult.type r +:+ "] " +:+ SearchResult.title r;
    "  path: " +:+ SearchResult.path r;
    "  tags: " +:+ Py.join ", " (SearchResult.tags r);
    "  summary: " +:+ SearchResult.summary r;
    "  score: " +:+ SearchResult.score r +:+ "  backlinks: "
      +:+ Py.fmt_nat (SearchResult.backlink_count r);
    "" ].

Definition cmd_search (query : string) (limit : Z) : Outcome :=
  let kb := _make_kb in
  let results := search kb query limit in
  match results with
  | [] => {| stdout := ["No results found."]; stderr := []; status := Returned |}
  | _ =>
      {| stdout := foldl (λ out r, out ++ search_lines r) [] results;
         stderr := [];
         status := Returned |}
  end.

(** The six [print]s of the loop of [cmd_list]. *)
Definition list_lines (kb : KB) (e : Entry.t) : list string :=
  let bl := get_backlink_count kb (Entry.path e) in
  [ "[" +:+ Entry.type e +:+ "] " +:+ Entry.title e;
    "  path: " +:+ Entry.path e;
    "  tags: " +:+ Py.join ", " (Entry.tags e);
    "  summary: " +:+ Entry.summary e;
    "  edges: " +:+ Py.fmt_nat (length (Entry.edges e)) +:+ "  backlinks: "
      +:+ Py.fmt_nat bl;
    "" ].

Definition cmd_list (type tag : option string) : Outcome :=
  let kb := _make_kb in
  let entries := list_entries kb type tag in
  match entries with
  | [] => {| stdout := ["No entries found."]; stderr := []; status := Returned |}
  | _ =>
      {| stdout := foldl (λ out e, out ++ list_lines kb e) [] entries;
         stderr := [];
         status := Returned |}
  end.

Definition cmd_read (path : string) : Outcome :=
  let kb := _make_kb in
  match read_entry kb path with
  | None =>
      {| stdout := [];
         stderr := ["Entry not found: " +:+ path];
         status := Exited 1 |}
  | Some entry =>
      let backlinks := get_backlinks kb path in
      {| stdout := read_lines entry backlinks; stderr := []; status := Returned |}
  end.

(** [sorted(items, key=lambda x: x[1], reverse=True)]: descending by
    count, items of equal count in their original order. *)
Fixpoint insert_desc (x : string * nat) (l : list (string * nat))
    : list (string * nat) :=
  match l with
  | [] => [x]
  | y :: l' => if decide (y.2 < x.2) then x :: y :: l' else y :: insert_desc x l'
  end.

Definition sorted_desc (items : list (string * nat)) : list (string * nat) :=
  foldl (λ acc x, insert_desc x acc) [] items.

Definition count_line (tc : string * nat) : string :=
  "  " +:+ tc.1 +:+ ": " +:+ Py.fmt_nat tc.2.

(** [sum(len(e.edges) for e in entries)]. *)
Definition sum_edges (entries : list Entry.t) : nat :=
  foldl (λ acc e, acc + length (Entry.edges e)) 0 entries.

Definition cmd_stats : Outcome :=
  let kb := _make_kb in
  let tc := type_counts kb in
  let tg := tag_counts kb in
  let total := entry_count kb in
  let total_edges := sum_edges (all_entries kb) in
  {| stdout :=
       [ "Entries: " +:+ Py.fmt_nat total;
         "Edges: " +:+ Py.fmt_nat total_edges;
         nl +:+ "By type:" ]
       ++ (count_line <$> sorted_desc tc)
       ++ [ nl +:+ "By tag:" ]
       ++ (count_line <$> sorted_desc tg);
     stderr := [];
     status := Returned |}.

Definition skip_msg (filename ext : string) : string :=
  "Skipping " +:+ filename +:+ ": unsupported type '" +:+ ext +:+ "'".

Definition raised (e : exn) : Outcome :=
  {| stdout := []; stderr := []; status := Raised e |}.

(** Lines 119-152: the loop over [args.sources], run after the calls
    [tr].  [continue] goes on with the rest; an exception that the body
    does not catch ends the loop. *)
Fixpoint upload_sources (config : Config.t) (branch : string)
    (sources : list string) (tr : list Call) : Outcome * list Call :=
  match sources with
  | [] => ({| stdout := []; stderr := []; status := Returned |}, tr)
  | source :: rest =>
      let gh := gh_client config in
      let filename := filename_of lib source in
      let ext := ext_of lib source in
      let upload content tr :=
        let repo_path :=
          Config.assets_dir (Config.knowledge config) +:+ "/" +:+ filename in
        match GitHubClient.upload_file world lib gh repo_path content branch tr with
        | (Ok r, tr') =>
            say_out ("Uploaded: /" +:+ GitHub.path r +:+ "  (branch: "
                       +:+ GitHub.branch r +:+ ")")
                    (upload_sources config branch rest tr')
        | (Raise e, tr') => (raised e, tr')
        end in
      if negb (bool_decide (ext ∈ GitHub.IMAGE_EXTENSIONS)) then
        say_err (skip_msg filename ext) (upload_sources config branch rest tr)
      else if is_url source then
        match http_get world tr source with
        | Ok content => upload content (tr ++ [HttpGet source])
        | Raise (HTTPError e) =>
            say_err ("Error fetching " +:+ source +:+ ": " +:+ e)
                    (upload_sources config branch rest (tr ++ [HttpGet source]))
        | Raise e => (raised e, tr ++ [HttpGet source])
        end
      else
        match read_file world tr source with
        | None =>
            say_err ("File not found: " +:+ source)
                    (upload_sources config branch rest (tr ++ [ReadFile source]))
        | Some (Ok content) => upload content (tr ++ [ReadFile source])
        | Some (Raise e) => (raised e, tr ++ [ReadFile source])
        end
  end.

(** [except GitHubClientError as e: print(..); sys.exit(1)] around the
    body of [cmd_upload]. *)
Definition except_github (r : Outcome * list Call) : Outcome * list Call :=
  match status r.1 with
  | Raised (GitHubClientError e) =>
      ({| stdout := stdout r.1;
          stderr := stderr r.1 ++ ["Error: " +:+ e];
          status := Exited 1 |}, r.2)
  | _ => r
  end.

(** [cmd_upload(args)] with [args.sources] and [args.branch], run after
    the calls [tr]. *)
Definition cmd_upload (sources : list string) (args_branch : option string)
    (tr : list Call) : Outcome * list Call :=
  let config := load_config in
  if negb (Py.truthy (Config.memex_git_token config)) then
    ({| stdout := [];
        stderr := ["Error: MEMEX_GIT_TOKEN not configured"];
        status := Exited 1 |}, tr)
  else if repo_unset config then
    ({| stdout := [];
        stderr := ["Error: GitHub repository not configured in config.yaml"];
        status := Exited 1 |}, tr)
  else
    let default_branch := Config.default_branch (Config.github config) in
    let branch := Py.or_ args_branch default_branch in
    let gh := gh_client config in
    except_github
      (if Py.truthy args_branch then
         match GitHubClient.ensure_branch world gh branch default_branch tr with
         | (Ok _, tr') => upload_sources config branch sources tr'
         | (Raise e, tr') => (raised e, tr')
         end
       else upload_sources config branch sources tr).

(** [args.func(args)] of [main]. *)
Definition main (args : Args) (tr : list Call) : Outcome * list Call :=
  match args with
  | Search query limit => (cmd_search query limit, tr)
  | List_ type tag => (cmd_list type tag, tr)
  | Read path => (cmd_read path, tr)
  | Stats => (cmd_stats, tr)
  | Upload sources branch => cmd_upload sources branch tr
  end.

End cli.
End Cli.

(** ** The index engine of server/kb.py, after the specification

    server/kb.py is not among the sources; the definitions of this
    module follow sections 4.2 to 4.4 of the specification and serve as
    an instance of [KnowledgeBaseOps]. *)

Module SpecKB.

(** Modelled from the spec: the snapshot held by the Graph Index (the
    entries in snapshot order), the configuration of the Sync
    Coordinator, and the number of reloads since construction;
    server/kb.py is missing. *)
Record t := mk {
  config : Config.t;
  snapshot : list Entry.t;
  reloads : nat;
}.

(** Modelled from the spec: construction of the missing
    [KnowledgeBase]; "the index is built once from whatever local
    documents exist at startup". *)
Definition create (local : list Entry.t) (config : Config.t) : t :=
  {| config := config; snapshot := local; reloads := 0 |}.

(** Modelled from the spec: the missing refresh-before-read step of the
    Sync Coordinator.  When the flag is enabled and the check finds the
    local set stale ([remote = Some docs]) there is one full reload; an
    unreachable or unchanged source ([None]) keeps the last snapshot;
    when the flag is disabled nothing is refreshed. *)
Definition refresh_before_read (remote : option (list Entry.t)) (kb : t) : t :=
  if Config.auto_pull (Config.sync (config kb)) then
    match remote with
    | Some docs =>
        {| config := config kb; snapshot := docs; reloads := S (reloads kb) |}
    | None => kb
    end
  else kb.

(** Modelled from the spec: the missing [get(path) -> Entry or absent]. *)
Definition get (kb : t) (path : string) : option Entry.t :=
  List.find (λ e, bool_decide (Entry.path e = path)) (snapshot kb).

(** Modelled from the spec: the missing [backlinks(path)]; "for every
    entry E in the snapshot, for every edge e in E.edges, if the
    snapshot contains an entry with path == e.path, append a Backlink
    to that target's backlink list". *)
Definition backlinks (kb : t) (path : string) : list Backlink.t :=
  match get kb path with
  | None => []
  | Some _ =>
      E ← snapshot kb;
      e ← filter (λ e, Edge.path e = path) (Entry.edges E);
      [ {| Backlink.path := Entry.path E;
           Backlink.title := Entry.title E;
           Backlink.label := Edge.label e;
           Backlink.description := Edge.description e |} ]
  end.

(** Modelled from the spec: the missing [backlinkCount(path)], "equal to
    len(backlinks(path))". *)
Definition backlinkCount (kb : t) (path : string) : nat :=
  length (backlinks kb path).

(** Modelled from the spec: the missing [all()], in snapshot order. *)
Definition all (kb : t) : list Entry.t := snapshot kb.

(** Modelled from the spec: the missing [list(typeFilter, tagFilter)],
    "unranked, in snapshot order", the filters "combined with logical
    AND". *)
Definition list_ (kb : t) (typeFilter tagFilter : option string) : list Entry.t :=
  List.filter
    (λ e, match typeFilter with
          | Some ty => bool_decide (Entry.type e = ty)
          | None => true
          end
          && match tagFilter with
             | Some tag => bool_decide (tag ∈ Entry.tags e)
             | None => true
             end)
    (snapshot kb).

(** Modelled from the spec: the missing [entryCount()], the size of the
    current snapshot. *)
Definition entryCount (kb : t) : nat := length (snapshot kb).

(** Modelled from the spec: one more occurrence of [k] in a mapping
    from keys to counts, for the missing [typeCounts] and [tagCounts]. *)
Fixpoint bump (k : string) (m : list (string * nat)) : list (string * nat) :=
  match m with
  | [] => [(k, 1)]
  | (k', n) :: m' => if decide (k = k') then (k', S n) :: m' else (k', n) :: bump k m'
  end.

(** Modelled from the spec: the missing [typeCounts()], computed by
    scanning the current snapshot. *)
Definition typeCounts (kb : t) : list (string * nat) :=
  foldl (λ m e, bump (Entry.type e) m) [] (snapshot kb).

(** Modelled from the spec: the missing [tagCounts()], computed by
    scanning the current snapshot. *)
Definition tagCounts (kb : t) : list (string * nat) :=
  foldl (λ m e, foldl (λ m tag, bump tag m) m (Entry.tags e)) [] (snapshot kb).

(** Modelled from the spec: the missing index engine as the knowledge
    base that the tools and the CLI call, over the local documents
    present at startup.  The ranking of [search] is left open by the
    specification and is a parameter. *)
Definition ops (local : list Entry.t)
    (ranking : t → string → Z → list SearchResult.t) : KnowledgeBaseOps t :=
  {| KnowledgeBase := create local;
     search := ranking;
     list_entries := list_;
     read_entry := get;
     get_backlinks := backlinks;
     get_backlink_count := backlinkCount;
     all_entries := all;
     entry_count := entryCount;
     type_counts := typeCounts;
     tag_counts := tagCounts |}.

End SpecKB.

(** ** Notions used in the statements *)

(** A header followed by its lines, or nothing when there are no lines:
    the closed form of [append_block]. *)
Definition block (header : string) (lines : list string) : list string :=
  match lines with
  | [] => []
  | _ => header :: lines
  end.

(** The entry [E] with its [j]-th edge taken out. *)
Definition without_edge (j : nat) (E : Entry.t) : Entry.t :=
  {| Entry.path := Entry.path E; Entry.slug := Entry.slug E;
     Entry.title := Entry.title E; Entry.type := Entry.type E;
     Entry.summary := Entry.summary E; Entry.tags := Entry.tags E;
     Entry.created := Entry.created E; Entry.updated := Entry.updated E;
     Entry.edges := delete j (Entry.edges E);
     Entry.sources := Entry.sources E; Entry.body := Entry.body E |}.

(** Two runs that made the same calls, printed the same on the output
    stream and ended alike. *)
Definition same_effects (r1 r2 : Outcome * list Call) : Prop :=
  r1.2 = r2.2 ∧ stdout r1.1 = stdout r2.1 ∧ status r1.1 = status r2.1.

(** A string that is empty or made of white space only: a sequence of
    white space characters. *)
Inductive blank : string → Prop :=
  | blank_nil : blank ""
  | blank_cons (w s : string) : w ∈ Py.whitespace → blank s → blank (w +:+ s).

(** The calls that [kb_add] may make for [summary]: requests of the
    GitHub client, and launches whose prompt is built from the stripped
    summary. *)
Definition add_call_ok {KB : Type} (build_prompt : string → KB → list json → string)
    (kb : KB) (summary : string) (c : Call) : Prop :=
  match c with
  | GhRequest _ _ => True
  | CursorLaunchAgent _ prompt _ _ =>
      ∃ images, prompt = build_prompt (Py.strip summary) kb images
  | _ => False
  end.

(** Calls that are all requests of the client [gh] with a method among
    [methods]. *)
Definition requests_of (gh : GitHub.Client) (methods : list Method)
    (calls : list Call) : Prop :=
  Forall (λ c, ∃ req, c = GhRequest gh req ∧ method req ∈ methods) calls.

(** The requests that the GitHub client sends: the lookup of a branch,
    the creation of a branch at a commit, the lookup of a path on a
    branch, and the write of a file. *)
Definition ref_lookup (gh : GitHub.Client) (name : string) : Request :=
  {| method := GET;
     url := GitHubClient._repo_prefix gh +:+ "/git/ref/heads/" +:+ name;
     params := [];
     payload := None |}.

Definition ref_create (gh : GitHub.Client) (name : string) (sha : json) : Request :=
  {| method := POST;
     url := GitHubClient._repo_prefix gh +:+ "/git/refs";
     params := [];
     payload := Some (JObj [ ("ref", JStr ("refs/heads/" +:+ name)); ("sha", sha) ]) |}.

Definition contents_lookup (gh : GitHub.Client) (path branch : string) : Request :=
  {| method := GET;
     url := GitHubClient._repo_prefix gh +:+ "/contents/" +:+ path;
     params := [("ref", branch)];
     payload := None |}.

Definition contents_write (gh : GitHub.Client) (path : string)
    (fields : list (string * json)) : Request :=
  {| method := PUT;
     url := GitHubClient._repo_prefix gh +:+ "/contents/" +:+ path;
     params := [];
     payload := Some (JObj fields) |}.

(** A response whose body is a JSON object with the value [v] under
    [key]. *)
Definition has_field (resp : Response) (key : string) (v : json) : Prop :=
  ∃ fields, json_body resp = Some (JObj fields)
            ∧ Json.lookup_field key fields = Some v.

(** The fields that [upload_file] always puts in the body of its write. *)
Definition upload_fields (lib : PyLib) (repo_path : string) (content : bytes)
    (branch : string) : list (string * json) :=
  [ ("message", JStr ("upload " +:+ posix_name lib repo_path));
    ("content", JStr (b64encode lib content));
    ("branch", JStr branch) ].

(** The path that an item of a directory listing contributes: its
    ["path"] when its ["type"] is ["file"]. *)
Definition file_path_of (item : json) : option json :=
  match Json.getitem "type" item with
  | Ok type =>
      if Json.eq_str type "file" then
        match Json.getitem "path" item with
        | Ok path => Some path
        | Raise _ => None
        end
      else None
  | Raise _ => None
  end.

(** An item of a directory listing that can be read: it has a ["type"],
    and a ["path"] when the type is ["file"]. *)
Definition listing_item (item : json) : Prop :=
  ∃ type, Json.getitem "type" item = Ok type
          ∧ (Json.eq_str type "file" = true →
             ∃ path, Json.getitem "path" item = Ok path).

(** The call by which an upload obtains the content of its source. *)
Definition source_call (source : string) : Call :=
  if is_url source then HttpGet source else ReadFile source.

(** The content of an upload source, when the outside provides it after
    the calls [tr]. *)
Definition content_of (world : World) (source : string) (tr : list Call)
    : option bytes :=
  if is_url source then
    match http_get world tr source with
    | Ok content => Some content
    | Raise _ => None
    end
  else
    match read_file world tr source with
    | Some (Ok content) => Some content
    | _ => None
    end.

(** What the upload loop of the CLI has printed and how it ended, for
    [n] sources: at most one line per source, exactly one per source
    when the loop returned, only [Uploaded: ...] lines on the output
    stream, and no exit from inside the loop. *)
Definition accounted (n : nat) (out : Outcome) : Prop :=
  length (stdout out) + length (stderr out) ≤ n
  ∧ (status out = Returned → length (stdout out) + length (stderr out) = n)
  ∧ (∀ code, status out ≠ Exited code)
  ∧ Forall (λ line, Py.startswith "Uploaded: /" line = true) (stdout out).

(** The calls that an upload of [sources] may make: the fetch of a URL
    among the sources, the read of a local file among the sources, both
    only for a source of supported extension, and requests of the client
    [gh] with a method among [methods]. *)
Definition upload_call (lib : PyLib) (gh : GitHub.Client)
    (sources : list string) (methods : list Method) (c : Call) : Prop :=
  match c with
  | HttpGet source =>
      source ∈ sources ∧ is_url source = true
      ∧ ext_of lib source ∈ GitHub.IMAGE_EXTENSIONS
  | ReadFile source =>
      source ∈ sources ∧ is_url source = false
      ∧ ext_of lib source ∈ GitHub.IMAGE_EXTENSIONS
  | GhRequest gh' req => gh' = gh ∧ method req ∈ methods
  | CursorLaunchAgent _ _ _ _ => False
  end.

(** A string without the character [c]. *)
Definition free_of (c : ascii) (s : string) : Prop :=
  Forall (λ a, a ≠ c) (list_ascii_of_string s).

(** ** Sample data *)

(** Two entries of the scenario of the specification: [/a.md] links to
    [/b.md] and to a document that is never loaded. *)
Definition entry_a : Entry.t :=
  {| Entry.path := "/a.md"; Entry.slug := "a"; Entry.title := "Alpha";
     Entry.type := "concept"; Entry.summary := "first"; Entry.tags := ["x"; "y"];
     Entry.created := "2024-01-01"; Entry.updated := None;
     Entry.edges := [ Edge.mk "relates-to" "/b.md" None;
                      Edge.mk "supports" "/missing.md" (Some "gone") ];
     Entry.sources := [ Source.mk "https://example.org" (Some "Example") ];
     Entry.body := "alpha" |}.

Definition entry_b : Entry.t :=
  {| Entry.path := "/b.md"; Entry.slug := "b"; Entry.title := "Beta";
     Entry.type := "concept"; Entry.summary := "second"; Entry.tags := ["y"];
     Entry.created := "2024-01-02"; Entry.updated := Some "2024-02-01";
     Entry.edges := [ Edge.mk "relates-to" "/a.md" (Some "back") ];
     Entry.sources := [];
     Entry.body := "beta" |}.

(** A parser that knows the two sample documents. *)
Definition sample_parse (md_path : string) : option Entry.t :=
  if decide (md_path = "/a.md") then Some entry_a
  else if decide (md_path = "/b.md") then Some entry_b
  else None.

Definition sample_paths : list string := ["/b.md"; "/draft.md"; "/a.md"].

Definition sample_config : Config.t :=
  {| Config.memex_git_token := Some "token";
     Config.cursor_api_key := Some "key";
     Config.github := {| Config.owner := "me"; Config.repo := "notes";
                         Config.default_branch := "main" |};
     Config.knowledge := {| Config.assets_dir := "knowledge/assets" |};
     Config.sync := {| Config.auto_pull := true |} |}.

(** An outside whose repository is empty and accepts what is put. *)
Definition sample_world : World :=
  {| http_get := λ _ _, Ok [];
     read_file := λ _ _, Some (Ok []);
     gh_request := λ _ _ req,
       Ok (match method req with
           | GET => {| status_code := 404; text := "Not Found"; json_body := None |}
           | _ => {| status_code := 201; text := "";
                     json_body := Some (JObj [("content", JObj [("sha", JStr "abc")])]) |}
           end);
     launch_agent := λ _ _ _ _ _, Ok (mkLaunchResult "id" "url") |}.

Definition sample_lib : PyLib :=
  {| posix_name := Py.path_name;
     local_name := Py.path_name;
     posix_suffix := Py.path_suffix;
     b64encode := λ _, "" |}.

(** The knowledge base over the two sample entries, and the one over
    what the sample documents load to. *)
Definition sample_ops : KnowledgeBaseOps SpecKB.t :=
  SpecKB.ops [entry_a; entry_b] (λ _ _ _, []).

Definition sample_kb : SpecKB.t := SpecKB.create [entry_a; entry_b] sample_config.

Definition loaded_ops : KnowledgeBaseOps SpecKB.t :=
  SpecKB.ops (Viewer.load_entries sample_parse sample_paths) (λ _ _ _, []).

Definition sample_data : Viewer.Data :=
  Viewer.build_data id (Viewer.load_entries sample_parse sample_paths).

Definition sample_build_prompt (summary : string) (kb : SpecKB.t)
    (images : list json) : string :=
  "Add: " +:+ summary.

(** An outside whose repository has every branch and file asked for. *)
Definition full_world : World :=
  {| http_get := λ _ _, Ok [];
     read_file := λ _ _, Some (Ok []);
     gh_request := λ _ _ req,
       Ok (match method req with
           | GET => {| status_code := 200; text := "";
                       json_body := Some (JObj [ ("object", JObj [("sha", JStr "abc")]);
                                                 ("sha", JStr "old") ]) |}
           | _ => {| status_code := 200; text := "";
                     json_body := Some (JObj [("content", JObj [("sha", JStr "new")])]) |}
           end);
     launch_agent := λ _ _ _ _ _, Raise (CursorClientError "quota") |}.

(** An outside that does not know the first thing asked and knows all
    that is asked after. *)
Definition staged_world : World :=
  {| http_get := λ _ _, Raise (HTTPError "503");
     read_file := λ _ _, None;
     gh_request := λ tr gh req,
       match tr with
       | [] => Ok {| status_code := 404; text := "Not Found"; json_body := None |}
       | _ => gh_request full_world tr gh req
       end;
     launch_agent := λ _ _ _ _ _, Ok (mkLaunchResult "id" "url") |}.

(** An outside whose repository refuses every request. *)
Definition failing_world : World :=
  {| http_get := λ _ _, Ok [];
     read_file := λ _ _, Some (Ok []);
     gh_request := λ _ _ _,
       Ok {| status_code := 500; text := "boom"; json_body := None |};
     launch_agent := λ _ _ _ _ _, Ok (mkLaunchResult "id" "url") |}.

Definition sample_client : GitHub.Client := gh_client sample_config.

(** An outside whose repository answers every lookup with a directory of
    one image and one sub-directory. *)
Definition listing_world : World :=
  {| http_get := λ _ _, Ok [];
     read_file := λ _ _, Some (Ok []);
     gh_request := λ _ _ _,
       Ok {| status_code := 200; text := "";
             json_body :=
               Some (JArr [ JObj [ ("type", JStr "file");
                                   ("path", JStr "knowledge/assets/a.png") ];
                            JObj [ ("type", JStr "dir");
                                   ("path", JStr "knowledge/assets/old") ] ]) |};
     launch_agent := λ _ _ _ _ _, Ok (mkLaunchResult "id" "url") |}.

(** A configuration with a repository and neither token nor API key. *)
Definition bare_config : Config.t :=
  {| Config.memex_git_token := None;
     Config.cursor_api_key := None;
     Config.github := {| Config.owner := "me"; Config.repo := "notes";
                         Config.default_branch := "main" |};
     Config.knowledge := {| Config.assets_dir := "knowledge/assets" |};
     Config.sync := {| Config.auto_pull := true |} |}.

(** Two white space characters outside the ASCII range: the no-break
    space U+00A0 and the em space U+2003. *)
Definition nbsp : string := String "194" (String "160" "").

Definition em_space : string := String "226" (String "128" (String "131" "")).

(** A status service that has lost the agent. *)
Definition lost_status (key : option string) (agent_id : string)
    : result AgentStatus :=
  Raise (CursorClientError "gone").

(** * Properties *)

(** ** Loops that append *)

Section append_loops.
Context {A B : Type}.

(** A loop that appends one element per iteration is a map. *)
Lemma foldl_snoc_fmap (f : A → B) (xs : list A) (acc : list B) :
  foldl (λ acc x, acc ++ [f x]) acc xs = acc ++ (f <$> xs).
Proof.
  revert acc. induction xs as [|x xs IH]; intros acc; simpl.
  - by rewrite app_nil_r.
  - rewrite IH. by rewrite <- app_assoc.
Qed.

(** A loop that appends when the body yields something is [omap]. *)
Lemma foldl_snoc_omap (f : A → option B) (xs : list A) (acc : list B) :
  foldl (λ acc x, match f x with Some y => acc ++ [y] | None => acc end) acc xs
  = acc ++ omap f xs.
Proof.
  revert acc. induction xs as [|x xs IH]; intros acc; simpl.
  - by rewrite app_nil_r.
  - rewrite IH. destruct (f x); simpl; [|done]. by rewrite <- app_assoc.
Qed.

End append_loops.

Lemma append_lines_fmap {A} (line : A → string) parts (xs : list A) :
  append_lines line parts xs = parts ++ (line <$> xs).
Proof. apply foldl_snoc_fmap. Qed.

Lemma append_block_block {A} header (line : A → string) parts (xs : list A) :
  append_block header line parts xs = parts ++ block header (line <$> xs).
Proof.
  destruct xs as [|x xs]; simpl.
  - by rewrite app_nil_r.
  - unfold append_lines. simpl. rewrite foldl_snoc_fmap.
    by rewrite <- !app_assoc.
Qed.

(** ** The viewer's passes in closed form *)

Section viewer_facts.
Import Viewer.
Variable parse_entry : string → option Entry.t.
Variable render_body : string → string.

Lemma load_entries_omap md_paths :
  load_entries parse_entry md_paths = omap parse_entry (Py.sorted md_paths).
Proof. unfold load_entries. by rewrite foldl_snoc_omap. Qed.

(** The backlinks that the edges of [edges] add under the key [p]. *)
Lemma index_edges_lookup entry (edges : list Edge.t) d p :
  default [] (foldl (λ backlinks edge,
                       dd_append (Edge.path edge) (backlink_of entry edge) backlinks)
                    d edges !! p)
  = default [] (d !! p)
      ++ (backlink_of entry <$> filter (λ e, Edge.path e = p) edges).
Proof.
  revert d. induction edges as [|e edges IH]; intros d; simpl.
  - by rewrite app_nil_r.
  - rewrite IH. unfold dd_append.
    rewrite filter_cons. destruct (decide (Edge.path e = p)) as [->|Hne].
    + rewrite lookup_insert_eq. simpl. by rewrite <- app_assoc.
    + by rewrite lookup_insert_ne.
Qed.

Lemma index_backlinks_from d (entries : list Entry.t) p :
  default [] (foldl (λ backlinks entry,
                       foldl (λ backlinks edge,
                                dd_append (Edge.path edge)
                                          (backlink_of entry edge) backlinks)
                             backlinks (Entry.edges entry))
                    d entries !! p)
  = default [] (d !! p)
      ++ (E ← entries;
          backlink_of E <$> filter (λ e, Edge.path e = p) (Entry.edges E)).
Proof.
  revert d. induction entries as [|E entries IH]; intros d; simpl.
  - by rewrite app_nil_r.
  - rewrite IH, index_edges_lookup. by rewrite <- app_assoc.
Qed.

Lemma index_backlinks_lookup (entries : list Entry.t) p :
  default [] (index_backlinks entries !! p)
  = E ← entries; backlink_of E <$> filter (λ e, Edge.path e = p) (Entry.edges E).
Proof. unfold index_backlinks. by rewrite index_backlinks_from, lookup_empty. Qed.

Lemma emit_from bl (entries : list Entry.t) ed gn ge :
  foldl (λ '(entries_data, graph_nodes, graph_edges) entry,
           (entries_data ++ [entry_json render_body bl entry],
            graph_nodes ++ [node_json entry],
            foldl (λ graph_edges edge,
                     graph_edges ++ [graph_edge_json entry edge])
                  graph_edges (Entry.edges entry)))
        (ed, gn, ge) entries
  = (ed ++ (entry_json render_body bl <$> entries),
     gn ++ (node_json <$> entries),
     ge ++ (E ← entries; graph_edge_json E <$> Entry.edges E)).
Proof.
  revert ed gn ge. induction entries as [|E entries IH]; intros ed gn ge; simpl.
  - by rewrite !app_nil_r.
  - rewrite IH, foldl_snoc_fmap. by rewrite <- !app_assoc.
Qed.

Lemma emit_closed bl (entries : list Entry.t) :
  emit render_body bl entries
  = (entry_json render_body bl <$> entries,
     node_json <$> entries,
     E ← entries; graph_edge_json E <$> Entry.edges E).
Proof. unfold emit. by rewrite emit_from. Qed.

Lemma build_data_entries (entries : list Entry.t) :
  Viewer.entries (build_data render_body entries)
  = entry_json render_body (index_backlinks entries) <$> entries.
Proof. unfold build_data. by rewrite emit_closed. Qed.

Lemma build_data_graph_nodes (entries : list Entry.t) :
  graph_nodes (build_data render_body entries) = node_json <$> entries.
Proof. unfold build_data. by rewrite emit_closed. Qed.

Lemma build_data_graph_edges (entries : list Entry.t) :
  graph_edges (build_data render_body entries)
  = E ← entries; graph_edge_json E <$> Entry.edges E.
Proof. unfold build_data. by rewrite emit_closed. Qed.

Lemma build_data_stats (entries : list Entry.t) :
  total (stats (build_data render_body entries)) = length entries
  ∧ total_edges (stats (build_data render_body entries))
    = length (E ← entries; graph_edge_json E <$> Entry.edges E).
Proof. unfold build_data. rewrite emit_closed. simpl. by rewrite length_fmap. Qed.

(** The backlinks attached to the record of an entry. *)
Lemma entry_json_backlinks (entries : list Entry.t) B :
  e_backlinks (entry_json render_body (index_backlinks entries) B)
  = E ← entries;
    backlink_of E <$> filter (λ e, Edge.path e = Entry.path B) (Entry.edges E).
Proof. simpl. apply index_backlinks_lookup. Qed.

End viewer_facts.

(** ** The snapshot of the viewer *)

Section viewer_snapshot.
Import Viewer.
Variable parse_entry : string → option Entry.t.
Variable render_body : string → string.

Example backlinks_scenario :
  e_backlinks <$> Viewer.entries (build_data render_body [entry_a; entry_b])
  = [ [ mkBacklinkJson "/b.md" "Beta" "relates-to" (Some "back") ];
      [ mkBacklinkJson "/a.md" "Alpha" "relates-to" None ] ].
Proof. rewrite build_data_entries. vm_compute. reflexivity. Qed.

(** C1.  In the snapshot built from the parsed entries [entries], the
    record of every loaded entry [B] carries as backlinks exactly one
    record per edge, of any loaded entry [E], whose target path is the
    path of [B]; the record has the label and description of the edge and
    the path and title of [E]; the records come in encounter order,
    entries in snapshot order and then edges in stored order. *)
Theorem backlinks_exact_in_encounter_order (entries : list Entry.t) :
  (λ ed, (e_path ed, e_backlinks ed))
    <$> Viewer.entries (build_data render_body entries)
  = (λ B, (Entry.path B,
           E ← entries;
           (λ e, {| bj_path := Entry.path E; bj_title := Entry.title E;
                    bj_label := Edge.label e;
                    bj_description := Edge.description e |})
             <$> filter (λ e, Edge.path e = Entry.path B) (Entry.edges E)))
      <$> entries.
Proof.
  rewrite build_data_entries, <- list_fmap_compose.
  apply list_fmap_ext. intros i B _. unfold compose.
  by rewrite entry_json_backlinks.
Qed.

Lemma filter_delete_not {A} (P : A → Prop) `{!∀ x, Decision (P x)}
    (l : list A) j x :
  l !! j = Some x → ¬ P x → filter P (delete j l) = filter P l.
Proof.
  intros Hj Hx. rewrite delete_take_drop.
  rewrite <- (take_drop_middle l j x Hj) at 3.
  rewrite !filter_app, filter_cons. by destruct (decide (P x)).
Qed.

(** An edge to [q] plays no part in the backlinks under another path. *)
Lemma backlinks_without_edge (entries : list Entry.t) i E j e p :
  entries !! i = Some E →
  Entry.edges E !! j = Some e →
  Edge.path e ≠ p →
  (E' ← <[i := without_edge j E]> entries;
   backlink_of E' <$> filter (λ e, Edge.path e = p) (Entry.edges E'))
  = (E' ← entries;
     backlink_of E' <$> filter (λ e, Edge.path e = p) (Entry.edges E')).
Proof.
  intros Hi Hj Hne.
  rewrite insert_take_drop by (by eapply lookup_lt_Some).
  rewrite <- (take_drop_middle entries i E Hi) at 3.
  rewrite !bind_app, !bind_cons. do 2 f_equal. simpl.
  by rewrite (filter_delete_not _ _ j e).
Qed.

(** C2.  A dangling edge, one whose target path is the path of no loaded
    entry, does not make [build] fail; it is serialised, unchanged and at
    its position, in the edges of its source entry; and it contributes to
    the backlinks of no loaded entry: the backlinks of every record are
    those of the snapshot built without that edge. *)
Theorem dangling_edge_kept_without_backlink md_paths i E j e :
  let entries := load_entries parse_entry md_paths in
  entries !! i = Some E →
  Entry.edges E !! j = Some e →
  (∀ B, B ∈ entries → Entry.path B ≠ Edge.path e) →
  ∃ data,
    build parse_entry render_body true md_paths = Some data
    ∧ (∃ ed, Viewer.entries data !! i = Some ed
             ∧ length (e_edges ed) = length (Entry.edges E)
             ∧ e_edges ed !! j
               = Some {| ej_path := Edge.path e; ej_label := Edge.label e;
                         ej_description := Edge.description e |})
    ∧ (∀ ed, ed ∈ Viewer.entries data → e_path ed ≠ Edge.path e)
    ∧ e_backlinks <$> Viewer.entries data
      = e_backlinks
          <$> Viewer.entries
                (build_data render_body (<[i := without_edge j E]> entries)).
Proof.
  intros entries Hi Hj Hdangling.
  exists (build_data render_body entries). split; [done|].
  rewrite !build_data_entries. split; [|split].
  - exists (entry_json render_body (index_backlinks entries) E).
    rewrite list_lookup_fmap, Hi. split; [done|]. simpl.
    rewrite length_fmap, list_lookup_fmap, Hj. done.
  - intros ed (B & -> & HB)%list_elem_of_fmap. simpl. by apply Hdangling.
  - rewrite <- !list_fmap_compose.
    rewrite (list_fmap_ext _ (λ B, E' ← entries;
               backlink_of E' <$> filter (λ e, Edge.path e = Entry.path B)
                                         (Entry.edges E'))
                           (<[i := without_edge j E]> entries)).
    2:{ intros k B HB. unfold compose. rewrite entry_json_backlinks.
        apply (backlinks_without_edge entries i E j e); [done..|].
        intros Heq. destruct (decide (k = i)) as [->|Hki].
        - rewrite list_lookup_insert_eq in HB by (by eapply lookup_lt_Some).
          injection HB as <-. simpl in Heq.
          apply (Hdangling E); [by eapply list_elem_of_lookup_2|done].
        - rewrite list_lookup_insert_ne in HB by done.
          apply (Hdangling B); [by eapply list_elem_of_lookup_2|done]. }
    rewrite list_fmap_insert. simpl.
    rewrite list_insert_id.
    + apply list_fmap_ext. intros k B _. unfold compose.
      by rewrite entry_json_backlinks.
    + by rewrite list_lookup_fmap, Hi.
Qed.

(** *** The load order *)

Lemma StronglySorted_filter {A} (R : relation A) (P : A → Prop)
    `{!∀ x, Decision (P x)} (l : list A) :
  StronglySorted R l → StronglySorted R (filter P l).
Proof.
  induction 1 as [|x l Hl IH Hx]; [constructor|].
  rewrite filter_cons. destruct (decide (P x)); [|done].
  constructor; [done|].
  apply Forall_forall. intros y [_ Hy]%list_elem_of_filter.
  by eapply Forall_forall in Hx.
Qed.

Lemma sorted_strongly (l : list string) : StronglySorted String.le (Py.sorted l).
Proof. apply StronglySorted_merge_sort; apply _. Qed.

Lemma sorted_permutation (l : list string) : Py.sorted l ≡ₚ l.
Proof. apply merge_sort_Permutation. Qed.

(** Sorting and dropping documents commute. *)
Lemma sorted_filter (P : string → Prop) `{!∀ x, Decision (P x)} (l : list string) :
  filter P (Py.sorted l) = Py.sorted (filter P l).
Proof.
  apply (StronglySorted_unique String.le).
  - apply StronglySorted_filter, sorted_strongly.
  - apply sorted_strongly.
  - by rewrite !sorted_permutation.
Qed.

Lemma omap_filter_is_Some {A B} (f : A → option B) (l : list A) :
  omap f (filter (λ x, is_Some (f x)) l) = omap f l.
Proof.
  induction l as [|x l IH]; [done|].
  rewrite filter_cons. destruct (decide (is_Some (f x))) as [[y Hy]|Hn].
  - simpl. rewrite Hy. f_equal. exact IH.
  - rewrite IH. simpl. destruct (f x) eqn:Hfx; [|done]. by destruct Hn.
Qed.

Lemma length_omap_filter {A B} (f : A → option B) (l : list A) :
  length (omap f l) = length (filter (λ x, is_Some (f x)) l).
Proof.
  induction l as [|x l IH]; [done|].
  rewrite filter_cons. simpl.
  destruct (f x) eqn:Hfx; destruct (decide _) as [Hs|Hn]; simpl.
  - f_equal. exact IH.
  - by destruct Hn.
  - by destruct Hs as [? ?].
  - exact IH.
Qed.

(** C3.  A document whose parse fails is skipped and the others are
    loaded: the loaded entries are the successful parses, each document
    that parses is loaded and nothing else is, the documents that fail
    leave no trace in the load, and [build] still produces its data, with
    one record per document that parses. *)
Theorem unparsable_documents_skipped md_paths :
  let parses := λ d, is_Some (parse_entry d) in
  load_entries parse_entry md_paths = omap parse_entry (Py.sorted md_paths)
  ∧ (∀ d e, d ∈ md_paths → parse_entry d = Some e →
            e ∈ load_entries parse_entry md_paths)
  ∧ (∀ e, e ∈ load_entries parse_entry md_paths →
          ∃ d, d ∈ md_paths ∧ parse_entry d = Some e)
  ∧ load_entries parse_entry md_paths
    = load_entries parse_entry (filter parses md_paths)
  ∧ ∃ data, build parse_entry render_body true md_paths = Some data
            ∧ length (Viewer.entries data) = length (filter parses md_paths).
Proof.
  intros parses. subst parses. rewrite !load_entries_omap. repeat split.
  - intros d e Hd He. apply list_elem_of_omap. exists d. split; [|done].
    by rewrite sorted_permutation.
  - intros e (d & Hd & He)%list_elem_of_omap. exists d. split; [|done].
    by rewrite sorted_permutation in Hd.
  - rewrite <- (sorted_filter (λ d, is_Some (parse_entry d))).
    by rewrite omap_filter_is_Some.
  - eexists. split; [done|].
    rewrite build_data_entries, length_fmap, load_entries_omap.
    rewrite length_omap_filter. apply Permutation_length.
    by rewrite sorted_permutation.
Qed.

Lemma StronglySorted_fmap_on {A B} (R : relation A) (R' : relation B)
    (f : A → B) (l : list A) :
  (∀ x y, x ∈ l → y ∈ l → R x y → R' (f x) (f y)) →
  StronglySorted R l → StronglySorted R' (f <$> l).
Proof.
  intros Hmono Hl. induction Hl as [|x l Hl IH Hx]; [constructor|].
  rewrite fmap_cons. constructor.
  - apply IH. intros a b Ha Hb. apply Hmono; by right.
  - apply Forall_fmap, Forall_forall. intros y Hy. simpl.
    apply Hmono; [by left|by right|]. by eapply Forall_forall in Hx.
Qed.

Lemma fmap_omap_path (rel : string → string) (l : list string) :
  (∀ d e, d ∈ l → parse_entry d = Some e → Entry.path e = rel d) →
  Entry.path <$> omap parse_entry l
  = rel <$> filter (λ d, is_Some (parse_entry d)) l.
Proof.
  induction l as [|d l IH]; intros Hpath; [done|].
  rewrite filter_cons. simpl.
  assert (Entry.path <$> omap parse_entry l
          = rel <$> filter (λ d, is_Some (parse_entry d)) l) as IH'.
  { apply IH. intros d' e Hd'. apply Hpath. by right. }
  destruct (parse_entry d) as [e|] eqn:Hd;
    destruct (decide _) as [Hs|Hn]; simpl.
  - f_equal; [|exact IH']. apply (Hpath d e); [by left|done].
  - by destruct Hn.
  - by destruct Hs as [? ?].
  - exact IH'.
Qed.

(** C6.  The entries are enumerated in load order, which is the order of
    the document paths: the documents behind the entries list are the
    sorted documents that parse, and, the path of an entry being that of
    its document relative to the repository ([rel], which keeps the
    order of the documents), the paths of the entries list and the ids of
    the graph node list are ascending. *)
Theorem entries_in_ascending_path_order (rel : string → string) md_paths :
  (∀ d e, d ∈ md_paths → parse_entry d = Some e → Entry.path e = rel d) →
  (∀ a b, a ∈ md_paths → b ∈ md_paths →
          String.le a b → String.le (rel a) (rel b)) →
  let data := build_data render_body (load_entries parse_entry md_paths) in
  let loaded := filter (λ d, is_Some (parse_entry d)) (Py.sorted md_paths) in
  StronglySorted String.le loaded
  ∧ loaded ⊆ md_paths
  ∧ e_path <$> Viewer.entries data = rel <$> loaded
  ∧ n_id <$> graph_nodes data = rel <$> loaded
  ∧ StronglySorted String.le (e_path <$> Viewer.entries data)
  ∧ StronglySorted String.le (n_id <$> graph_nodes data).
Proof.
  intros Hpath Hmono data loaded. subst data loaded.
  rewrite build_data_entries, build_data_graph_nodes, load_entries_omap.
  rewrite <- !list_fmap_compose.
  change (e_path ∘ _) with Entry.path. change (n_id ∘ _) with Entry.path.
  assert (filter (λ d, is_Some (parse_entry d)) (Py.sorted md_paths) ⊆ md_paths)
    as Hsub.
  { intros d [_ Hd]%list_elem_of_filter. by rewrite sorted_permutation in Hd. }
  assert (StronglySorted String.le
            (filter (λ d, is_Some (parse_entry d)) (Py.sorted md_paths))) as Hs.
  { apply StronglySorted_filter, sorted_strongly. }
  rewrite (fmap_omap_path rel).
  2:{ intros d e Hd. apply Hpath. by rewrite sorted_permutation in Hd. }
  assert (StronglySorted String.le
            (rel <$> filter (λ d, is_Some (parse_entry d)) (Py.sorted md_paths)))
    as Hs'.
  { apply (StronglySorted_fmap_on String.le); [|done].
    intros a b Ha Hb. apply Hmono; by apply Hsub. }
  done.
Qed.

End viewer_snapshot.

(** ** The read paths and the statistics *)

(** The lines of a read in closed form. *)
Lemma read_lines_closed (entry : Entry.t) (backlinks : list Backlink.t) :
  read_lines entry backlinks
  = [ "# " +:+ Entry.title entry;
      "type: " +:+ Entry.type entry;
      "summary: " +:+ Entry.summary entry;
      "tags: " +:+ Py.join ", " (Entry.tags entry);
      "created: " +:+ Entry.created entry ]
    ++ (if Py.truthy (Entry.updated entry)
        then ["updated: " +:+ Py.fmt (Entry.updated entry)] else [])
    ++ block (nl +:+ "edges:") (edge_line <$> Entry.edges entry)
    ++ block (nl +:+ "sources:") (source_line <$> Entry.sources entry)
    ++ block (nl +:+ "backlinks:") (backlink_line <$> backlinks)
    ++ [nl +:+ "---" +:+ nl +:+ Entry.body entry].
Proof.
  unfold read_lines. rewrite !append_block_block.
  destruct (Py.truthy (Entry.updated entry)); simpl; by rewrite <- ?app_assoc.
Qed.

Section read_paths.
Import Viewer.
Context {KB : Type} `{!KnowledgeBaseOps KB}.
Variable parse_entry : string → option Entry.t.
Variable render_body : string → string.
Variable load_config : Config.t.

Lemma sum_edges_from (entries : list Entry.t) (a : nat) :
  foldl (λ acc e, acc + length (Entry.edges e)) a entries
  = a + sum_list (length ∘ Entry.edges <$> entries).
Proof.
  revert a. induction entries as [|E entries IH]; intros a.
  - simpl. lia.
  - rewrite fmap_cons. simpl. rewrite IH. lia.
Qed.

Lemma sum_edges_sum_list (entries : list Entry.t) :
  Cli.sum_edges entries = sum_list (length ∘ Entry.edges <$> entries).
Proof. unfold Cli.sum_edges. by rewrite sum_edges_from. Qed.

Lemma length_graph_edges (entries : list Entry.t) :
  length (E ← entries; graph_edge_json E <$> Entry.edges E)
  = sum_list (length ∘ Entry.edges <$> entries).
Proof.
  induction entries as [|E entries IH]; [done|].
  rewrite bind_cons, length_app, length_fmap, IH. done.
Qed.

(** C4.  The order of the edges, sources and tags stored on an entry is
    the order in which the read paths emit them: every record of the
    viewer's output holds the tags as stored and the edges and sources
    converted one by one in stored order, and [kb_read] renders the tags
    joined in stored order, then one line per edge in stored order, then
    one line per source in stored order. *)
Theorem stored_order_preserved_on_read_paths
    (kb : KB) (entries : list Entry.t) (path : string) (entry : Entry.t) :
  read_entry kb path = Some entry →
  (λ ed, (e_tags ed, e_edges ed, e_sources ed))
    <$> Viewer.entries (build_data render_body entries)
  = (λ E, (Entry.tags E,
           (λ e, {| ej_path := Edge.path e; ej_label := Edge.label e;
                    ej_description := Edge.description e |})
             <$> Entry.edges E,
           (λ s, {| sj_url := Source.url s; sj_title := Source.title s |})
             <$> Entry.sources E))
      <$> entries
  ∧ Tools.kb_read kb path
    = Py.join nl
        ([ "# " +:+ Entry.title entry;
           "type: " +:+ Entry.type entry;
           "summary: " +:+ Entry.summary entry;
           "tags: " +:+ Py.join ", " (Entry.tags entry);
           "created: " +:+ Entry.created entry ]
         ++ (if Py.truthy (Entry.updated entry)
             then ["updated: " +:+ Py.fmt (Entry.updated entry)] else [])
         ++ block (nl +:+ "edges:") (edge_line <$> Entry.edges entry)
         ++ block (nl +:+ "sources:") (source_line <$> Entry.sources entry)
         ++ block (nl +:+ "backlinks:") (backlink_line <$> get_backlinks kb path)
         ++ [nl +:+ "---" +:+ nl +:+ Entry.body entry]).
Proof.
  intros Hread. split.
  - rewrite build_data_entries, <- list_fmap_compose. done.
  - unfold Tools.kb_read. by rewrite Hread, read_lines_closed.
Qed.

(** C5.  The viewer reports as entry total the number of loaded entries
    and as edge total the sum of the lengths of their edges lists; the
    sum that the CLI stats command computes over the entries of a
    knowledge base holding the same snapshot is the same number, and the
    command prints it after the number of entries. *)
Theorem edge_and_entry_totals (md_paths : list string) :
  let entries := load_entries parse_entry md_paths in
  let data := build_data render_body entries in
  let kb := Cli._make_kb load_config in
  all_entries kb = entries →
  entry_count kb = length (all_entries kb) →
  total (stats data) = length entries
  ∧ total_edges (stats data) = sum_list (length ∘ Entry.edges <$> entries)
  ∧ Cli.sum_edges (all_entries kb) = total_edges (stats data)
  ∧ take 2 (stdout (Cli.cmd_stats load_config))
    = [ "Entries: " +:+ Py.fmt_nat (total (stats data));
        "Edges: " +:+ Py.fmt_nat (total_edges (stats data)) ].
Proof.
  intros entries data kb Hall Hcount.
  destruct (build_data_stats render_body entries) as [Ht He].
  fold data in Ht, He. rewrite length_graph_edges in He.
  repeat split.
  - done.
  - done.
  - by rewrite Hall, sum_edges_sum_list, He.
  - unfold Cli.cmd_stats. simpl. fold kb.
    by rewrite Hcount, Hall, sum_edges_sum_list, Ht, He.
Qed.

(** C7.  A read of a path for which the knowledge base has no entry
    ([read_entry] answers [None]) yields an explicit result: [kb_read]
    returns the string [Entry not found: <path>], and the CLI read
    command prints that line on the error stream and exits with status 1;
    neither ends with an exception. *)
Theorem missing_entry_read_is_absent (kb : KB) (path : string) :
  read_entry kb path = None →
  read_entry (Cli._make_kb load_config) path = None →
  Tools.kb_read kb path = "Entry not found: " +:+ path
  ∧ Cli.cmd_read load_config path
    = {| stdout := [];
         stderr := ["Entry not found: " +:+ path];
         status := Exited 1 |}.
Proof.
  intros Hkb Hcli. unfold Tools.kb_read, Cli.cmd_read.
  by rewrite Hkb, Hcli.
Qed.

End read_paths.

(** The index engine of the specification has no entry for a path
    exactly when no entry of its snapshot has that path. *)
Lemma spec_get_None (kb : SpecKB.t) (path : string) :
  SpecKB.get kb path = None ↔ path ∉ Entry.path <$> SpecKB.snapshot kb.
Proof.
  unfold SpecKB.get. induction (SpecKB.snapshot kb) as [|E l IH]; simpl.
  - split; [intros _; apply not_elem_of_nil|done].
  - rewrite not_elem_of_cons. case_bool_decide as HE.
    + split; [done|]. by intros [? _].
    + rewrite IH. split; [by intros ?; split|by intros [_ ?]].
Qed.

(** ** The knowledge base of the CLI *)

Section cli_config.
Context {KB : Type} `{!KnowledgeBaseOps KB}.
Variable world : World.
Variable lib : PyLib.

Lemma make_kb_ignores_flag (config : Config.t) (b : bool) :
  Cli._make_kb (Config.set_auto_pull b config) = Cli._make_kb config.
Proof. by destruct config. Qed.

Lemma upload_sources_ignores_flag (config : Config.t) (b : bool)
    branch sources tr :
  Cli.upload_sources world lib (Config.set_auto_pull b config) branch sources tr
  = Cli.upload_sources world lib config branch sources tr.
Proof.
  revert tr. induction sources as [|s rest IH]; intros tr; [done|].
  simpl. change (gh_client (Config.set_auto_pull b config)) with (gh_client config).
  destruct (negb (bool_decide _)); [by rewrite IH|].
  destruct (is_url s).
  - destruct (http_get world tr s) as [content|[e|e|e|e]]; rewrite ?IH; try done.
    destruct (GitHubClient.upload_file _ _ _ _ _ _ _) as [[r|e] tr'];
      by rewrite ?IH.
  - destruct (read_file world tr s) as [[content|e]|]; rewrite ?IH; try done.
    destruct (GitHubClient.upload_file _ _ _ _ _ _ _) as [[r|e] tr'];
      by rewrite ?IH.
Qed.

(** No command of the CLI depends on the loaded value of the flag. *)
Lemma main_ignores_flag (config : Config.t) (b : bool) (args : Cli.Args) tr :
  Cli.main (Config.set_auto_pull b config) world lib args tr
  = Cli.main config world lib args tr.
Proof.
  destruct args as [query limit|type tag|path| |sources branch]; simpl.
  - unfold Cli.cmd_search. by rewrite make_kb_ignores_flag.
  - unfold Cli.cmd_list. by rewrite make_kb_ignores_flag.
  - unfold Cli.cmd_read. by rewrite make_kb_ignores_flag.
  - unfold Cli.cmd_stats. by rewrite make_kb_ignores_flag.
  - unfold Cli.cmd_upload.
    change (Config.memex_git_token (Config.set_auto_pull b config))
      with (Config.memex_git_token config).
    change (repo_unset (Config.set_auto_pull b config)) with (repo_unset config).
    change (gh_client (Config.set_auto_pull b config)) with (gh_client config).
    change (Config.github (Config.set_auto_pull b config))
      with (Config.github config).
    destruct (negb (Py.truthy _)); [done|].
    destruct (repo_unset config); [done|].
    destruct (Py.truthy branch).
    + destruct (GitHubClient.ensure_branch _ _ _ _ _) as [[r|e] tr']; [|done].
      by rewrite upload_sources_ignores_flag.
    + by rewrite upload_sources_ignores_flag.
Qed.

End cli_config.

(** C8.  The CLI constructs its knowledge base from the loaded
    configuration with [sync.auto_pull] set to [False], whatever the
    loaded value of the flag and leaving the rest of the configuration
    as loaded, and no command depends on the loaded value; with the
    refresh flag off the index built at startup from the local documents
    is the one that every later read sees, and no reload happens. *)
Theorem cli_kb_never_auto_refreshes (config : Config.t) (local : list Entry.t)
    (ranking : SpecKB.t → string → Z → list SearchResult.t)
    (remotes : list (option (list Entry.t))) :
  (∀ (KB : Type) (ops : KnowledgeBaseOps KB) (b : bool),
     Cli._make_kb config = KnowledgeBase (Config.set_auto_pull false config)
     ∧ Cli._make_kb (Config.set_auto_pull b config) = Cli._make_kb config
     ∧ ∀ world lib args tr,
         Cli.main (Config.set_auto_pull b config) world lib args tr
         = Cli.main config world lib args tr)
  ∧ Config.auto_pull (Config.sync (Config.set_auto_pull false config)) = false
  ∧ (Config.memex_git_token (Config.set_auto_pull false config),
     Config.cursor_api_key (Config.set_auto_pull false config),
     Config.github (Config.set_auto_pull false config),
     Config.knowledge (Config.set_auto_pull false config))
    = (Config.memex_git_token config, Config.cursor_api_key config,
       Config.github config, Config.knowledge config)
  ∧ let kb := @Cli._make_kb _ (SpecKB.ops local ranking) config in
    let kb' := foldl (λ kb remote, SpecKB.refresh_before_read remote kb) kb remotes in
    Config.auto_pull (Config.sync (SpecKB.config kb)) = false
    ∧ SpecKB.snapshot kb = local
    ∧ kb' = kb
    ∧ SpecKB.snapshot kb' = local
    ∧ SpecKB.reloads kb' = 0.
Proof.
  split; [|split; [done|split; [done|]]].
  - intros KB ops b. split; [done|]. split.
    + apply make_kb_ignores_flag.
    + intros. apply main_ignores_flag.
  - intros kb kb'.
    assert (kb' = kb) as ->; [|done].
    subst kb'. induction remotes as [|r rs IH]; [done|]. simpl. exact IH.
Qed.

(** ** The extension guard of the uploads *)

Section upload_guard.
Variable config : Config.t.
Variable world : World.
Variable lib : PyLib.

Lemma same_effects_refl r : same_effects r r.
Proof. by repeat split. Qed.

Lemma same_effects_say_out line r1 r2 :
  same_effects r1 r2 → same_effects (say_out line r1) (say_out line r2).
Proof. intros (? & ? & ?). repeat split; simpl; congruence. Qed.

Lemma same_effects_say_err line1 line2 r1 r2 :
  same_effects r1 r2 → same_effects (say_err line1 r1) (say_err line2 r2).
Proof. intros (? & ? & ?). repeat split; simpl; congruence. Qed.

Lemma same_effects_say_err_l line r1 r2 :
  same_effects r1 r2 → same_effects (say_err line r1) r2.
Proof. intros (? & ? & ?). repeat split; simpl; congruence. Qed.

Lemma same_effects_except_github r1 r2 :
  same_effects r1 r2 →
  same_effects (Cli.except_github r1) (Cli.except_github r2).
Proof.
  intros (Hc & Ho & Hs). unfold Cli.except_github. rewrite Hs.
  destruct (status r2.1) as [| |[]] eqn:Hs2; repeat split; simpl; congruence.
Qed.

(** The loop goes past a source of unsupported extension with a line on
    the error stream and nothing else. *)
Lemma upload_sources_skip branch source rest tr :
  ext_of lib source ∉ GitHub.IMAGE_EXTENSIONS →
  Cli.upload_sources world lib config branch (source :: rest) tr
  = say_err (Cli.skip_msg (filename_of lib source) (ext_of lib source))
            (Cli.upload_sources world lib config branch rest tr).
Proof. intros Hext. simpl. by rewrite bool_decide_eq_false_2. Qed.

Lemma upload_sources_without branch source before after tr :
  ext_of lib source ∉ GitHub.IMAGE_EXTENSIONS →
  same_effects
    (Cli.upload_sources world lib config branch (before ++ source :: after) tr)
    (Cli.upload_sources world lib config branch (before ++ after) tr).
Proof.
  intros Hext. revert tr. induction before as [|s before IH]; intros tr.
  - rewrite !app_nil_l, upload_sources_skip by done.
    apply same_effects_say_err_l, same_effects_refl.
  - rewrite <- !app_comm_cons. simpl.
    destruct (bool_decide (ext_of lib s ∈ GitHub.IMAGE_EXTENSIONS)); simpl.
    + destruct (is_url s).
      * destruct (http_get world tr s) as [content|[e|e|e|e]];
          try apply same_effects_refl.
        -- destruct (GitHubClient.upload_file _ _ _ _ _ _ _) as [[r|e] tr'];
             [|apply same_effects_refl].
           apply same_effects_say_out, IH.
        -- apply same_effects_say_err, IH.
      * destruct (read_file world tr s) as [[content|e]|];
          try apply same_effects_refl.
        -- destruct (GitHubClient.upload_file _ _ _ _ _ _ _) as [[r|e] tr'];
             [|apply same_effects_refl].
           apply same_effects_say_out, IH.
        -- apply same_effects_say_err, IH.
    + apply same_effects_say_err, IH.
Qed.

(** C9.  An upload source whose derived extension, in lower case, is not
    an image extension: [kb_upload] returns an error message and makes no
    call at all, neither a fetch nor a request to the repository; in the
    CLI the loop passes the source with a message and goes on with the
    rest, so that the command makes the calls, prints the output and ends
    as it does without that source. *)
Theorem unsupported_extension_rejected
    (source : string) (branch : option string) (tr : list Call) :
  ext_of lib source ∉ GitHub.IMAGE_EXTENSIONS →
  (∃ msg, Tools.kb_upload config world lib source branch tr = (Ok msg, tr)
          ∧ Py.startswith "Error: " msg = true)
  ∧ (∀ target rest tr',
       Cli.upload_sources world lib config target (source :: rest) tr'
       = say_err (Cli.skip_msg (filename_of lib source) (ext_of lib source))
                 (Cli.upload_sources world lib config target rest tr'))
  ∧ (∀ before after,
       same_effects
         (Cli.cmd_upload config world lib (before ++ source :: after) branch tr)
         (Cli.cmd_upload config world lib (before ++ after) branch tr)).
Proof.
  intros Hext. split; [|split].
  - unfold Tools.kb_upload.
    destruct (negb (Py.truthy _)); [by eexists|].
    destruct (repo_unset config); [by eexists|].
    rewrite bool_decide_eq_false_2 by done. simpl. by eexists.
  - intros. by apply upload_sources_skip.
  - intros before after. unfold Cli.cmd_upload.
    destruct (negb (Py.truthy _)); [apply same_effects_refl|].
    destruct (repo_unset config); [apply same_effects_refl|].
    apply same_effects_except_github.
    destruct (Py.truthy branch).
    + destruct (GitHubClient.ensure_branch _ _ _ _ _) as [[r|e] tr'];
        [|apply same_effects_refl].
      by apply upload_sources_without.
    + by apply upload_sources_without.
Qed.

End upload_guard.

(** ** The summary guard of [kb_add] *)

(** White space goes at both ends, whatever its width in bytes, and
    stays inside. *)
Example strip_scenario :
  Py.strip (nbsp +:+ " a" +:+ em_space +:+ "note " +:+ em_space)
  = "a" +:+ em_space +:+ "note".
Proof. vm_compute. reflexivity. Qed.

(** A leading white space character goes. *)
Lemma lstrip_space w s : w ∈ Py.whitespace → Py.lstrip (w +:+ s) = Py.lstrip s.
Proof.
  unfold Py.whitespace. intros Hw.
  repeat (apply elem_of_cons in Hw as [->|Hw]; [reflexivity|]).
  by apply elem_of_nil in Hw.
Qed.

(** One step of [lstrip]: nothing goes, or one white space character. *)
Lemma lstrip_cases s :
  Py.lstrip s = s
  ∨ ∃ w s', s = w +:+ s' ∧ w ∈ Py.whitespace
            ∧ String.length s' < String.length s
            ∧ Py.lstrip s = Py.lstrip s'.
Proof.
  destruct s as [|a s1]; [by left|]. cbn [Py.lstrip].
  destruct (Py.isspace (String a "")) eqn:H1.
  { right. exists (String a ""), s1. apply bool_decide_eq_true in H1.
    repeat split; simpl; try done. lia. }
  destruct s1 as [|b s2]; [by left|].
  destruct (Py.isspace (String a (String b ""))) eqn:H2.
  { right. exists (String a (String b "")), s2. apply bool_decide_eq_true in H2.
    repeat split; simpl; try done. lia. }
  destruct s2 as [|c s3]; [by left|].
  destruct (Py.isspace (String a (String b (String c "")))) eqn:H3; [|by left].
  right. exists (String a (String b (String c ""))), s3.
  apply bool_decide_eq_true in H3. repeat split; simpl; try done. lia.
Qed.

Lemma lstrip_from n s :
  String.length s ≤ n →
  Py.lstrip (Py.lstrip s) = Py.lstrip s ∧ (Py.lstrip s = "" → blank s).
Proof.
  revert s. induction n as [|n IH]; intros s Hn.
  - destruct s; [|simpl in Hn; lia]. split; [done|]. intros _. constructor.
  - destruct (lstrip_cases s) as [Hs|(w & s' & -> & Hw & Hlen & Hs)].
    + rewrite !Hs. split; [done|]. intros ->. constructor.
    + rewrite Hs. destruct (IH s') as [Hi Hb]; [lia|].
      split; [done|]. intros He. constructor; [done|]. by apply Hb.
Qed.

Lemma lstrip_idemp s : Py.lstrip (Py.lstrip s) = Py.lstrip s.
Proof. by apply (lstrip_from (String.length s)). Qed.

(** Nothing is left exactly of the strings made of white space. *)
Lemma lstrip_empty_iff s : Py.lstrip s = "" ↔ blank s.
Proof.
  split.
  - by apply (lstrip_from (String.length s)).
  - induction 1 as [|w s Hw _ IH]; [done|]. by rewrite lstrip_space.
Qed.

Lemma rstrip_empty_iff s : Py.rstrip s = "" ↔ Py.lstrip s = "".
Proof.
  destruct s as [|a s]; [done|]. cbn [Py.rstrip].
  destruct (String.eqb (Py.lstrip (String a s)) "") eqn:He.
  - apply String.eqb_eq in He. by rewrite He.
  - apply String.eqb_neq in He. split; [done|]. by intros ?.
Qed.

Lemma strip_empty_iff s : Py.strip s = "" ↔ blank s.
Proof.
  unfold Py.strip. by rewrite rstrip_empty_iff, lstrip_idemp, lstrip_empty_iff.
Qed.

(** The first test of [kb_add]. *)
Lemma summary_guard_blank s :
  negb (Py.truthy_str s) || negb (Py.truthy_str (Py.strip s)) = true ↔ blank s.
Proof.
  rewrite <- strip_empty_iff. unfold Py.truthy_str.
  rewrite !negb_involutive, orb_true_iff, !String.eqb_eq.
  split; [|by right]. intros [->|?]; done.
Qed.

Section add_guard.
Context {KB : Type}.
Variable kb : KB.
Variable config : Config.t.
Variable world : World.
Variable build_prompt : string → KB → list json → string.

(** A listing is one request of the client. *)
Lemma list_directory_calls gh dir_path branch tr r tr' :
  GitHubClient.list_directory world gh dir_path branch tr = (r, tr') →
  ∃ req, tr' = tr ++ [GhRequest gh req].
Proof.
  unfold GitHubClient.list_directory, GitHubClient.http_get_, GitHubClient.send,
    GitHubClient.json_of, bind, call, ret, raise, lift.
  intros Hrun. eexists.
  repeat case_match; simplify_eq; reflexivity.
Qed.

Lemma list_images_calls target tr r tr' :
  Tools.list_images config world target tr = (r, tr') →
  ∃ new, tr' = tr ++ new
         ∧ Forall (λ c, match c with GhRequest _ _ => True | _ => False end) new.
Proof.
  unfold Tools.list_images. destruct (_ && _).
  - unfold try_except.
    destruct (GitHubClient.list_directory _ _ _ _ _) as [[images|e] tr1] eqn:Hl;
      apply list_directory_calls in Hl as [req ->].
    + intros [= <- <-]. eexists. split; [done|]. by repeat constructor.
    + destruct e; unfold ret; intros [= <- <-]; eexists;
        (split; [done|]); by repeat constructor.
  - unfold ret. intros [= <- <-]. exists []. by rewrite app_nil_r.
Qed.

(** C10.  A summary that is empty or white space only makes [kb_add]
    return [Error: Summary cannot be empty] without any call, so that no
    cloud agent is launched.  For any other summary every launch that
    [kb_add] makes carries the prompt built from the summary stripped of
    its surrounding white space, and once the API key and the repository
    are configured and the images are listed, that launch is made. *)
Theorem blank_summary_rejected_else_stripped
    (summary : string) (branch : option string) (tr : list Call) :
  let run := Tools.kb_add kb config world build_prompt summary branch tr in
  let target := Py.or_ branch (Config.default_branch (Config.github config)) in
  let repo_url := "https://github.com/" +:+ Config.owner (Config.github config)
                    +:+ "/" +:+ Config.repo (Config.github config) in
  (blank summary → run = (Ok "Error: Summary cannot be empty", tr))
  ∧ (¬ blank summary →
     (∃ new, run.2 = tr ++ new
             ∧ Forall (add_call_ok build_prompt kb summary) new)
     ∧ (Py.truthy (Config.cursor_api_key config) = true →
        repo_unset config = false →
        ∀ images tr1,
          Tools.list_images config world target tr = (Ok images, tr1) →
          run.2 = tr1 ++ [CursorLaunchAgent (Config.cursor_api_key config)
                            (build_prompt (Py.strip summary) kb images)
                            repo_url target])).
Proof.
  intros run target repo_url. subst run. unfold Tools.kb_add.
  fold target. split.
  - intros Hb%summary_guard_blank. by rewrite Hb.
  - intros Hnb.
    destruct (negb (Py.truthy_str summary) || _) eqn:Hg.
    { by apply summary_guard_blank in Hg. }
    split.
    + destruct (negb (Py.truthy (Config.cursor_api_key config))).
      { exists []. by rewrite app_nil_r. }
      destruct (repo_unset config).
      { exists []. by rewrite app_nil_r. }
      unfold bind.
      destruct (Tools.list_images config world target tr) as [[images|e] tr1] eqn:Hl;
        apply list_images_calls in Hl as (new & -> & Hnew).
      * assert (Forall (add_call_ok build_prompt kb summary) new) as Hnew'.
        { eapply Forall_impl; [exact Hnew|]. by intros []. }
        unfold Tools.launch. fold repo_url.
        destruct (launch_agent _ _ _ _ _ _) as [r|[e|e|e|e]]; simpl;
          exists (new ++ [CursorLaunchAgent (Config.cursor_api_key config)
                            (build_prompt (Py.strip summary) kb images)
                            repo_url target]);
          (split; [by rewrite app_assoc|]);
          (apply Forall_app; split; [done|]);
          repeat constructor; by exists images.
      * exists new. split; [done|].
        eapply Forall_impl; [exact Hnew|]. by intros [].
    + intros Hkey Hrepo images tr1 Hl.
      rewrite Hkey, Hrepo. simpl. unfold bind. rewrite Hl.
      unfold Tools.launch. fold repo_url.
      by destruct (launch_agent _ _ _ _ _ _) as [r|[e|e|e|e]].
Qed.

End add_guard.

(** ** The statements at the sample data *)

Lemma sample_loaded : Viewer.load_entries sample_parse sample_paths = [entry_a; entry_b].
Proof. vm_compute. reflexivity. Defined.

Lemma sample_paths_cases (P : string → Prop) :
  P "/b.md" → P "/draft.md" → P "/a.md" → ∀ d, d ∈ sample_paths → P d.
Proof.
  intros Hb Hd Ha d Hin. unfold sample_paths in Hin.
  rewrite !elem_of_cons in Hin.
  destruct Hin as [->|[->|[->|Hnil]]]; [done..|].
  by apply elem_of_nil in Hnil.
Defined.

Example upload_scenario :
  (Cli.cmd_upload sample_config sample_world sample_lib
     ["a.png"; "notes.txt"; "http://h/b.gif"] None []).1
  = {| stdout := [ "Uploaded: /knowledge/assets/a.png  (branch: main)";
                   "Uploaded: /knowledge/assets/b.gif  (branch: main)" ];
       stderr := [ "Skipping notes.txt: unsupported type '.txt'" ];
       status := Returned |}.
Proof. vm_compute. reflexivity. Qed.

Example upload_scenario_calls :
  (λ c, match c with
        | HttpGet url => "fetch " +:+ url
        | ReadFile source => "read " +:+ source
        | GhRequest _ req =>
            match method req with GET => "GET " | POST => "POST " | PUT => "PUT " end
              +:+ url req
        | CursorLaunchAgent _ _ _ _ => "launch"
        end)
    <$> (Cli.cmd_upload sample_config sample_world sample_lib
           ["a.png"; "notes.txt"; "http://h/b.gif"] None []).2
  = [ "read a.png";
      "GET https://api.github.com/repos/me/notes/contents/knowledge/assets/a.png";
      "PUT https://api.github.com/repos/me/notes/contents/knowledge/assets/a.png";
      "fetch http://h/b.gif";
      "GET https://api.github.com/repos/me/notes/contents/knowledge/assets/b.gif";
      "PUT https://api.github.com/repos/me/notes/contents/knowledge/assets/b.gif" ].
Proof. vm_compute. reflexivity. Qed.

Example stats_scenario :
  stdout (@Cli.cmd_stats _ sample_ops sample_config)
  = [ "Entries: 2"; "Edges: 3"; nl +:+ "By type:"; "  concept: 2";
      nl +:+ "By tag:"; "  y: 2"; "  x: 1" ].
Proof. vm_compute. reflexivity. Qed.

Lemma dangling_edge_witness :
  ∃ data,
    Viewer.build sample_parse id true sample_paths = Some data
    ∧ (∃ ed, Viewer.entries data !! 0 = Some ed
             ∧ length (Viewer.e_edges ed) = length (Entry.edges entry_a)
             ∧ Viewer.e_edges ed !! 1
               = Some {| Viewer.ej_path := "/missing.md";
                         Viewer.ej_label := "supports";
                         Viewer.ej_description := Some "gone" |})
    ∧ (∀ ed, ed ∈ Viewer.entries data → Viewer.e_path ed ≠ "/missing.md")
    ∧ Viewer.e_backlinks <$> Viewer.entries data
      = Viewer.e_backlinks
          <$> Viewer.entries
                (Viewer.build_data id
                   (<[0 := without_edge 1 entry_a]>
                      (Viewer.load_entries sample_parse sample_paths))).
Proof.
  apply (dangling_edge_kept_without_backlink sample_parse id sample_paths
           0 entry_a 1 (Edge.mk "supports" "/missing.md" (Some "gone"))).
  - vm_compute. reflexivity.
  - vm_compute. reflexivity.
  - rewrite sample_loaded. intros B HB.
    rewrite !elem_of_cons in HB. destruct HB as [->|[->|HB]].
    + vm_compute. discriminate.
    + vm_compute. discriminate.
    + by apply elem_of_nil in HB.
Defined.

Lemma unparsable_documents_witness :
  sample_parse "/draft.md" = None
  ∧ Viewer.load_entries sample_parse sample_paths
    = omap sample_parse (Py.sorted sample_paths)
  ∧ (∀ d e, d ∈ sample_paths → sample_parse d = Some e →
            e ∈ Viewer.load_entries sample_parse sample_paths)
  ∧ (∀ e, e ∈ Viewer.load_entries sample_parse sample_paths →
          ∃ d, d ∈ sample_paths ∧ sample_parse d = Some e)
  ∧ Viewer.load_entries sample_parse sample_paths
    = Viewer.load_entries sample_parse
        (filter (λ d, is_Some (sample_parse d)) sample_paths)
  ∧ ∃ data, Viewer.build sample_parse id true sample_paths = Some data
            ∧ length (Viewer.entries data)
              = length (filter (λ d, is_Some (sample_parse d)) sample_paths).
Proof.
  split; [reflexivity|].
  exact (unparsable_documents_skipped sample_parse id sample_paths).
Defined.

Lemma stored_order_witness :
  @read_entry _ sample_ops sample_kb "/a.md" = Some entry_a
  ∧ (λ ed, (Viewer.e_tags ed, Viewer.e_edges ed, Viewer.e_sources ed))
      <$> Viewer.entries (Viewer.build_data id [entry_a; entry_b])
    = [ (["x"; "y"],
         [ Viewer.mkEdgeJson "/b.md" "relates-to" None;
           Viewer.mkEdgeJson "/missing.md" "supports" (Some "gone") ],
         [ Viewer.mkSourceJson "https://example.org" (Some "Example") ]);
        (["y"], [ Viewer.mkEdgeJson "/a.md" "relates-to" (Some "back") ], []) ]
  ∧ @Tools.kb_read _ sample_ops sample_kb "/a.md"
    = Py.join nl
        [ "# Alpha"; "type: concept"; "summary: first"; "tags: x, y";
          "created: 2024-01-01";
          nl +:+ "edges:";
          "  [relates-to] /b.md";
          "  [supports] /missing.md — gone";
          nl +:+ "sources:";
          "  https://example.org (Example)";
          nl +:+ "backlinks:";
          "  [relates-to] /b.md (Beta) — back";
          nl +:+ "---" +:+ nl +:+ "alpha" ].
Proof.
  split; [reflexivity|].
  exact (@stored_order_preserved_on_read_paths _ sample_ops
           id sample_kb [entry_a; entry_b] "/a.md" entry_a eq_refl).
Defined.

Lemma totals_witness :
  @all_entries _ loaded_ops (@Cli._make_kb _ loaded_ops sample_config)
  = Viewer.load_entries sample_parse sample_paths
  ∧ @entry_count _ loaded_ops (@Cli._make_kb _ loaded_ops sample_config)
    = length (@all_entries _ loaded_ops (@Cli._make_kb _ loaded_ops sample_config))
  ∧ Viewer.total (Viewer.stats sample_data) = 2
  ∧ Viewer.total_edges (Viewer.stats sample_data) = 3
  ∧ Cli.sum_edges (@all_entries _ loaded_ops (@Cli._make_kb _ loaded_ops sample_config))
    = Viewer.total_edges (Viewer.stats sample_data)
  ∧ take 2 (stdout (@Cli.cmd_stats _ loaded_ops sample_config))
    = [ "Entries: " +:+ Py.fmt_nat (Viewer.total (Viewer.stats sample_data));
        "Edges: " +:+ Py.fmt_nat (Viewer.total_edges (Viewer.stats sample_data)) ].
Proof.
  split; [reflexivity|]. split; [reflexivity|].
  exact (@edge_and_entry_totals _ loaded_ops sample_parse id sample_config
           sample_paths eq_refl eq_refl).
Defined.

Lemma ascending_order_witness :
  StronglySorted String.le ["/a.md"; "/b.md"]
  ∧ ["/a.md"; "/b.md"] ⊆ sample_paths
  ∧ Viewer.e_path
      <$> Viewer.entries
            (Viewer.build_data id (Viewer.load_entries sample_parse sample_paths))
    = ["/a.md"; "/b.md"]
  ∧ Viewer.n_id
      <$> Viewer.graph_nodes
            (Viewer.build_data id (Viewer.load_entries sample_parse sample_paths))
    = ["/a.md"; "/b.md"]
  ∧ StronglySorted String.le
      (Viewer.e_path
         <$> Viewer.entries
               (Viewer.build_data id (Viewer.load_entries sample_parse sample_paths)))
  ∧ StronglySorted String.le
      (Viewer.n_id
         <$> Viewer.graph_nodes
               (Viewer.build_data id (Viewer.load_entries sample_parse sample_paths))).
Proof.
  apply (entries_in_ascending_path_order sample_parse id id sample_paths).
  - intros d e Hd. revert e. revert d Hd.
    apply (sample_paths_cases
             (λ d, ∀ e, sample_parse d = Some e → Entry.path e = id d)).
    + vm_compute. by intros e [= <-].
    + vm_compute. discriminate.
    + vm_compute. by intros e [= <-].
  - intros a b _ _ Hle. exact Hle.
Defined.

Lemma missing_entry_witness :
  @read_entry _ sample_ops sample_kb "/missing.md" = None
  ∧ @Tools.kb_read _ sample_ops sample_kb "/missing.md"
    = "Entry not found: /missing.md"
  ∧ @Cli.cmd_read _ sample_ops sample_config "/missing.md"
    = {| stdout := [];
         stderr := ["Entry not found: /missing.md"];
         status := Exited 1 |}.
Proof.
  split; [reflexivity|].
  exact (@missing_entry_read_is_absent _ sample_ops sample_config sample_kb
           "/missing.md" eq_refl eq_refl).
Defined.

Lemma unsupported_extension_witness :
  (ext_of sample_lib "notes.txt" ∉ GitHub.IMAGE_EXTENSIONS)
  ∧ (∃ msg, Tools.kb_upload sample_config sample_world sample_lib
              "notes.txt" None [] = (Ok msg, [])
            ∧ Py.startswith "Error: " msg = true)
  ∧ (∀ target rest tr',
       Cli.upload_sources sample_world sample_lib sample_config target
         ("notes.txt" :: rest) tr'
       = say_err (Cli.skip_msg (filename_of sample_lib "notes.txt")
                               (ext_of sample_lib "notes.txt"))
                 (Cli.upload_sources sample_world sample_lib sample_config
                    target rest tr'))
  ∧ (∀ before after,
       same_effects
         (Cli.cmd_upload sample_config sample_world sample_lib
            (before ++ "notes.txt" :: after) None [])
         (Cli.cmd_upload sample_config sample_world sample_lib
            (before ++ after) None [])).
Proof.
  assert (ext_of sample_lib "notes.txt" ∉ GitHub.IMAGE_EXTENSIONS) as Hext.
  { apply (bool_decide_eq_false_1
             (ext_of sample_lib "notes.txt" ∈ GitHub.IMAGE_EXTENSIONS)).
    vm_compute. reflexivity. }
  split; [exact Hext|].
  exact (unsupported_extension_rejected sample_config sample_world sample_lib
           "notes.txt" None [] Hext).
Defined.

Lemma summary_guard_witness :
  blank (nbsp +:+ " " +:+ em_space)
  ∧ Tools.kb_add sample_kb sample_config sample_world sample_build_prompt
      (nbsp +:+ " " +:+ em_space) None []
    = (Ok "Error: Summary cannot be empty", [])
  ∧ ¬ blank (nbsp +:+ " a note " +:+ em_space)
  ∧ (∃ new,
       (Tools.kb_add sample_kb sample_config sample_world sample_build_prompt
          (nbsp +:+ " a note " +:+ em_space) None []).2 = [] ++ new
       ∧ Forall (add_call_ok sample_build_prompt sample_kb
                   (nbsp +:+ " a note " +:+ em_space)) new)
  ∧ (Tools.kb_add sample_kb sample_config sample_world sample_build_prompt
       (nbsp +:+ " a note " +:+ em_space) None []).2
    = [ GhRequest (gh_client sample_config)
          {| method := GET;
             url := "https://api.github.com/repos/me/notes/contents/knowledge/assets";
             params := [("ref", "main")];
             payload := None |};
        CursorLaunchAgent (Some "key") (sample_build_prompt "a note" sample_kb [])
          "https://github.com/me/notes" "main" ].
Proof.
  assert (blank (nbsp +:+ " " +:+ em_space)) as Hb.
  { apply strip_empty_iff. vm_compute. reflexivity. }
  assert (¬ blank (nbsp +:+ " a note " +:+ em_space)) as Hnb.
  { intros H. apply strip_empty_iff in H. vm_compute in H. discriminate. }
  split; [exact Hb|].
  split.
  { exact (proj1 (blank_summary_rejected_else_stripped sample_kb sample_config
                    sample_world sample_build_prompt
                    (nbsp +:+ " " +:+ em_space) None []) Hb). }
  split; [exact Hnb|].
  destruct (proj2 (blank_summary_rejected_else_stripped sample_kb sample_config
                     sample_world sample_build_prompt
                     (nbsp +:+ " a note " +:+ em_space) None []) Hnb)
    as [Hcalls Hlaunch].
  split; [exact Hcalls|].
  exact (Hlaunch eq_refl eq_refl []
           [ GhRequest (gh_client sample_config)
               {| method := GET;
                  url := "https://api.github.com/repos/me/notes/contents/knowledge/assets";
                  params := [("ref", "main")];
                  payload := None |} ]
           eq_refl).
Defined.

(** * Further properties *)

(** ** The requests of the GitHub client *)

Ltac run_m :=
  unfold GitHubClient.object_sha, GitHubClient.json_of, GitHubClient.http_get_,
    GitHubClient.http_post, GitHubClient.http_put, GitHubClient.send,
    bind, call, ret, raise, lift, try_except in *.

Ltac solve_requests :=
  rewrite <- ?app_assoc; simpl; eexists; split; [reflexivity|];
  split; [|simpl; lia];
  unfold requests_of;
  repeat (apply Forall_cons_2;
          [eexists; split; [reflexivity|simpl; rewrite !elem_of_cons; tauto]|]);
  apply Forall_nil_2.

Section client_requests.
Variable world : World.
Variable lib : PyLib.
Variable self : GitHub.Client.

Lemma ensure_branch_requests branch base tr r tr' :
  GitHubClient.ensure_branch world self branch base tr = (r, tr') →
  ∃ new, tr' = tr ++ new ∧ requests_of self [GET; POST] new ∧ length new ≤ 3.
Proof.
  unfold GitHubClient.ensure_branch. run_m. intros Hrun.
  repeat case_match; simplify_eq; solve_requests.
Qed.

Lemma upload_file_requests repo_path content branch tr r tr' :
  GitHubClient.upload_file world lib self repo_path content branch tr = (r, tr') →
  ∃ new, tr' = tr ++ new ∧ requests_of self [GET; PUT] new ∧ length new ≤ 2.
Proof.
  unfold GitHubClient.upload_file, GitHubClient._get_file_sha. run_m. intros Hrun.
  repeat case_match; simplify_eq; solve_requests.
Qed.

Lemma list_directory_requests dir_path branch tr r tr' :
  GitHubClient.list_directory world self dir_path branch tr = (r, tr') →
  ∃ new, tr' = tr ++ new ∧ requests_of self [GET] new ∧ length new ≤ 1.
Proof.
  unfold GitHubClient.list_directory. run_m. intros Hrun.
  repeat case_match; simplify_eq; solve_requests.
Qed.

(** X1.  Whatever the repository answers, the three methods of the
    client only send requests of the client itself: [ensure_branch] at
    most three, none of them a PUT; [upload_file] at most two, none of
    them a POST; [list_directory] at most one, a GET. *)
Theorem client_request_discipline (tr : list Call) :
  (∀ branch base r tr',
     GitHubClient.ensure_branch world self branch base tr = (r, tr') →
     ∃ new, tr' = tr ++ new ∧ requests_of self [GET; POST] new ∧ length new ≤ 3)
  ∧ (∀ repo_path content branch r tr',
       GitHubClient.upload_file world lib self repo_path content branch tr = (r, tr') →
       ∃ new, tr' = tr ++ new ∧ requests_of self [GET; PUT] new ∧ length new ≤ 2)
  ∧ (∀ dir_path branch r tr',
       GitHubClient.list_directory world self dir_path branch tr = (r, tr') →
       ∃ new, tr' = tr ++ new ∧ requests_of self [GET] new ∧ length new ≤ 1).
Proof.
  split; [|split]; intros.
  - by eapply ensure_branch_requests.
  - by eapply upload_file_requests.
  - by eapply list_directory_requests.
Qed.

(** X2.  When the branch exists, [ensure_branch] returns the sha of the
    branch after the one lookup: the base is not looked up and nothing is
    created. *)
Theorem ensure_branch_existing (branch base : string) (tr : list Call)
    (resp : Response) (object sha : json) :
  gh_request world tr self (ref_lookup self branch) = Ok resp →
  status_code resp = 200 →
  has_field resp "object" object →
  Json.getitem "sha" object = Ok sha →
  GitHubClient.ensure_branch world self branch base tr
  = (Ok sha, tr ++ [GhRequest self (ref_lookup self branch)]).
Proof.
  intros Hresp Hstatus (fields & Hbody & Hobject) Hsha.
  unfold GitHubClient.ensure_branch. run_m.
  fold (ref_lookup self branch). rewrite Hresp, Hstatus. simpl.
  rewrite Hbody. simpl. rewrite Hobject. simpl.
  by rewrite Hsha.
Qed.

(** X3.  When neither the branch nor the base is found, [ensure_branch]
    raises [GitHubClientError] naming the base and the status of its
    lookup, after the two lookups; no branch is created. *)
Theorem ensure_branch_missing_base (branch base : string) (tr : list Call)
    (resp base_resp : Response) :
  gh_request world tr self (ref_lookup self branch) = Ok resp →
  status_code resp ≠ 200 →
  gh_request world (tr ++ [GhRequest self (ref_lookup self branch)]) self
    (ref_lookup self base) = Ok base_resp →
  status_code base_resp ≠ 200 →
  GitHubClient.ensure_branch world self branch base tr
  = (Raise (GitHubClientError
              ("Base branch '" +:+ base +:+ "' not found: "
                 +:+ Py.fmt_nat (status_code base_resp))),
     tr ++ [ GhRequest self (ref_lookup self branch);
             GhRequest self (ref_lookup self base) ]).
Proof.
  intros Hresp Hstatus Hbase Hbstatus.
  unfold GitHubClient.ensure_branch. run_m.
  fold (ref_lookup self branch). fold (ref_lookup self base).
  rewrite Hresp. apply Nat.eqb_neq in Hstatus as ->.
  rewrite Hbase. apply Nat.eqb_neq in Hbstatus as ->. simpl.
  by rewrite <- app_assoc.
Qed.

(** X4.  When the branch is missing and the base exists, [ensure_branch]
    asks for the branch to be created at the sha of the base; it returns
    that sha when the creation is answered with 200 or 201 and raises
    [GitHubClientError] with the status and text of the answer
    otherwise. *)
Theorem ensure_branch_creates_at_base (branch base : string) (tr : list Call)
    (resp base_resp create_resp : Response) (object base_sha : json) :
  let c1 := GhRequest self (ref_lookup self branch) in
  let c2 := GhRequest self (ref_lookup self base) in
  let c3 := GhRequest self (ref_create self branch base_sha) in
  gh_request world tr self (ref_lookup self branch) = Ok resp →
  status_code resp ≠ 200 →
  gh_request world (tr ++ [c1]) self (ref_lookup self base) = Ok base_resp →
  status_code base_resp = 200 →
  has_field base_resp "object" object →
  Json.getitem "sha" object = Ok base_sha →
  gh_request world (tr ++ [c1; c2]) self (ref_create self branch base_sha)
  = Ok create_resp →
  GitHubClient.ensure_branch world self branch base tr
  = (if decide (status_code create_resp = 200 ∨ status_code create_resp = 201)
     then Ok base_sha
     else Raise (GitHubClientError
                   ("Failed to create branch '" +:+ branch +:+ "': "
                      +:+ Py.fmt_nat (status_code create_resp) +:+ " "
                      +:+ text create_resp)),
     tr ++ [c1; c2; c3]).
Proof.
  intros c1 c2 c3 Hresp Hstatus Hbase Hbstatus (fields & Hbody & Hobject)
    Hsha Hcreate.
  unfold GitHubClient.ensure_branch. run_m.
  fold (ref_lookup self branch). fold (ref_lookup self base).
  rewrite Hresp. apply Nat.eqb_neq in Hstatus as ->.
  fold c1. rewrite Hbase, Hbstatus. simpl.
  rewrite Hbody. simpl. rewrite Hobject. simpl.
  rewrite Hsha. fold (ref_create self branch base_sha). fold c2.
  replace ((tr ++ [c1]) ++ [c2]) with (tr ++ [c1; c2])
    by (by rewrite <- app_assoc).
  rewrite Hcreate. unfold GitHubClient.not_ok_created.
  replace (tr ++ [c1; c2; c3]) with ((tr ++ [c1; c2]) ++ [c3])
    by (by rewrite <- app_assoc).
  destruct (decide _) as [[->| ->]|Hno]; simpl; [done..|].
  destruct (status_code create_resp =? 200) eqn:H200.
  { apply Nat.eqb_eq in H200. tauto. }
  destruct (status_code create_resp =? 201) eqn:H201.
  { apply Nat.eqb_eq in H201. tauto. }
  done.
Qed.

End client_requests.

Section client_uploads.
Variable world : World.
Variable lib : PyLib.
Variable self : GitHub.Client.

(** X5.  [upload_file] looks the path up on the branch and then writes
    it.  The write carries the message [upload <name>], the encoded
    content and the branch, and the sha of the file when the lookup found
    one: an existing file is updated, a new path is created without
    sha. *)
Theorem upload_file_forwards_existing_sha
    (repo_path : string) (content : bytes) (branch : string) (tr : list Call)
    (resp : Response) (existing : json) :
  gh_request world tr self (contents_lookup self repo_path branch) = Ok resp →
  (status_code resp = 200
   ∧ ∃ fields, json_body resp = Some (JObj fields)
               ∧ existing = default JNull (Json.lookup_field "sha" fields))
  ∨ (status_code resp ≠ 200 ∧ existing = JNull) →
  ∃ r,
    GitHubClient.upload_file world lib self repo_path content branch tr
    = (r, tr ++ [ GhRequest self (contents_lookup self repo_path branch);
                  GhRequest self
                    (contents_write self repo_path
                       (upload_fields lib repo_path content branch
                          ++ (if Json.truthy existing
                              then [("sha", existing)] else []))) ]).
Proof.
  intros Hresp Hexisting.
  unfold GitHubClient.upload_file, GitHubClient._get_file_sha. run_m.
  fold (contents_lookup self repo_path branch). rewrite Hresp.
  destruct Hexisting as [(-> & fields & Hbody & ->)|(Hstatus & ->)].
  - simpl. rewrite Hbody. simpl.
    repeat (case_match; simplify_eq/=); eexists; rewrite <- ?app_assoc; reflexivity.
  - apply Nat.eqb_neq in Hstatus as ->. simpl.
    repeat (case_match; simplify_eq/=); eexists; rewrite <- ?app_assoc; reflexivity.
Qed.

(** X6.  [upload_file] reports an upload only when the write was
    answered with 200 or 201; the result then names the path and the
    branch that were given, and two requests were sent. *)
Theorem upload_file_success_means_written
    (repo_path : string) (content : bytes) (branch : string)
    (tr tr' : list Call) (res : GitHub.UploadResult) :
  GitHubClient.upload_file world lib self repo_path content branch tr
  = (Ok res, tr') →
  GitHub.path res = repo_path
  ∧ GitHub.branch res = branch
  ∧ ∃ fields resp content_,
      tr' = tr ++ [ GhRequest self (contents_lookup self repo_path branch);
                    GhRequest self (contents_write self repo_path fields) ]
      ∧ gh_request world
          (tr ++ [GhRequest self (contents_lookup self repo_path branch)]) self
          (contents_write self repo_path fields) = Ok resp
      ∧ (status_code resp = 200 ∨ status_code resp = 201)
      ∧ has_field resp "content" content_
      ∧ Json.getitem "sha" content_ = Ok (GitHub.sha res).
Proof.
  unfold GitHubClient.upload_file, GitHubClient._get_file_sha,
    GitHubClient.not_ok_created. run_m.
  fold (contents_lookup self repo_path branch).
  intros Hrun.
  repeat case_match; simplify_eq; simpl; (split; [done|]); (split; [done|]);
    match goal with
    | H : gh_request world (_ ++ [_]) self ?req = Ok ?resp |- _ =>
        match req with
        | {| payload := Some (JObj ?fields) |} =>
            exists fields, resp
        end
    end;
    match goal with
    | H : Json.getitem "content" _ = Ok ?c |- _ => exists c
    end;
    (split; [by rewrite <- app_assoc|]);
    (split; [done|]);
    (split; [match goal with
             | H : negb (_ || _) = false |- _ =>
                 apply negb_false_iff, orb_true_iff in H;
                 rewrite !Nat.eqb_eq in H; exact H
             end|]);
    (split; [|done]);
    unfold has_field;
    match goal with
    | H : Json.getitem "content" ?d = Ok _ |- _ =>
        unfold Json.getitem in H; destruct d; try done;
        repeat case_match; simplify_eq; by eexists
    end.
Qed.

(** X7.  When the listing is answered with a status other than 200,
    [list_directory] gives the empty list for 404, a missing directory
    being no error, and raises [GitHubClientError] with the status for
    any other; the body of the answer is not read. *)
Theorem list_directory_not_ok (dir_path branch : string) (tr : list Call)
    (resp : Response) :
  gh_request world tr self (contents_lookup self dir_path branch) = Ok resp →
  status_code resp ≠ 200 →
  GitHubClient.list_directory world self dir_path branch tr
  = (if decide (status_code resp = 404) then Ok []
     else Raise (GitHubClientError
                   ("Failed to list '" +:+ dir_path +:+ "': "
                      +:+ Py.fmt_nat (status_code resp))),
     tr ++ [GhRequest self (contents_lookup self dir_path branch)]).
Proof.
  intros Hresp Hstatus. unfold GitHubClient.list_directory. run_m.
  fold (contents_lookup self dir_path branch). rewrite Hresp.
  destruct (decide _) as [H404|H404].
  - by rewrite H404.
  - apply Nat.eqb_neq in H404 as ->. by apply Nat.eqb_neq in Hstatus as ->.
Qed.

Lemma file_paths_listing (items : list json) :
  Forall listing_item items →
  GitHubClient.file_paths items = Ok (omap file_path_of items).
Proof.
  induction 1 as [|item items (type & Htype & Hpath) _ IH]; [done|].
  simpl. unfold file_path_of at 1. rewrite Htype, IH.
  destruct (Json.eq_str type "file"); [|done].
  destruct Hpath as [path ->]; done.
Qed.

Lemma file_paths_Ok (items paths : list json) :
  GitHubClient.file_paths items = Ok paths → Forall listing_item items.
Proof.
  revert paths. induction items as [|item items IH]; intros paths; [done|].
  simpl. intros Hrun. repeat case_match; simplify_eq;
    (constructor; [|by eapply IH]); eexists; (split; [done|]).
  - intros _. by eexists.
  - congruence.
Qed.

(** X8.  On an answer 200 whose body is a JSON array, [list_directory]
    returns, in the order of the array, the ["path"] of the items whose
    ["type"] is ["file"], leaving the others out; it returns a list
    exactly when every item has a ["type"] and every file a ["path"]. *)
Theorem list_directory_files (dir_path branch : string) (tr : list Call)
    (resp : Response) (items : list json) :
  gh_request world tr self (contents_lookup self dir_path branch) = Ok resp →
  status_code resp = 200 →
  json_body resp = Some (JArr items) →
  (Forall listing_item items →
   GitHubClient.list_directory world self dir_path branch tr
   = (Ok (omap file_path_of items),
      tr ++ [GhRequest self (contents_lookup self dir_path branch)]))
  ∧ (∀ paths tr',
       GitHubClient.list_directory world self dir_path branch tr = (Ok paths, tr') →
       Forall listing_item items ∧ paths = omap file_path_of items).
Proof.
  intros Hresp Hstatus Hbody.
  assert (GitHubClient.list_directory world self dir_path branch tr
          = (GitHubClient.file_paths items,
             tr ++ [GhRequest self (contents_lookup self dir_path branch)]))
    as Hrun.
  { unfold GitHubClient.list_directory. run_m.
    fold (contents_lookup self dir_path branch).
    rewrite Hresp, Hstatus. simpl. by rewrite Hbody. }
  rewrite Hrun. split.
  - intros Hitems. by rewrite file_paths_listing.
  - intros paths tr' [= Hpaths _].
    assert (Forall listing_item items) as Hitems by (by eapply file_paths_Ok).
    split; [done|]. rewrite file_paths_listing in Hpaths by done. congruence.
Qed.

End client_uploads.

(** ** The uploads of the tools *)

Lemma requests_of_app gh methods l1 l2 :
  requests_of gh methods l1 → requests_of gh methods l2 →
  requests_of gh methods (l1 ++ l2).
Proof. unfold requests_of. intros. by apply Forall_app. Qed.

Lemma requests_of_weaken gh methods methods' l :
  methods ⊆ methods' → requests_of gh methods l → requests_of gh methods' l.
Proof.
  unfold requests_of. intros Hsub Hl. eapply Forall_impl; [exact Hl|].
  intros c (req & -> & Hm). exists req. split; [done|]. by apply Hsub.
Qed.

Section tool_uploads.
Variable config : Config.t.
Variable world : World.
Variable lib : PyLib.

(** What is caught by [except GitHubClientError] does not escape. *)
Lemma on_github_error_catches (m : M string) tr msg :
  (try_except m Tools.on_github_error tr).1 ≠ Raise (GitHubClientError msg).
Proof.
  unfold try_except. destruct (m tr) as [[a|e] tr']; [done|].
  by destruct e.
Qed.

Lemma push_requests filename content branch tr r tr' :
  Tools.push config world lib filename content branch tr = (r, tr') →
  ∃ rest, tr' = tr ++ rest
          ∧ requests_of (gh_client config) [GET; POST; PUT] rest
          ∧ length rest ≤ 5
          ∧ (Py.truthy branch = false →
             requests_of (gh_client config) [GET; PUT] rest).
Proof.
  unfold Tools.push, try_except, bind, Tools.on_github_error, ret.
  destruct (Py.truthy branch).
  - destruct (GitHubClient.ensure_branch _ _ _ _ _) as [[sha|e] tr1] eqn:He;
      apply ensure_branch_requests in He as (new1 & -> & Hnew1 & Hlen1).
    + destruct (GitHubClient.upload_file _ _ _ _ _ _ _) as [[res|e] tr2] eqn:Hu;
        apply upload_file_requests in Hu as (new2 & -> & Hnew2 & Hlen2);
        intros Hrun;
        assert (tr' = tr ++ (new1 ++ new2)) as ->
          by (rewrite app_assoc; try destruct e; by simplify_eq);
        exists (new1 ++ new2); rewrite length_app;
        repeat split; try done; try lia;
        apply requests_of_app;
        (eapply requests_of_weaken; [|done]);
        intros m; rewrite !elem_of_cons; tauto.
    + intros Hrun.
      assert (tr' = tr ++ new1) as -> by (destruct e; by simplify_eq).
      exists new1. repeat split; try done; try lia.
      eapply requests_of_weaken; [|done].
      intros m; rewrite !elem_of_cons; tauto.
  - destruct (GitHubClient.upload_file _ _ _ _ _ _ _) as [[res|e] tr2] eqn:Hu;
      apply upload_file_requests in Hu as (new2 & -> & Hnew2 & Hlen2);
      intros Hrun;
      assert (tr' = tr ++ new2) as -> by (try destruct e; by simplify_eq);
      exists new2; repeat split; try done; try lia;
      (eapply requests_of_weaken; [|done]);
      intros m; rewrite !elem_of_cons; tauto.
Qed.

(** X9.  [kb_upload] obtains the content first and only then talks to
    the repository: its calls are none, or the fetch of the URL (the
    read of the file for a local source) followed by at most five
    requests of the configured client; without a branch argument none of
    them is a POST, so that no branch is created. *)
Theorem kb_upload_fetches_then_requests
    (source : string) (branch : option string) (tr tr' : list Call)
    (r : result string) :
  Tools.kb_upload config world lib source branch tr = (r, tr') →
  tr' = tr
  ∨ ∃ rest, tr' = tr ++ source_call source :: rest
            ∧ requests_of (gh_client config) [GET; POST; PUT] rest
            ∧ length rest ≤ 5
            ∧ (Py.truthy branch = false →
               requests_of (gh_client config) [GET; PUT] rest).
Proof.
  unfold Tools.kb_upload, source_call.
  destruct (negb (Py.truthy _)); [intros [= _ <-]; by left|].
  destruct (repo_unset config); [intros [= _ <-]; by left|].
  destruct (negb (bool_decide _)); [intros [= _ <-]; by left|].
  assert (requests_of (gh_client config) [GET; POST; PUT] []
          ∧ length (@nil Call) ≤ 5
          ∧ (Py.truthy branch = false →
             requests_of (gh_client config) [GET; PUT] [])) as Hnil.
  { repeat split; [apply Forall_nil_2|simpl; lia|intros _; apply Forall_nil_2]. }
  destruct (is_url source).
  - destruct (http_get world tr source) as [content|e].
    + intros (rest & -> & Hrest)%push_requests. right. exists rest.
      by rewrite <- app_assoc.
    + intros Hrun. right. exists []. split; [|exact Hnil].
      destruct e; by simplify_eq.
  - destruct (read_file world tr source) as [[content|e]|].
    + intros (rest & -> & Hrest)%push_requests. right. exists rest.
      by rewrite <- app_assoc.
    + intros [= _ <-]. right. exists []. split; [done|exact Hnil].
    + intros [= _ <-]. right. exists []. split; [done|exact Hnil].
Qed.

(** X10.  When the content of the source cannot be obtained (the fetch
    fails, the file does not exist or cannot be read), [kb_upload] sends
    nothing to the repository: it stops after the attempt, with an
    [Error:] message when the fetch raised [HTTPError] or the file is
    missing. *)
Theorem kb_upload_without_content_sends_nothing
    (source : string) (branch : option string) (tr : list Call) :
  content_of world source tr = None →
  let run := Tools.kb_upload config world lib source branch tr in
  (run.2 = tr ∨ run.2 = tr ++ [source_call source])
  ∧ ((∀ e, is_url source = true → http_get world tr source = Raise (HTTPError e) →
           ∃ msg, run.1 = Ok msg ∧ Py.startswith "Error: " msg = true)
     ∧ (is_url source = false → read_file world tr source = None →
        ∃ msg, run.1 = Ok msg ∧ Py.startswith "Error: " msg = true)).
Proof.
  unfold content_of, source_call, Tools.kb_upload. intros Hnone. simpl.
  destruct (negb (Py.truthy _)).
  { split; [by left|]. split; intros; by eexists. }
  destruct (repo_unset config).
  { split; [by left|]. split; intros; by eexists. }
  destruct (negb (bool_decide _)).
  { split; [by left|]. split; intros; by eexists. }
  destruct (is_url source).
  - destruct (http_get world tr source) as [content|e]; [done|].
    split; [right; by destruct e|].
    split; [|done]. intros e' _ [= ->]. by eexists.
  - destruct (read_file world tr source) as [[content|e]|]; [done|..].
    + split; [by right|]. split; [done|]. by intros _ [=].
    + split; [by right|]. split; [done|]. intros _ _. by eexists.
Qed.

(** X11.  The errors of the repository come back as text: when the
    content is at hand and [ensure_branch] or [upload_file] raises
    [GitHubClientError], [kb_upload] returns [Error: ] followed by the
    message of the error, after the calls made up to the error; no
    [GitHubClientError] escapes the tool, only the fetch and the read of
    the file being outside the handler. *)
Theorem kb_upload_catches_github_errors
    (source : string) (branch : option string) (tr : list Call) :
  let gh := gh_client config in
  let default_branch := Config.default_branch (Config.github config) in
  let repo_path :=
    Config.assets_dir (Config.knowledge config) +:+ "/" +:+ filename_of lib source in
  let tr0 := tr ++ [source_call source] in
  ((∀ msg, http_get world tr source ≠ Raise (GitHubClientError msg)) →
   (∀ msg, read_file world tr source ≠ Some (Raise (GitHubClientError msg))) →
   ∀ msg,
     (Tools.kb_upload config world lib source branch tr).1
     ≠ Raise (GitHubClientError msg))
  ∧ (∀ content,
       Py.truthy (Config.memex_git_token config) = true →
       repo_unset config = false →
       ext_of lib source ∈ GitHub.IMAGE_EXTENSIONS →
       content_of world source tr = Some content →
       (∀ msg tr1,
          Py.truthy branch = true →
          GitHubClient.ensure_branch world gh (Py.fmt branch) default_branch tr0
          = (Raise (GitHubClientError msg), tr1) →
          Tools.kb_upload config world lib source branch tr
          = (Ok ("Error: " +:+ msg), tr1))
       ∧ (∀ msg tr1 tr2,
            (Py.truthy branch = false ∧ tr1 = tr0)
            ∨ (Py.truthy branch = true
               ∧ ∃ sha,
                   GitHubClient.ensure_branch world gh (Py.fmt branch)
                     default_branch tr0 = (Ok sha, tr1)) →
            GitHubClient.upload_file world lib gh repo_path content
              (Py.or_ branch default_branch) tr1
            = (Raise (GitHubClientError msg), tr2) →
            Tools.kb_upload config world lib source branch tr
            = (Ok ("Error: " +:+ msg), tr2))).
Proof.
  intros gh default_branch repo_path tr0. split.
  - intros Hfetch Hread msg. unfold Tools.kb_upload.
    destruct (negb (Py.truthy _)); [done|].
    destruct (repo_unset config); [done|].
    destruct (negb (bool_decide _)); [done|].
    destruct (is_url source).
    + destruct (http_get world tr source) as [content|e] eqn:He.
      * apply on_github_error_catches.
      * destruct e; try done. by destruct (Hfetch msg0).
    + destruct (read_file world tr source) as [[content|e]|] eqn:He; [|..|done].
      * apply on_github_error_catches.
      * simpl. intros [= ->]. by destruct (Hread msg).
  - intros content Htoken Hrepo Hext Hcontent.
    assert (Tools.kb_upload config world lib source branch tr
            = Tools.push config world lib (filename_of lib source) content
                branch tr0) as ->.
    { unfold Tools.kb_upload, content_of, source_call in *. subst tr0.
      rewrite Htoken, Hrepo. simpl. rewrite bool_decide_eq_true_2 by done. simpl.
      destruct (is_url source).
      - destruct (http_get world tr source) as [c|e]; by simplify_eq.
      - destruct (read_file world tr source) as [[c|e]|]; by simplify_eq. }
    unfold Tools.push, try_except, bind, ret, Tools.on_github_error.
    fold gh default_branch repo_path. split.
    + intros msg tr1 -> Hensure. by rewrite Hensure.
    + intros msg tr1 tr2 [[-> ->]|(-> & sha & Hensure)] Hupload.
      * by rewrite Hupload.
      * rewrite Hensure. by rewrite Hupload.
Qed.

End tool_uploads.

(** ** Launching and watching the cloud agent *)

Lemma file_paths_raises items e :
  GitHubClient.file_paths items = Raise e → ∃ m, e = OtherError m.
Proof.
  induction items as [|item items IH]; simpl; [done|].
  destruct item; simpl; try (intros [= <-]; by eexists).
  destruct (Json.lookup_field "type" fields); simpl;
    [|intros [= <-]; by eexists].
  destruct (Json.eq_str _ _); [|exact IH].
  destruct (Json.lookup_field "path" fields); simpl;
    [|intros [= <-]; by eexists].
  destruct (GitHubClient.file_paths items); [done|].
  intros [= <-]. by apply IH.
Qed.

Section agent.
Context {KB : Type}.
Variable kb : KB.
Variable config : Config.t.
Variable world : World.
Variable build_prompt : string → KB → list json → string.

(** The exceptions that escape the listing of the images are those of
    the transport and of the decoding of the answer. *)
Lemma list_images_raises target tr e tr' :
  Tools.list_images config world target tr = (Raise e, tr') →
  (∃ pre gh req, gh_request world pre gh req = Raise e)
  ∨ ∃ m, e = OtherError m.
Proof.
  unfold Tools.list_images. destruct (_ && _); [|done].
  unfold GitHubClient.list_directory. run_m. intros Hrun.
  repeat case_match; simplify_eq;
    try (left; by eauto);
    try (right; by eauto);
    try (right; by eapply file_paths_raises).
Qed.

(** X12.  The listing of the images is best effort: when [kb_add] does
    not attempt it (no target branch or no git token), or when it fails
    with [GitHubClientError], the agent is launched all the same, as the
    one call that follows, for the repository and the target branch and
    with the prompt built from the stripped summary and an empty list of
    images. *)
Theorem kb_add_listing_is_best_effort
    (summary : string) (branch : option string) (tr : list Call) :
  let target := Py.or_ branch (Config.default_branch (Config.github config)) in
  let launch_call :=
    CursorLaunchAgent (Config.cursor_api_key config)
      (build_prompt (Py.strip summary) kb [])
      ("https://github.com/" +:+ Config.owner (Config.github config)
         +:+ "/" +:+ Config.repo (Config.github config))
      target in
  ¬ blank summary →
  Py.truthy (Config.cursor_api_key config) = true →
  repo_unset config = false →
  (Py.truthy_str target && Py.truthy (Config.memex_git_token config) = false →
   (Tools.kb_add kb config world build_prompt summary branch tr).2
   = tr ++ [launch_call])
  ∧ (∀ msg tr1,
       Py.truthy_str target && Py.truthy (Config.memex_git_token config) = true →
       GitHubClient.list_directory world (gh_client config)
         (Config.assets_dir (Config.knowledge config)) target tr
       = (Raise (GitHubClientError msg), tr1) →
       (Tools.kb_add kb config world build_prompt summary branch tr).2
       = tr1 ++ [launch_call]).
Proof.
  intros target launch_call Hnb Hkey Hrepo. subst launch_call.
  unfold Tools.kb_add. fold target.
  destruct (negb (Py.truthy_str summary) || _) eqn:Hg.
  { by apply summary_guard_blank in Hg. }
  rewrite Hkey, Hrepo. simpl. unfold bind, Tools.list_images, Tools.launch.
  split.
  - intros ->. simpl. by destruct (launch_agent _ _ _ _ _ _) as [r|[]].
  - intros msg tr1 -> Hl. unfold try_except. rewrite Hl. simpl.
    by destruct (launch_agent _ _ _ _ _ _) as [r|[]].
Qed.

(** X13.  The answer to the launch decides what [kb_add] returns: when
    a run ends with a launch and the cloud answers it with an agent, the
    tool returns the four lines [Cloud agent launched.], [Agent ID: <id>],
    [Dashboard: <address>] and the hint to use [kb_status]; when the
    cloud answers with [CursorClientError], the tool returns [Error: ...]
    with the message of the error, and does not raise. *)
Theorem kb_add_reports_launch_answer
    (summary : string) (branch : option string) (tr new : list Call)
    (r : result string) (key : option string) (prompt url ref : string) :
  Tools.kb_add kb config world build_prompt summary branch tr
  = (r, tr ++ new ++ [CursorLaunchAgent key prompt url ref]) →
  (∀ res, launch_agent world (tr ++ new) key prompt url ref = Ok res →
          r = Ok ("Cloud agent launched." +:+ nl
                    +:+ "Agent ID: " +:+ agent_id res +:+ nl
                    +:+ "Dashboard: " +:+ agent_url res +:+ nl
                    +:+ "Use kb_status with this agent_id to check progress."))
  ∧ (∀ e, launch_agent world (tr ++ new) key prompt url ref
          = Raise (CursorClientError e) →
          r = Ok ("Error: " +:+ e)).
Proof.
  assert (∀ l : list Call, l ≠ l ++ new ++ [CursorLaunchAgent key prompt url ref])
    as Hneq.
  { intros l Hl. apply (f_equal length) in Hl.
    rewrite !length_app in Hl. simpl in Hl. lia. }
  unfold Tools.kb_add.
  destruct (negb (Py.truthy_str summary) || _).
  { intros [= _ Htr]. by apply Hneq in Htr. }
  destruct (negb (Py.truthy _)).
  { intros [= _ Htr]. by apply Hneq in Htr. }
  destruct (repo_unset config).
  { intros [= _ Htr]. by apply Hneq in Htr. }
  unfold bind. rewrite app_assoc.
  destruct (Tools.list_images _ _ _ _) as [[images|e] tr1] eqn:Hl.
  - unfold Tools.launch. intros Hrun.
    destruct (launch_agent world tr1 _ _ _ _) as [res|e] eqn:Hanswer.
    + injection Hrun as <- [<- Hc]%app_inj_tail. injection Hc as <- <- <- <-.
      rewrite Hanswer. split; intros; by simplify_eq.
    + destruct e; injection Hrun as <- [<- Hc]%app_inj_tail;
        injection Hc as <- <- <- <-; rewrite Hanswer;
        split; intros; by simplify_eq.
  - apply list_images_calls in Hl as (more & -> & Hmore).
    intros [= _ Htr]. exfalso.
    destruct more as [|c more _] using rev_ind.
    + rewrite app_nil_r, <- app_assoc in Htr. by apply Hneq in Htr.
    + rewrite app_assoc in Htr. apply app_inj_tail in Htr as [_ ->].
      apply Forall_app in Hmore as [_ Hc]. by inversion Hc.
Qed.

(** X14.  [kb_add] turns every [CursorClientError] into a returned
    message: as long as the transport of the GitHub client does not
    raise that exception itself, none escapes the tool. *)
Theorem kb_add_catches_agent_errors
    (summary : string) (branch : option string) (tr : list Call) :
  (∀ pre gh req msg, gh_request world pre gh req ≠ Raise (CursorClientError msg)) →
  ∀ msg,
    (Tools.kb_add kb config world build_prompt summary branch tr).1
    ≠ Raise (CursorClientError msg).
Proof.
  intros Hgh msg. unfold Tools.kb_add.
  destruct (negb (Py.truthy_str summary) || _); [done|].
  destruct (negb (Py.truthy _)); [done|].
  destruct (repo_unset config); [done|].
  unfold bind.
  destruct (Tools.list_images _ _ _ _) as [[images|e] tr1] eqn:Hl.
  - unfold Tools.launch. by destruct (launch_agent _ _ _ _ _ _) as [res|[]].
  - simpl. intros [= ->].
    apply list_images_raises in Hl as [(pre & gh & req & Hreq)|[m [=]]].
    by apply Hgh in Hreq.
Qed.

End agent.

(** X15.  [kb_status] never lets a [CursorClientError] escape; an
    exception leaves it only when the API key is configured and
    [get_status] raised that very exception; and without an API key the
    client is not consulted at all. *)
Theorem kb_status_error_discipline
    (config : Config.t) (get_status : option string → string → result AgentStatus)
    (agent_id : string) :
  (∀ msg, Tools.kb_status config get_status agent_id ≠ Raise (CursorClientError msg))
  ∧ (∀ e, Tools.kb_status config get_status agent_id = Raise e →
          Py.truthy (Config.cursor_api_key config) = true
          ∧ get_status (Config.cursor_api_key config) agent_id = Raise e)
  ∧ (Py.truthy (Config.cursor_api_key config) = false →
     ∀ get_status',
       Tools.kb_status config get_status' agent_id
       = Tools.kb_status config get_status agent_id).
Proof.
  unfold Tools.kb_status. destruct (Py.truthy _); simpl.
  - split; [|split; [|done]].
    + intros msg. by destruct (get_status _ _) as [st|[]].
    + intros e. destruct (get_status _ _) as [st|[]]; try done;
        by intros [= <-].
  - done.
Qed.


(** ** The listings of the tools and of the CLI *)

Lemma append_cons a s t : String a s +:+ t = String a (s +:+ t).
Proof. reflexivity. Qed.

Lemma append_assoc s t u : (s +:+ t) +:+ u = s +:+ (t +:+ u).
Proof.
  induction s as [|a s IH]; [done|]. by rewrite !append_cons, IH.
Qed.

Lemma append_nil_r s : s +:+ "" = s.
Proof. induction s as [|a s IH]; [done|]. by rewrite append_cons, IH. Qed.

Lemma join_cons_app sep x xs : ∃ rest, Py.join sep (x :: xs) = x +:+ rest.
Proof.
  destruct xs as [|y xs].
  - exists "". simpl. by rewrite append_nil_r.
  - by eexists.
Qed.

(** A loop that extends by several elements per iteration is a bind. *)
Lemma foldl_app_bind {A B} (f : A → list B) (xs : list A) (acc : list B) :
  foldl (λ acc x, acc ++ f x) acc xs = acc ++ (xs ≫= f).
Proof.
  revert acc. induction xs as [|x xs IH]; intros acc; simpl.
  - by rewrite app_nil_r.
  - rewrite IH. by rewrite <- app_assoc.
Qed.

Section listings.
Context {KB : Type} `{!KnowledgeBaseOps KB}.
Variable load_config : Config.t.

(** X16.  The answers [No results found.] and [No entries found.] of
    [kb_search] and [kb_list] are given exactly when the knowledge base
    returns nothing: no rendering of a non-empty result equals them. *)
Theorem nothing_found_iff_empty (kb : KB) (query : string) (type tag : option string) :
  (Tools.kb_search kb query = "No results found." ↔ search kb query 20 = [])
  ∧ (Tools.kb_list kb type tag = "No entries found."
     ↔ list_entries kb type tag = []).
Proof.
  unfold Tools.kb_search, Tools.kb_list. split.
  - destruct (search kb query 20) as [|r rs]; [done|].
    rewrite foldl_snoc_fmap, app_nil_l, fmap_cons.
    destruct (join_cons_app (nl +:+ nl) (Tools.search_block r)
                (Tools.search_block <$> rs)) as [rest ->].
    split; [|done]. unfold Tools.search_block.
    rewrite !append_cons. discriminate.
  - destruct (list_entries kb type tag) as [|e es]; [done|].
    rewrite foldl_snoc_fmap, app_nil_l, fmap_cons.
    destruct (join_cons_app (nl +:+ nl) (Tools.list_block kb e)
                (Tools.list_block kb <$> es)) as [rest ->].
    split; [|done]. unfold Tools.list_block.
    rewrite !append_cons. discriminate.
Qed.

(** X17.  The read command of the CLI and [kb_read] agree on the
    knowledge base of the CLI: either the command prints on the output
    stream the lines whose join is the string of the tool and returns,
    or it prints the string of the tool on the error stream and exits
    with status 1. *)
Theorem cli_read_agrees_with_tool (path : string) :
  let out := Cli.cmd_read load_config path in
  let answer := Tools.kb_read (Cli._make_kb load_config) path in
  (status out = Returned ∧ stderr out = [] ∧ Py.join nl (stdout out) = answer
   ∧ is_Some (read_entry (Cli._make_kb load_config) path))
  ∨ (status out = Exited 1 ∧ stdout out = [] ∧ stderr out = [answer]
     ∧ read_entry (Cli._make_kb load_config) path = None).
Proof.
  unfold Cli.cmd_read, Tools.kb_read. simpl.
  destruct (read_entry _ path) as [entry|]; [left|right]; by repeat split.
Qed.

Lemma join_list_lines (kb : KB) (e : Entry.t) (rest : list string) :
  Py.join nl (Cli.list_lines kb e ++ rest)
  = Tools.list_block kb e +:+ nl
      +:+ match rest with [] => "" | _ => nl +:+ Py.join nl rest end.
Proof.
  unfold Cli.list_lines, Tools.list_block.
  destruct rest as [|l rest]; simpl; rewrite ?append_assoc; done.
Qed.

Lemma join_list_blocks (kb : KB) (e : Entry.t) (es : list Entry.t) :
  Py.join nl ((e :: es) ≫= Cli.list_lines kb)
  = Py.join (nl +:+ nl) (Tools.list_block kb <$> e :: es) +:+ nl.
Proof.
  revert e. induction es as [|e' es IH]; intros e.
  - rewrite bind_cons, join_list_lines. simpl. by rewrite append_nil_r.
  - rewrite bind_cons, join_list_lines, IH.
    destruct ((e' :: es) ≫= Cli.list_lines kb) eqn:Hb.
    { by rewrite bind_cons in Hb. }
    rewrite !fmap_cons. simpl. by rewrite ?append_assoc.
Qed.

(** X18.  The list command of the CLI prints what [kb_list] returns for
    the knowledge base of the CLI: with no entry, the one line
    [No entries found.]; otherwise lines whose join is the string of
    the tool followed by one line feed (the empty line that closes the
    last entry).  The command always returns, with nothing on the error
    stream. *)
Theorem cli_list_agrees_with_tool (type tag : option string) :
  let kb := Cli._make_kb load_config in
  let out := Cli.cmd_list load_config type tag in
  status out = Returned ∧ stderr out = []
  ∧ Py.join nl (stdout out)
    = Tools.kb_list kb type tag
        +:+ (if bool_decide (list_entries kb type tag = []) then "" else nl).
Proof.
  unfold Cli.cmd_list, Tools.kb_list. simpl.
  destruct (list_entries _ type tag) as [|e es] eqn:Hl.
  - by rewrite bool_decide_eq_true_2.
  - rewrite bool_decide_eq_false_2 by done. simpl.
    repeat split. rewrite foldl_snoc_fmap, foldl_app_bind.
    apply join_list_blocks.
Qed.

End listings.

(** ** The statistics of the CLI *)

Lemma insert_desc_perm x l : Cli.insert_desc x l ≡ₚ x :: l.
Proof.
  induction l as [|y l IH]; simpl; [done|].
  destruct (decide (y.2 < x.2)); [done|].
  rewrite IH. apply Permutation_swap.
Qed.

Lemma insert_desc_sorted x l :
  StronglySorted (λ a b : string * nat, b.2 ≤ a.2) l →
  StronglySorted (λ a b : string * nat, b.2 ≤ a.2) (Cli.insert_desc x l).
Proof.
  induction 1 as [|y l Hl IH Hy]; simpl.
  - repeat constructor.
  - destruct (decide (y.2 < x.2)) as [Hlt|Hge].
    + constructor; [by constructor|].
      constructor; [lia|]. eapply Forall_impl; [exact Hy|]. simpl. lia.
    + constructor; [done|].
      rewrite insert_desc_perm. constructor; [lia|done].
Qed.

Lemma sorted_desc_from items acc :
  foldl (λ acc x, Cli.insert_desc x acc) acc items ≡ₚ acc ++ items
  ∧ (StronglySorted (λ a b : string * nat, b.2 ≤ a.2) acc →
     StronglySorted (λ a b : string * nat, b.2 ≤ a.2)
       (foldl (λ acc x, Cli.insert_desc x acc) acc items)).
Proof.
  revert acc. induction items as [|x items IH]; intros acc; simpl.
  - by rewrite app_nil_r.
  - destruct (IH (Cli.insert_desc x acc)) as [Hp Hs]. split.
    + rewrite Hp, insert_desc_perm. apply Permutation_middle.
    + intros Hacc. by apply Hs, insert_desc_sorted.
Qed.

(** X19.  The stats command prints the totals, then one line per type
    count and one line per tag count; in both groups the counts are
    those of the knowledge base, each once, in descending order of
    count. *)
Theorem cli_stats_counts_descending
    {KB : Type} `{!KnowledgeBaseOps KB} (load_config : Config.t) :
  let kb := Cli._make_kb load_config in
  ∃ by_type by_tag,
    Cli.cmd_stats load_config
    = {| stdout :=
           [ "Entries: " +:+ Py.fmt_nat (entry_count kb);
             "Edges: " +:+ Py.fmt_nat (Cli.sum_edges (all_entries kb));
             nl +:+ "By type:" ]
           ++ (Cli.count_line <$> by_type)
           ++ [ nl +:+ "By tag:" ]
           ++ (Cli.count_line <$> by_tag);
         stderr := [];
         status := Returned |}
    ∧ by_type ≡ₚ type_counts kb
    ∧ by_tag ≡ₚ tag_counts kb
    ∧ StronglySorted (λ a b, b.2 ≤ a.2) by_type
    ∧ StronglySorted (λ a b, b.2 ≤ a.2) by_tag.
Proof.
  intros kb.
  exists (Cli.sorted_desc (type_counts kb)), (Cli.sorted_desc (tag_counts kb)).
  unfold Cli.sorted_desc.
  destruct (sorted_desc_from (type_counts kb) []) as [Hp1 Hs1].
  destruct (sorted_desc_from (tag_counts kb) []) as [Hp2 Hs2].
  repeat split; try done; [apply Hs1|apply Hs2]; constructor.
Qed.

(** ** The upload command of the CLI *)

Section cli_uploads.
Variable config : Config.t.
Variable world : World.
Variable lib : PyLib.

Lemma accounted_say_err n line (r : Outcome * list Call) :
  accounted n r.1 → accounted (S n) (say_err line r).1.
Proof.
  intros (H1 & H2 & H3 & H4). repeat split; simpl; try done; [lia|].
  intros Hs. specialize (H2 Hs). lia.
Qed.

Lemma accounted_say_out n line (r : Outcome * list Call) :
  Py.startswith "Uploaded: /" line = true →
  accounted n r.1 → accounted (S n) (say_out line r).1.
Proof.
  intros Hline (H1 & H2 & H3 & H4). repeat split; simpl; try done; [lia| |].
  - intros Hs. specialize (H2 Hs). lia.
  - by constructor.
Qed.

Lemma accounted_raised n e : accounted n (Cli.raised e).
Proof. repeat split; simpl; try done. lia. Qed.

Lemma upload_sources_accounted branch sources tr :
  accounted (length sources)
    (Cli.upload_sources world lib config branch sources tr).1.
Proof.
  revert tr. induction sources as [|s rest IH]; intros tr.
  { repeat split; simpl; done. }
  assert (∀ content tr1,
    accounted (S (length rest))
      (match GitHubClient.upload_file world lib (gh_client config)
               (Config.assets_dir (Config.knowledge config) +:+ "/"
                  +:+ filename_of lib s) content branch tr1 with
       | (Ok r, tr') =>
           say_out ("Uploaded: /" +:+ GitHub.path r +:+ "  (branch: "
                      +:+ GitHub.branch r +:+ ")")
                   (Cli.upload_sources world lib config branch rest tr')
       | (Raise e, tr') => (Cli.raised e, tr')
       end).1) as Hup.
  { intros content tr1.
    destruct (GitHubClient.upload_file _ _ _ _ _ _ _) as [[r|e] tr2];
      [|apply accounted_raised].
    apply accounted_say_out; [by rewrite !append_cons|apply IH]. }
  simpl.
  destruct (negb (bool_decide _)); [apply accounted_say_err, IH|].
  destruct (is_url s).
  - destruct (http_get world tr s) as [content|[]];
      [apply Hup|apply accounted_say_err, IH|apply accounted_raised..].
  - destruct (read_file world tr s) as [[content|e]|];
      [apply Hup|apply accounted_raised|apply accounted_say_err, IH].
Qed.

(** X20.  The upload command accounts for every source: when it
    returns, it has printed exactly one line per source, [Uploaded: ...]
    on the output stream or a message on the error stream; when it ends
    otherwise it has printed at most one [Uploaded: ...] line per
    source, and nothing else on the output stream. *)
Theorem cli_upload_one_line_per_source
    (sources : list string) (branch : option string) (tr : list Call) :
  let out := (Cli.cmd_upload config world lib sources branch tr).1 in
  (status out = Returned →
   length (stdout out) + length (stderr out) = length sources)
  ∧ length (stdout out) ≤ length sources
  ∧ Forall (λ line, Py.startswith "Uploaded: /" line = true) (stdout out).
Proof.
  unfold Cli.cmd_upload.
  destruct (negb (Py.truthy _)); [simpl; repeat split; try done; lia|].
  destruct (repo_unset config); [simpl; repeat split; try done; lia|].
  assert (∀ r : Outcome * list Call,
    accounted (length sources) r.1 →
    let out := (Cli.except_github r).1 in
    (status out = Returned →
       length (stdout out) + length (stderr out) = length sources)
    ∧ length (stdout out) ≤ length sources
    ∧ Forall (λ line, Py.startswith "Uploaded: /" line = true) (stdout out))
    as Hexc.
  { intros r (H1 & H2 & H3 & H4). unfold Cli.except_github.
    destruct (status r.1) as [| |[]] eqn:Hs; simpl; rewrite ?Hs;
      repeat split; try done; lia. }
  apply Hexc. destruct (Py.truthy branch); [|apply upload_sources_accounted].
  destruct (GitHubClient.ensure_branch _ _ _ _ _) as [[sha|e] tr1];
    [apply upload_sources_accounted|apply accounted_raised].
Qed.

(** X21.  The upload command ends in one of three ways: it returns, it
    exits with status 1 after a line [Error: ...] on the error stream,
    or an exception other than [GitHubClientError] escapes it; a
    [GitHubClientError] never does. *)
Theorem cli_upload_exit_discipline
    (sources : list string) (branch : option string) (tr : list Call) :
  let out := (Cli.cmd_upload config world lib sources branch tr).1 in
  (∀ msg, status out ≠ Raised (GitHubClientError msg))
  ∧ (∀ code, status out = Exited code →
       code = 1
       ∧ ∃ before msg, stderr out = before ++ [msg]
                       ∧ Py.startswith "Error: " msg = true).
Proof.
  unfold Cli.cmd_upload.
  destruct (negb (Py.truthy _)).
  { simpl. split; [done|]. intros code [= <-]. split; [done|]. by eexists [], _. }
  destruct (repo_unset config).
  { simpl. split; [done|]. intros code [= <-]. split; [done|]. by eexists [], _. }
  assert (∀ r : Outcome * list Call,
    (∀ code, status r.1 ≠ Exited code) →
    let out := (Cli.except_github r).1 in
    (∀ msg, status out ≠ Raised (GitHubClientError msg))
    ∧ (∀ code, status out = Exited code →
         code = 1
         ∧ ∃ before msg, stderr out = before ++ [msg]
                         ∧ Py.startswith "Error: " msg = true)) as Hexc.
  { intros r Hr. unfold Cli.except_github.
    destruct (status r.1) as [|code|[]] eqn:Hs; simpl; rewrite ?Hs.
    - by split.
    - by destruct (Hr code).
    - by split.
    - split; [done|]. intros code [= <-]. split; [done|]. by eexists _, _.
    - by split.
    - by split. }
  apply Hexc. destruct (Py.truthy branch).
  - destruct (GitHubClient.ensure_branch _ _ _ _ _) as [[sha|e] tr1]; [|done].
    apply (upload_sources_accounted _ sources).
  - apply (upload_sources_accounted _ sources).
Qed.

End cli_uploads.

(** ** The calls of the upload command *)

Lemma upload_call_mono lib gh sources sources' methods methods' c :
  sources ⊆ sources' → methods ⊆ methods' →
  upload_call lib gh sources methods c → upload_call lib gh sources' methods' c.
Proof.
  intros Hs Hm. destruct c; simpl; try done.
  - intros (? & ? & ?). repeat split; try done. by apply Hs.
  - intros (? & ? & ?). repeat split; try done. by apply Hs.
  - intros [? ?]. split; [done|]. by apply Hm.
Qed.

Lemma requests_upload_calls lib gh sources methods new :
  requests_of gh methods new → Forall (upload_call lib gh sources methods) new.
Proof.
  unfold requests_of. intros Hnew. eapply Forall_impl; [exact Hnew|].
  by intros c (req & -> & Hm).
Qed.

Section cli_upload_trace.
Variable config : Config.t.
Variable world : World.
Variable lib : PyLib.

Lemma upload_sources_calls branch sources tr :
  ∃ new, (Cli.upload_sources world lib config branch sources tr).2 = tr ++ new
         ∧ Forall (upload_call lib (gh_client config) sources [GET; PUT]) new.
Proof.
  revert tr. induction sources as [|s rest IH]; intros tr.
  { exists []. simpl. by rewrite app_nil_r. }
  assert (∀ new, Forall (upload_call lib (gh_client config) rest [GET; PUT]) new →
                 Forall (upload_call lib (gh_client config) (s :: rest) [GET; PUT]) new)
    as Hrest.
  { intros new Hnew. eapply Forall_impl; [exact Hnew|]. intros c.
    apply upload_call_mono; [|done]. intros x Hx. by right. }
  assert (∀ c content,
    upload_call lib (gh_client config) (s :: rest) [GET; PUT] c →
    ∃ new,
      (match GitHubClient.upload_file world lib (gh_client config)
               (Config.assets_dir (Config.knowledge config) +:+ "/"
                  +:+ filename_of lib s) content branch (tr ++ [c]) with
       | (Ok r, tr') =>
           say_out ("Uploaded: /" +:+ GitHub.path r +:+ "  (branch: "
                      +:+ GitHub.branch r +:+ ")")
                   (Cli.upload_sources world lib config branch rest tr')
       | (Raise e, tr') => (Cli.raised e, tr')
       end).2 = tr ++ new
      ∧ Forall (upload_call lib (gh_client config) (s :: rest) [GET; PUT]) new)
    as Hup.
  { intros c content Hc.
    destruct (GitHubClient.upload_file _ _ _ _ _ _ _) as [[r|e] tr2] eqn:Hu;
      apply upload_file_requests in Hu as (new2 & -> & Hnew2 & _);
      apply (requests_upload_calls lib _ (s :: rest)) in Hnew2.
    - destruct (IH ((tr ++ [c]) ++ new2)) as (new3 & Htr3 & Hnew3).
      exists ([c] ++ new2 ++ new3). simpl. rewrite Htr3. split.
      + by rewrite <- !app_assoc.
      + constructor; [done|]. apply Forall_app. split; [done|by apply Hrest].
    - exists ([c] ++ new2). simpl. split; [by rewrite <- app_assoc|].
      by constructor. }
  assert (∀ c line,
    upload_call lib (gh_client config) (s :: rest) [GET; PUT] c →
    ∃ new,
      (say_err line (Cli.upload_sources world lib config branch rest (tr ++ [c]))).2
      = tr ++ new
      ∧ Forall (upload_call lib (gh_client config) (s :: rest) [GET; PUT]) new)
    as Herr.
  { intros c line Hc. destruct (IH (tr ++ [c])) as (new & Htr & Hnew).
    exists ([c] ++ new). simpl. rewrite Htr. split; [by rewrite <- app_assoc|].
    constructor; [done|by apply Hrest]. }
  simpl. case_bool_decide as Hext; simpl.
  - destruct (is_url s) eqn:Hurl.
    + assert (upload_call lib (gh_client config) (s :: rest) [GET; PUT] (HttpGet s))
        as Hc by (repeat split; [by left|done..]).
      destruct (http_get world tr s) as [content|[]];
        [by apply Hup|by apply Herr|..];
        (exists [HttpGet s]; split; [done|by repeat constructor]).
    + assert (upload_call lib (gh_client config) (s :: rest) [GET; PUT] (ReadFile s))
        as Hc by (repeat split; [by left|done..]).
      destruct (read_file world tr s) as [[content|e]|];
        [by apply Hup| |by apply Herr].
      exists [ReadFile s]. split; [done|by repeat constructor].
  - destruct (IH tr) as (new & Htr & Hnew). exists new. split; [done|].
    by apply Hrest.
Qed.

(** X22.  The calls of the upload command: it fetches or reads only
    sources it was given, and only those whose extension is supported;
    every other call is a request of the client of the configured
    repository; and unless a branch is given on the command line, no
    request is a POST, so that no branch is created. *)
Theorem cli_upload_calls
    (sources : list string) (branch : option string) (tr : list Call) :
  ∃ new,
    (Cli.cmd_upload config world lib sources branch tr).2 = tr ++ new
    ∧ Forall (upload_call lib (gh_client config) sources [GET; POST; PUT]) new
    ∧ (Py.truthy branch = false →
       Forall (upload_call lib (gh_client config) sources [GET; PUT]) new).
Proof.
  unfold Cli.cmd_upload.
  assert (∀ l, Forall (upload_call lib (gh_client config) sources [GET; PUT]) l →
               Forall (upload_call lib (gh_client config) sources [GET; POST; PUT]) l)
    as Hweak.
  { intros l Hl. eapply Forall_impl; [exact Hl|]. intros c.
    apply upload_call_mono; [done|]. intros m. rewrite !elem_of_cons. tauto. }
  destruct (negb (Py.truthy _)).
  { exists []. simpl. by rewrite app_nil_r. }
  destruct (repo_unset config).
  { exists []. simpl. by rewrite app_nil_r. }
  assert (∀ r : Outcome * list Call, (Cli.except_github r).2 = r.2) as ->.
  { intros r. unfold Cli.except_github. by destruct (status r.1) as [| |[]]. }
  destruct (Py.truthy branch).
  - destruct (GitHubClient.ensure_branch _ _ _ _ _) as [[sha|e] tr1] eqn:He;
      apply ensure_branch_requests in He as (new1 & -> & Hnew1 & _);
      apply (requests_upload_calls lib _ sources) in Hnew1.
    + destruct (upload_sources_calls
                  (Py.or_ branch (Config.default_branch (Config.github config)))
                  sources (tr ++ new1)) as (new2 & -> & Hnew2).
      exists (new1 ++ new2). split; [by rewrite app_assoc|]. split; [|done].
      apply Forall_app. split; [|by apply Hweak].
      eapply Forall_impl; [exact Hnew1|]. intros c.
      apply upload_call_mono; [done|]. intros m. rewrite !elem_of_cons. tauto.
    + exists new1. split; [done|]. split; [|done].
      eapply Forall_impl; [exact Hnew1|]. intros c.
      apply upload_call_mono; [done|]. intros m. rewrite !elem_of_cons. tauto.
  - destruct (upload_sources_calls
                (Py.or_ branch (Config.default_branch (Config.github config)))
                sources tr) as (new & -> & Hnew).
    exists new. split; [done|]. split; [by apply Hweak|done].
Qed.

End cli_upload_trace.

(** ** The file name of a URL *)

Lemma startswith_app p s t :
  Py.startswith p s = true → Py.startswith p (s +:+ t) = true.
Proof.
  revert s. induction p as [|a p IH]; intros [|b s]; simpl; try done.
  destruct (decide (a = b)); [apply IH|done].
Qed.

Lemma head_split_free c s :
  free_of c s → head (Py.split c s) = Some s.
Proof.
  unfold free_of. induction s as [|a s IH]; simpl; [done|].
  intros [Ha Hs]%Forall_cons. rewrite decide_False by done.
  specialize (IH Hs). by destruct (Py.split c s) as [|p ps]; simplify_eq/=.
Qed.

Lemma head_split_app c s t :
  free_of c s → head (Py.split c (s +:+ String c t)) = Some s.
Proof.
  unfold free_of. induction s as [|a s IH].
  - intros _. change ("" +:+ String c t) with (String c t). simpl.
    by rewrite decide_True.
  - intros [Ha Hs]%Forall_cons. rewrite append_cons. simpl.
    rewrite decide_False by done. specialize (IH Hs).
    by destruct (Py.split c (s +:+ String c t)) as [|p ps]; simplify_eq/=.
Qed.

(** X23.  The query string of a URL has no part in the name of the
    uploaded file: a URL source followed by [?] and anything gets the
    file name and the extension of the URL without it. *)
Theorem url_query_ignored (lib : PyLib) (source query : string) :
  is_url source = true →
  free_of "?" source →
  is_url (source +:+ "?" +:+ query) = true
  ∧ filename_of lib (source +:+ "?" +:+ query) = filename_of lib source
  ∧ ext_of lib (source +:+ "?" +:+ query) = ext_of lib source.
Proof.
  intros Hurl Hfree.
  assert (is_url (source +:+ "?" +:+ query) = true) as Hurl'.
  { unfold is_url in *. apply orb_true_iff in Hurl as [H|H];
      apply (startswith_app _ _ ("?" +:+ query)) in H; rewrite H;
      [done|apply orb_true_r]. }
  assert (filename_of lib (source +:+ "?" +:+ query) = filename_of lib source)
    as Hname.
  { unfold filename_of. rewrite Hurl, Hurl'. unfold Py.split_head.
    change ("?" +:+ query) with (String "?" query).
    by rewrite head_split_app, head_split_free. }
  repeat split; try done. unfold ext_of. by rewrite Hname.
Qed.

(** ** The graph and the statistics of the viewer *)

Lemma length_filter_cons_key (G : list Viewer.GraphEdgeJson) (p : string) (ps : list string) :
  p ∉ ps →
  length (filter (λ g, Viewer.g_to g ∈ p :: ps) G)
  = length (filter (λ g, Viewer.g_to g = p) G) + length (filter (λ g, Viewer.g_to g ∈ ps) G).
Proof.
  intros Hp. induction G as [|g G IH]; [done|].
  rewrite !filter_cons.
  destruct (decide (Viewer.g_to g = p)) as [Heq|Hne];
    destruct (decide (Viewer.g_to g ∈ ps)) as [Hin|Hnin];
    destruct (decide (Viewer.g_to g ∈ p :: ps)) as [Hin'|Hnin'];
    simpl; rewrite ?IH; try lia; exfalso;
    first [ apply Hp; congruence
          | apply Hnin', elem_of_cons; tauto
          | apply elem_of_cons in Hin'; tauto ].
Qed.

Lemma length_filter_keys (G : list Viewer.GraphEdgeJson) (ps : list string) :
  NoDup ps →
  sum_list ((λ p, length (filter (λ g, Viewer.g_to g = p) G)) <$> ps)
  = length (filter (λ g, Viewer.g_to g ∈ ps) G).
Proof.
  induction 1 as [|p ps Hp Hps IH].
  - simpl. induction G as [|g G IHG]; [done|].
    rewrite filter_cons. destruct (decide (Viewer.g_to g ∈ [])) as [Hin|_]; [|done].
    by inversion Hin.
  - rewrite fmap_cons. simpl. by rewrite IH, length_filter_cons_key.
Qed.

Section viewer_graph.
Import Viewer.
Variable parse_entry : string → option Entry.t.
Variable render_body : string → string.

(** X24.  The output of [build] does not depend on the order in which
    the directory is enumerated: two enumerations of the same documents
    give the same data. *)
Theorem build_independent_of_glob_order
    (kb_dir_exists : bool) (md_paths md_paths' : list string) :
  md_paths ≡ₚ md_paths' →
  build parse_entry render_body kb_dir_exists md_paths
  = build parse_entry render_body kb_dir_exists md_paths'.
Proof.
  intros Hp. unfold build, load_entries.
  assert (Py.sorted md_paths = Py.sorted md_paths') as ->; [|done].
  apply (StronglySorted_unique String.le); try apply sorted_strongly.
  by rewrite !sorted_permutation.
Qed.

(** X25.  The graph mirrors the entries: the nodes carry, in order, the
    path, title and type of the records of the entries, and every edge
    of the graph starts at a node of the graph. *)
Theorem graph_nodes_mirror_entries (entries : list Entry.t) :
  let data := build_data render_body entries in
  (λ n, (n_id n, n_title n, n_type n)) <$> graph_nodes data
  = (λ ed, (e_path ed, e_title ed, e_type ed)) <$> Viewer.entries data
  ∧ Forall (λ g, g_from g ∈ n_id <$> graph_nodes data) (graph_edges data).
Proof.
  intros data. subst data.
  rewrite build_data_entries, build_data_graph_nodes, build_data_graph_edges.
  rewrite <- !list_fmap_compose. split; [done|].
  apply Forall_forall. intros g (E & Hg & HE)%list_elem_of_bind.
  apply list_elem_of_fmap in Hg as (e & -> & He). simpl.
  apply list_elem_of_fmap. by exists E.
Qed.

Lemma backlinks_incoming_edges (entries : list Entry.t) (p : string) :
  (λ bl, (bj_path bl, bj_label bl))
    <$> (E ← entries;
         backlink_of E <$> filter (λ e, Edge.path e = p) (Entry.edges E))
  = (λ g, (g_from g, g_label g))
      <$> filter (λ g, g_to g = p)
            (E ← entries; graph_edge_json E <$> Entry.edges E).
Proof.
  induction entries as [|E entries IH]; [done|].
  rewrite !bind_cons, filter_app, !fmap_app, IH. f_equal.
  induction (Entry.edges E) as [|e edges IHe]; [done|].
  rewrite fmap_cons, !filter_cons. simpl.
  destruct (decide (Edge.path e = p)); rewrite ?fmap_cons, IHe; done.
Qed.

(** X26.  The backlinks of a record are the incoming edges of the
    graph: the record of an entry lists, in the order of the graph's
    edge list, the source and label of every graph edge that points to
    the path of the entry. *)
Theorem backlinks_mirror_graph_edges (entries : list Entry.t) (ed : EntryJson) :
  let data := build_data render_body entries in
  ed ∈ Viewer.entries data →
  (λ bl, (bj_path bl, bj_label bl)) <$> e_backlinks ed
  = (λ g, (g_from g, g_label g))
      <$> filter (λ g, g_to g = e_path ed) (graph_edges data).
Proof.
  intros data. subst data.
  rewrite build_data_entries, build_data_graph_edges.
  intros (B & -> & HB)%list_elem_of_fmap.
  rewrite entry_json_backlinks. apply backlinks_incoming_edges.
Qed.

Lemma count_types_from (eds : list EntryJson) (m : gmap string nat) (t : string) :
  foldl (λ type_counts e,
           <[e_type e := S (default 0 (type_counts !! e_type e))]> type_counts)
        m eds !! t
  = match length (filter (λ ed, e_type ed = t) eds) with
    | 0 => m !! t
    | S k => Some (default 0 (m !! t) + S k)
    end.
Proof.
  revert m. induction eds as [|ed eds IH]; intros m; [done|].
  simpl foldl. rewrite IH, filter_cons.
  destruct (decide (e_type ed = t)) as [->|Hne].
  - rewrite lookup_insert_eq. simpl.
    destruct (length (filter _ eds)); f_equal; lia.
  - by rewrite lookup_insert_ne.
Qed.

(** X27.  The [by_type] statistics count the entries of each type: a
    type has an item exactly when some entry has that type, and its
    count is the number of such entries; no item has the count 0. *)
Theorem by_type_counts_entries (entries : list Entry.t) (t : string) :
  by_type (stats (build_data render_body entries)) !! t
  = match length (filter (λ E, Entry.type E = t) entries) with
    | 0 => None
    | n => Some n
    end.
Proof.
  unfold build_data. rewrite emit_closed. simpl. unfold count_types.
  rewrite count_types_from, lookup_empty. simpl.
  assert (length (filter (λ ed, e_type ed = t)
                    (entry_json render_body (index_backlinks entries) <$> entries))
          = length (filter (λ E, Entry.type E = t) entries)) as ->; [|done].
  induction entries as [|E l IH] in |- * at 2 3; [done|].
  rewrite fmap_cons, !filter_cons. simpl.
  destruct (decide (Entry.type E = t)); simpl; by rewrite IH.
Qed.

Lemma collect_tags_from (eds : list EntryJson) (acc : gset string) (tag : string) :
  tag ∈ foldl (λ all_tags e, all_tags ∪ list_to_set (e_tags e)) acc eds
  ↔ tag ∈ acc ∨ ∃ ed, ed ∈ eds ∧ tag ∈ e_tags ed.
Proof.
  revert acc. induction eds as [|ed eds IH]; intros acc; simpl.
  - split; [by left|]. intros [?|(ed & Hed & _)]; [done|]. by inversion Hed.
  - rewrite IH, elem_of_union, elem_of_list_to_set. split.
    + intros [[?|?]|(ed' & Hed' & Ht)].
      * by left.
      * right. exists ed. split; [by left|done].
      * right. exists ed'. split; [by right|done].
    + intros [?|(ed' & Hed' & Ht)]; [by left; left|].
      apply elem_of_cons in Hed' as [->|Hed'].
      * left. by right.
      * right. by exists ed'.
Qed.

(** X28.  The [tags] statistics list every tag of every entry once, in
    ascending order, and nothing else. *)
Theorem stat_tags_sorted_distinct (entries : list Entry.t) :
  let tags := stat_tags (stats (build_data render_body entries)) in
  StronglySorted String.le tags
  ∧ NoDup tags
  ∧ ∀ tag, tag ∈ tags ↔ ∃ E, E ∈ entries ∧ tag ∈ Entry.tags E.
Proof.
  unfold build_data. rewrite emit_closed. simpl. split; [|split].
  - apply sorted_strongly.
  - rewrite sorted_permutation. apply NoDup_elements.
  - intros tag. rewrite sorted_permutation, elem_of_elements.
    unfold collect_tags. rewrite collect_tags_from. split.
    + intros [?%not_elem_of_empty|(ed & Hed & Ht)]; [done|].
      apply list_elem_of_fmap in Hed as (E & -> & HE). by exists E.
    + intros (E & HE & Ht). right.
      exists (entry_json render_body (index_backlinks entries) E).
      split; [|done]. apply list_elem_of_fmap. by exists E.
Qed.

(** X29.  When the loaded entries have distinct paths, the backlinks of
    all records together are as many as the graph edges that point to a
    node of the graph: every edge that resolves is counted once, and a
    dangling edge is never counted. *)
Theorem backlinks_count_resolved_edges (entries : list Entry.t) :
  let data := build_data render_body entries in
  NoDup (Entry.path <$> entries) →
  sum_list (length ∘ e_backlinks <$> Viewer.entries data)
  = length (filter (λ g, g_to g ∈ n_id <$> graph_nodes data) (graph_edges data)).
Proof.
  intros data Hnd. subst data.
  rewrite build_data_entries, build_data_graph_nodes, build_data_graph_edges.
  rewrite <- !list_fmap_compose.
  change (n_id ∘ node_json) with Entry.path.
  rewrite <- (length_filter_keys _ _ Hnd), <- list_fmap_compose.
  f_equal. apply list_fmap_ext. intros i B _. unfold compose.
  rewrite entry_json_backlinks.
  rewrite <- (length_fmap (λ bl, (bj_path bl, bj_label bl))).
  rewrite backlinks_incoming_edges. by rewrite length_fmap.
Qed.

End viewer_graph.

(** ** The tool and the CLI on one source *)

Section one_source.
Variable config : Config.t.
Variable world : World.
Variable lib : PyLib.

Lemma push_calls filename content branch tr :
  Py.truthy branch = false →
  (Tools.push config world lib filename content branch tr).2
  = (GitHubClient.upload_file world lib (gh_client config)
       (Config.assets_dir (Config.knowledge config) +:+ "/" +:+ filename)
       content (Py.or_ branch (Config.default_branch (Config.github config))) tr).2.
Proof.
  intros Hb. unfold Tools.push, try_except, bind, ret. rewrite Hb.
  destruct (GitHubClient.upload_file _ _ _ _ _ _ _) as [[r|e] tr2]; [done|].
  by destruct e.
Qed.

(** X30.  Without a branch argument the upload tool and the upload
    command of the CLI given the one source make the same calls, in the
    same order. *)
Theorem upload_tool_and_cli_same_calls
    (source : string) (branch : option string) (tr : list Call) :
  Py.truthy branch = false →
  (Tools.kb_upload config world lib source branch tr).2
  = (Cli.cmd_upload config world lib [source] branch tr).2.
Proof.
  intros Hb. unfold Tools.kb_upload, Cli.cmd_upload.
  destruct (negb (Py.truthy _)); [done|].
  destruct (repo_unset config); [done|].
  assert (∀ r : Outcome * list Call, (Cli.except_github r).2 = r.2) as ->.
  { intros r. unfold Cli.except_github. by destruct (status r.1) as [| |[]]. }
  rewrite Hb. simpl.
  destruct (negb (bool_decide _)); [done|].
  destruct (is_url source).
  - destruct (http_get world tr source) as [content|[]]; try done.
    rewrite push_calls by done.
    by destruct (GitHubClient.upload_file _ _ _ _ _ _ _) as [[r|e] tr2].
  - destruct (read_file world tr source) as [[content|e]|]; try done.
    rewrite push_calls by done.
    by destruct (GitHubClient.upload_file _ _ _ _ _ _ _) as [[r|e] tr2].
Qed.

End one_source.

(** ** The further properties on the sample data *)

Lemma client_request_discipline_witness :
  ∃ new,
    (GitHubClient.ensure_branch sample_world sample_client "drafts" "main" []).2
    = [] ++ new
    ∧ requests_of sample_client [GET; POST] new ∧ length new ≤ 3.
Proof.
  apply (proj1 (client_request_discipline sample_world sample_lib sample_client [])
           "drafts" "main"
           (GitHubClient.ensure_branch sample_world sample_client "drafts" "main" []).1).
  vm_compute. reflexivity.
Defined.

Lemma ensure_branch_existing_witness :
  GitHubClient.ensure_branch full_world sample_client "drafts" "main" []
  = (Ok (JStr "abc"), [] ++ [GhRequest sample_client (ref_lookup sample_client "drafts")]).
Proof.
  eapply (ensure_branch_existing full_world sample_client "drafts" "main" []
            _ (JObj [("sha", JStr "abc")]) (JStr "abc")).
  - reflexivity.
  - reflexivity.
  - eexists. split; reflexivity.
  - reflexivity.
Defined.

Lemma ensure_branch_missing_base_witness :
  GitHubClient.ensure_branch sample_world sample_client "drafts" "main" []
  = (Raise (GitHubClientError
              ("Base branch '" +:+ "main" +:+ "' not found: " +:+ Py.fmt_nat 404)),
     [] ++ [ GhRequest sample_client (ref_lookup sample_client "drafts");
             GhRequest sample_client (ref_lookup sample_client "main") ]).
Proof.
  apply (ensure_branch_missing_base sample_world sample_client "drafts" "main" []
           {| status_code := 404; text := "Not Found"; json_body := None |}
           {| status_code := 404; text := "Not Found"; json_body := None |}).
  - reflexivity.
  - simpl. lia.
  - reflexivity.
  - simpl. lia.
Defined.

Lemma ensure_branch_creates_witness :
  GitHubClient.ensure_branch staged_world sample_client "drafts" "main" []
  = (Ok (JStr "abc"),
     [] ++ [ GhRequest sample_client (ref_lookup sample_client "drafts");
             GhRequest sample_client (ref_lookup sample_client "main");
             GhRequest sample_client (ref_create sample_client "drafts" (JStr "abc")) ]).
Proof.
  apply (ensure_branch_creates_at_base staged_world sample_client "drafts" "main" []
           {| status_code := 404; text := "Not Found"; json_body := None |}
           {| status_code := 200; text := "";
              json_body := Some (JObj [ ("object", JObj [("sha", JStr "abc")]);
                                        ("sha", JStr "old") ]) |}
           {| status_code := 200; text := "";
              json_body := Some (JObj [("content", JObj [("sha", JStr "new")])]) |}
           (JObj [("sha", JStr "abc")]) (JStr "abc")).
  - reflexivity.
  - simpl. lia.
  - reflexivity.
  - reflexivity.
  - eexists. split; reflexivity.
  - reflexivity.
  - reflexivity.
Defined.

Lemma upload_file_existing_witness :
  ∃ r,
    GitHubClient.upload_file full_world sample_lib sample_client
      "knowledge/assets/a.png" [] "main" []
    = (r, [] ++ [ GhRequest sample_client
                    (contents_lookup sample_client "knowledge/assets/a.png" "main");
                  GhRequest sample_client
                    (contents_write sample_client "knowledge/assets/a.png"
                       (upload_fields sample_lib "knowledge/assets/a.png" [] "main"
                          ++ [("sha", JStr "old")])) ]).
Proof.
  eapply (upload_file_forwards_existing_sha full_world sample_lib sample_client
            "knowledge/assets/a.png" [] "main" [] _ (JStr "old")).
  - reflexivity.
  - left. split; [reflexivity|]. eexists. split; reflexivity.
Defined.

Lemma upload_file_success_witness :
  ∃ fields resp content_,
    (GitHubClient.upload_file full_world sample_lib sample_client
       "knowledge/assets/a.png" [] "main" []).2
    = [] ++ [ GhRequest sample_client
                (contents_lookup sample_client "knowledge/assets/a.png" "main");
              GhRequest sample_client
                (contents_write sample_client "knowledge/assets/a.png" fields) ]
    ∧ gh_request full_world
        ([] ++ [GhRequest sample_client
                  (contents_lookup sample_client "knowledge/assets/a.png" "main")])
        sample_client
        (contents_write sample_client "knowledge/assets/a.png" fields) = Ok resp
    ∧ (status_code resp = 200 ∨ status_code resp = 201)
    ∧ has_field resp "content" content_
    ∧ Json.getitem "sha" content_ = Ok (JStr "new").
Proof.
  apply (upload_file_success_means_written full_world sample_lib sample_client
           "knowledge/assets/a.png" [] "main" []
           (GitHubClient.upload_file full_world sample_lib sample_client
              "knowledge/assets/a.png" [] "main" []).2
           {| GitHub.path := "knowledge/assets/a.png"; GitHub.branch := "main";
              GitHub.sha := JStr "new" |}).
  vm_compute. reflexivity.
Defined.

Lemma list_directory_missing_witness :
  GitHubClient.list_directory sample_world sample_client "knowledge/assets" "main" []
  = (Ok [],
     [] ++ [GhRequest sample_client
              (contents_lookup sample_client "knowledge/assets" "main")]).
Proof.
  apply (list_directory_not_ok sample_world sample_client "knowledge/assets" "main" []
           {| status_code := 404; text := "Not Found"; json_body := None |}).
  - reflexivity.
  - simpl. lia.
Defined.

Lemma list_directory_files_witness :
  GitHubClient.list_directory listing_world sample_client "knowledge/assets" "main" []
  = (Ok [JStr "knowledge/assets/a.png"],
     [] ++ [GhRequest sample_client
              (contents_lookup sample_client "knowledge/assets" "main")]).
Proof.
  eapply (proj1 (list_directory_files listing_world sample_client
                   "knowledge/assets" "main" [] _
                   [ JObj [ ("type", JStr "file");
                            ("path", JStr "knowledge/assets/a.png") ];
                     JObj [ ("type", JStr "dir");
                            ("path", JStr "knowledge/assets/old") ] ]
                   eq_refl eq_refl eq_refl)).
  repeat constructor.
  - exists (JStr "file"). split; [reflexivity|]. intros _. by eexists.
  - exists (JStr "dir"). split; [reflexivity|]. intros [=].
Defined.

Lemma kb_upload_calls_witness :
  (Tools.kb_upload sample_config sample_world sample_lib "a.png" None []).2 = []
  ∨ ∃ rest,
      (Tools.kb_upload sample_config sample_world sample_lib "a.png" None []).2
      = [] ++ source_call "a.png" :: rest
      ∧ requests_of (gh_client sample_config) [GET; POST; PUT] rest
      ∧ length rest ≤ 5
      ∧ (Py.truthy None = false →
         requests_of (gh_client sample_config) [GET; PUT] rest).
Proof.
  apply (kb_upload_fetches_then_requests sample_config sample_world sample_lib
           "a.png" None []
           (Tools.kb_upload sample_config sample_world sample_lib "a.png" None []).2
           (Tools.kb_upload sample_config sample_world sample_lib "a.png" None []).1).
  vm_compute. reflexivity.
Defined.

Lemma kb_upload_without_content_witness :
  content_of staged_world "a.png" [] = None
  ∧ ((Tools.kb_upload sample_config staged_world sample_lib "a.png" None []).2 = []
     ∨ (Tools.kb_upload sample_config staged_world sample_lib "a.png" None []).2
       = [] ++ [source_call "a.png"])
  ∧ ∃ msg,
      (Tools.kb_upload sample_config staged_world sample_lib "a.png" None []).1
      = Ok msg
      ∧ Py.startswith "Error: " msg = true.
Proof.
  split; [reflexivity|].
  destruct (kb_upload_without_content_sends_nothing sample_config staged_world
              sample_lib "a.png" None [] eq_refl) as [Hcalls [_ Hfile]].
  split; [exact Hcalls|]. apply Hfile; reflexivity.
Defined.

Lemma kb_upload_catches_witness :
  Tools.kb_upload sample_config failing_world sample_lib "a.png" None []
  = (Ok ("Error: " +:+ "Failed to upload '" +:+ "knowledge/assets/a.png"
           +:+ "': " +:+ Py.fmt_nat 500 +:+ " " +:+ "boom"),
     [ ReadFile "a.png";
       GhRequest sample_client
         (contents_lookup sample_client "knowledge/assets/a.png" "main");
       GhRequest sample_client
         (contents_write sample_client "knowledge/assets/a.png"
            (upload_fields sample_lib "knowledge/assets/a.png" [] "main")) ]).
Proof.
  assert (ext_of sample_lib "a.png" ∈ GitHub.IMAGE_EXTENSIONS) as Hext.
  { apply (bool_decide_eq_true_1
             (ext_of sample_lib "a.png" ∈ GitHub.IMAGE_EXTENSIONS)).
    vm_compute. reflexivity. }
  apply (proj2 (proj2 (kb_upload_catches_github_errors sample_config failing_world
                         sample_lib "a.png" None [])
                  [] eq_refl eq_refl Hext eq_refl)
           _ [ReadFile "a.png"]).
  - left. split; reflexivity.
  - vm_compute. reflexivity.
Defined.

Lemma kb_add_listing_witness :
  ¬ blank (nbsp +:+ "a note")
  ∧ (Tools.kb_add sample_kb sample_config failing_world sample_build_prompt
       (nbsp +:+ "a note") None []).2
    = [GhRequest sample_client
         (contents_lookup sample_client "knowledge/assets" "main")]
      ++ [CursorLaunchAgent (Some "key") (sample_build_prompt "a note" sample_kb [])
            "https://github.com/me/notes" "main"].
Proof.
  assert (¬ blank (nbsp +:+ "a note")) as Hnb.
  { intros H. apply strip_empty_iff in H. vm_compute in H. discriminate. }
  split; [exact Hnb|].
  apply (proj2 (kb_add_listing_is_best_effort sample_kb sample_config failing_world
                  sample_build_prompt (nbsp +:+ "a note") None [] Hnb
                  eq_refl eq_refl)
           ("Failed to list '" +:+ "knowledge/assets" +:+ "': " +:+ Py.fmt_nat 500)).
  - reflexivity.
  - vm_compute. reflexivity.
Defined.

Lemma kb_add_launch_answer_witness :
  (Tools.kb_add sample_kb sample_config sample_world sample_build_prompt
     "a note" None []).1
  = Ok ("Cloud agent launched." +:+ nl
          +:+ "Agent ID: " +:+ "id" +:+ nl
          +:+ "Dashboard: " +:+ "url" +:+ nl
          +:+ "Use kb_status with this agent_id to check progress.")
  ∧ (Tools.kb_add sample_kb sample_config full_world sample_build_prompt
       "a note" None []).1
    = Ok ("Error: " +:+ "quota").
Proof.
  split.
  - apply (proj1 (kb_add_reports_launch_answer sample_kb sample_config sample_world
                    sample_build_prompt "a note" None []
                    [GhRequest sample_client
                       (contents_lookup sample_client "knowledge/assets" "main")]
                    (Tools.kb_add sample_kb sample_config sample_world
                       sample_build_prompt "a note" None []).1
                    (Some "key") (sample_build_prompt "a note" sample_kb [])
                    "https://github.com/me/notes" "main"
                    ltac:(vm_compute; reflexivity))
             (mkLaunchResult "id" "url")).
    reflexivity.
  - apply (proj2 (kb_add_reports_launch_answer sample_kb sample_config full_world
                    sample_build_prompt "a note" None []
                    [GhRequest sample_client
                       (contents_lookup sample_client "knowledge/assets" "main")]
                    (Tools.kb_add sample_kb sample_config full_world
                       sample_build_prompt "a note" None []).1
                    (Some "key") (sample_build_prompt "a note" sample_kb [])
                    "https://github.com/me/notes" "main"
                    ltac:(vm_compute; reflexivity))).
    reflexivity.
Defined.

Lemma kb_add_catches_witness :
  (∀ pre gh req msg,
     gh_request full_world pre gh req ≠ Raise (CursorClientError msg))
  ∧ ∀ msg,
      (Tools.kb_add sample_kb sample_config full_world sample_build_prompt
         "a note" None []).1
      ≠ Raise (CursorClientError msg).
Proof.
  assert (∀ pre gh req msg,
            gh_request full_world pre gh req ≠ Raise (CursorClientError msg))
    as Hgh by (intros pre gh req msg; simpl; discriminate).
  split; [exact Hgh|].
  exact (kb_add_catches_agent_errors sample_kb sample_config full_world
           sample_build_prompt "a note" None [] Hgh).
Defined.

Lemma kb_status_witness :
  Tools.kb_status sample_config lost_status "agent-1" = Ok ("Error: " +:+ "gone")
  ∧ (∀ msg, Tools.kb_status sample_config lost_status "agent-1"
            ≠ Raise (CursorClientError msg))
  ∧ ∀ get_status',
      Tools.kb_status bare_config get_status' "agent-1"
      = Tools.kb_status bare_config lost_status "agent-1".
Proof.
  split; [reflexivity|]. split.
  - exact (proj1 (kb_status_error_discipline sample_config lost_status "agent-1")).
  - exact (proj2 (proj2 (kb_status_error_discipline bare_config lost_status "agent-1"))
             eq_refl).
Defined.

Lemma nothing_found_witness :
  @search _ sample_ops sample_kb "anything" 20 = []
  ∧ @Tools.kb_search _ sample_ops sample_kb "anything" = "No results found.".
Proof.
  split; [reflexivity|].
  exact (proj2 (proj1 (@nothing_found_iff_empty _ sample_ops sample_kb "anything"
                         None None)) eq_refl).
Defined.

Lemma cli_upload_lines_witness :
  status (Cli.cmd_upload sample_config sample_world sample_lib
            ["a.png"; "notes.txt"] None []).1 = Returned
  ∧ length (stdout (Cli.cmd_upload sample_config sample_world sample_lib
                      ["a.png"; "notes.txt"] None []).1)
    + length (stderr (Cli.cmd_upload sample_config sample_world sample_lib
                        ["a.png"; "notes.txt"] None []).1)
    = length ["a.png"; "notes.txt"].
Proof.
  assert (status (Cli.cmd_upload sample_config sample_world sample_lib
                    ["a.png"; "notes.txt"] None []).1 = Returned) as Hs
    by (vm_compute; reflexivity).
  split; [exact Hs|].
  exact (proj1 (cli_upload_one_line_per_source sample_config sample_world sample_lib
                  ["a.png"; "notes.txt"] None []) Hs).
Defined.

Lemma cli_upload_exit_witness :
  status (Cli.cmd_upload sample_config failing_world sample_lib
            ["a.png"] None []).1 = Exited 1
  ∧ ∃ before msg,
      stderr (Cli.cmd_upload sample_config failing_world sample_lib
                ["a.png"] None []).1 = before ++ [msg]
      ∧ Py.startswith "Error: " msg = true.
Proof.
  assert (status (Cli.cmd_upload sample_config failing_world sample_lib
                    ["a.png"] None []).1 = Exited 1) as Hs
    by (vm_compute; reflexivity).
  split; [exact Hs|].
  exact (proj2 (proj2 (cli_upload_exit_discipline sample_config failing_world
                         sample_lib ["a.png"] None []) 1 Hs)).
Defined.

Lemma cli_upload_calls_witness :
  ∃ new,
    (Cli.cmd_upload sample_config sample_world sample_lib
       ["a.png"; "notes.txt"] None []).2 = [] ++ new
    ∧ Forall (upload_call sample_lib (gh_client sample_config)
                ["a.png"; "notes.txt"] [GET; PUT]) new.
Proof.
  destruct (cli_upload_calls sample_config sample_world sample_lib
              ["a.png"; "notes.txt"] None []) as (new & Hrun & _ & Hnew).
  exists new. split; [exact Hrun|]. apply Hnew. reflexivity.
Defined.

Lemma url_query_witness :
  is_url "https://h/img/a.png" = true
  ∧ free_of "?" "https://h/img/a.png"
  ∧ filename_of sample_lib ("https://h/img/a.png" +:+ "?" +:+ "size=2")
    = filename_of sample_lib "https://h/img/a.png"
  ∧ ext_of sample_lib ("https://h/img/a.png" +:+ "?" +:+ "size=2")
    = ext_of sample_lib "https://h/img/a.png".
Proof.
  assert (free_of "?" "https://h/img/a.png") as Hfree.
  { unfold free_of. simpl. repeat (constructor; [discriminate|]). constructor. }
  split; [reflexivity|]. split; [exact Hfree|].
  exact (proj2 (url_query_ignored sample_lib "https://h/img/a.png" "size=2"
                  eq_refl Hfree)).
Defined.

Lemma glob_order_witness :
  sample_paths ≡ₚ reverse sample_paths
  ∧ Viewer.build sample_parse id true sample_paths
    = Viewer.build sample_parse id true (reverse sample_paths).
Proof.
  assert (sample_paths ≡ₚ reverse sample_paths) as Hp
    by (symmetry; apply reverse_Permutation).
  split; [exact Hp|].
  exact (build_independent_of_glob_order sample_parse id true _ _ Hp).
Defined.

Lemma backlinks_mirror_witness :
  (λ bl, (Viewer.bj_path bl, Viewer.bj_label bl))
    <$> Viewer.e_backlinks
          (Viewer.entry_json id (Viewer.index_backlinks [entry_a; entry_b]) entry_b)
  = (λ g, (Viewer.g_from g, Viewer.g_label g))
      <$> filter (λ g, Viewer.g_to g = "/b.md")
            (Viewer.graph_edges (Viewer.build_data id [entry_a; entry_b])).
Proof.
  apply (backlinks_mirror_graph_edges id [entry_a; entry_b]
           (Viewer.entry_json id (Viewer.index_backlinks [entry_a; entry_b]) entry_b)).
  rewrite build_data_entries. right. left.
Defined.

Lemma stat_tags_witness :
  "x" ∈ Viewer.stat_tags (Viewer.stats (Viewer.build_data id [entry_a; entry_b])).
Proof.
  apply (proj2 (proj2 (stat_tags_sorted_distinct id [entry_a; entry_b]))).
  exists entry_a. split; [left|left].
Defined.

Lemma backlinks_count_witness :
  NoDup (Entry.path <$> [entry_a; entry_b])
  ∧ sum_list (length ∘ Viewer.e_backlinks
                <$> Viewer.entries (Viewer.build_data id [entry_a; entry_b]))
    = length (filter (λ g, Viewer.g_to g
                           ∈ Viewer.n_id
                               <$> Viewer.graph_nodes
                                     (Viewer.build_data id [entry_a; entry_b]))
                (Viewer.graph_edges (Viewer.build_data id [entry_a; entry_b]))).
Proof.
  assert (NoDup (Entry.path <$> [entry_a; entry_b])) as Hnd.
  { apply (bool_decide_unpack _). vm_compute. exact I. }
  split; [exact Hnd|].
  exact (backlinks_count_resolved_edges id [entry_a; entry_b] Hnd).
Defined.

Lemma upload_same_calls_witness :
  (Tools.kb_upload sample_config sample_world sample_lib "a.png" None []).2
  = (Cli.cmd_upload sample_config sample_world sample_lib ["a.png"] None []).2.
Proof.
  exact (upload_tool_and_cli_same_calls sample_config sample_world sample_lib
           "a.png" None [] eq_refl).
Defined.
